(** * Keep-alive supervisor for two Telegram bots: model and properties

    A shallow embedding of the Python sources

      - keep_bot_alive_24x7.py       (class BotKeepAlive24x7, subprocess workers)
      - run_cloud_24_7.py + webserver.py (class CloudRunBotManager, module-level
                                      Flask app)
      - run_bots_24x7_integrated.py  (class IntegratedBot24x7, thread workers)
      - external_keepalive_monitor.py, simple_external_pinger.py

    Python objects become records, methods become computations in a small
    state-and-exception monad over the object and the operating system it runs
    on.  Everything the code cannot decide for itself (the wall clock, which
    library call raises, which child dies while the caller sleeps, what a remote
    server answers) is read from an environment [Env] that every theorem
    quantifies over. *)

From stdpp Require Import gmap strings list.
From Stdlib Require Import ZArith Lia.

Set Warnings "-register-all".
Local Open Scope Z_scope.

(** ** Python values that cross the HTTP boundary *)

Definition timestamp := Z.          (* a datetime, in microseconds *)
Definition pid := positive.         (* a Popen handle or a Thread object *)

(** A JSON document as [jsonify] emits it and [response.json()] returns it.
    [JIso t] is the string [t.isoformat()] and [JDelta d] the string
    [str(timedelta)]: their rendering is left symbolic.  An object is a Python
    dict, hence a finite map. *)
Inductive json :=
| JNull
| JBool (b : bool)
| JInt (n : Z)
| JStr (s : string)
| JIso (t : timestamp)
| JDelta (d : Z)
| JArr (l : list json)
| JObj (kv : gmap string json).

(** A dict literal: later keys overwrite earlier ones. *)
Definition dict (items : list (string * json)) : gmap string json :=
  foldl (fun m kv => <[kv.1 := kv.2]> m) ∅ items.

(** Python truthiness of a decoded JSON value. *)
Definition truthy (v : json) : bool :=
  match v with
  | JNull => false
  | JBool b => b
  | JInt n => negb (n =? 0)
  | JStr s => negb (String.eqb s EmptyString)
  | JIso _ | JDelta _ => true
  | JArr l => match l with [] => false | _ => true end
  | JObj kv => negb (bool_decide (kv = ∅))
  end.

(** The value of [h and h.poll() is None]: [None] when the handle [h] is
    [None], a bool otherwise. *)
Definition py_flag (v : option bool) : json :=
  match v with None => JNull | Some b => JBool b end.

Definition default_of (o : option json) (d : json) : json :=
  match o with Some v => v | None => d end.

(** [a and b] on Python values. *)
Definition py_and (a b : json) : json := if truthy a then b else a.

Definition is_true (v : option bool) : bool :=
  match v with Some true => true | _ => false end.

Inductive content := Text (s : string) | Json (doc : json).

Record response := { status_code : Z; body : content }.

(** ** Exceptions, events and the environment *)

(** Subclasses of [Exception] that the sources can meet. *)
Inductive exn :=
| OSError | RuntimeError | ImportError | ValueError | AttributeError
| JSONDecodeError | ZeroDivisionError | Timeout | ConnectionError | OtherError.

(** What a run leaves behind, newest first in [trace]. *)
Inductive event :=
| Log (msg : string)             (* print / self.log; interpolations elided *)
| Sleep (secs : Z)               (* time.sleep *)
| Run (argv : list string)       (* subprocess.run *)
| Popen (script : string)        (* subprocess.Popen([sys.executable, script]) *)
| ThreadStart (target : string)  (* threading.Thread(target=...).start() *)
| Terminate (p : pid)            (* Popen.terminate *)
| StopPolling (bot : string)     (* TeleBot.stop_polling *)
| Get (url : string)             (* requests.get *)
| Divide (num den : Z).          (* an evaluation of num / den *)

Record process := { image : string; script : string; alive : bool }.

(** A Thread object: created, started (its target has not reached its
    blocking call yet), blocked in its long-running call, or returned. *)
Inductive phase := Created | Starting | Serving | Finished.

Record thread := { target : string; th_phase : phase }.

(** What happens to a task while the caller sleeps. *)
Inductive fate := Dies | Fails | Proceeds.

Inductive http_result :=
| Answer (code : Z) (payload : option json)   (* [None]: body is not JSON *)
| Refused (e : exn).                          (* requests.get raised [e] *)

Record Env := {
  wall : nat -> timestamp;            (* datetime.now() at the k-th step *)
  fault : nat -> option exn;          (* the primitive at step k raises *)
  fates : nat -> list (pid * fate);   (* tasks changing during the sleep at k *)
  stdout_of : nat -> string;          (* what communicate() reads at step k *)
  remote : nat -> http_result;        (* what a remote server answers at k *)
  interrupt : nat -> bool;            (* Ctrl+C has arrived by step k *)
  os_name : string;                   (* os.name *)
  executable : string;                (* image name of sys.executable *)
  env_port : Z                        (* int(os.environ.get('PORT', 8080)) *)
}.

Record World := {
  env : Env;
  procs : gmap pid process;
  threads : gmap pid thread;
  next_id : pid;
  step : nat;
  trace : list event
}.

Record Sys (Obj : Type) := mkSys { self : Obj; os : World }.
Arguments mkSys {Obj} _ _.
Arguments self {Obj} _.
Arguments os {Obj} _.

(** ** The monad: state plus Python exceptions *)

Inductive outcome (A : Type) := Ret (a : A) | Raise (e : exn).
Arguments Ret {A} _.
Arguments Raise {A} _.

Definition M (St A : Type) : Type := St -> outcome A * St.

Definition ret {St A} (a : A) : M St A := fun s => (Ret a, s).

Definition bind {St A B} (c : M St A) (k : A -> M St B) : M St B :=
  fun s => match c s with
           | (Ret a, s') => k a s'
           | (Raise e, s') => (Raise e, s')
           end.

Definition raise {St A} (e : exn) : M St A := fun s => (Raise e, s).

(** [try: c except Exception as e: h e]; mutations made by [c] before it
    raised stay. *)
Definition try_except {St A} (c : M St A) (h : exn -> M St A) : M St A :=
  fun s => match c s with
           | (Ret a, s') => (Ret a, s')
           | (Raise e, s') => h e s'
           end.

Definition gets {St A} (f : St -> A) : M St A := fun s => (Ret (f s), s).

Definition modify {St} (f : St -> St) : M St unit := fun s => (Ret tt, f s).

Declare Scope py_scope.
Delimit Scope py_scope with py.
Notation "x <- c ;; k" := (bind c (fun x => k))
  (at level 100, c at next level, right associativity) : py_scope.
Notation "c ;; k" := (bind c (fun _ => k))
  (at level 100, right associativity) : py_scope.
Local Open Scope py_scope.

Definition when {St} (b : bool) (c : M St unit) : M St unit :=
  if b then c else ret tt.

(** Run a computation on a component of the state. *)
Definition zoom {S T A} (get : S -> T) (set : T -> S -> S)
    (c : M (Sys T) A) : M (Sys S) A :=
  fun s => let '(r, t) := c (mkSys (get (self s)) (os s)) in
           (r, mkSys (set (self t) (self s)) (os t)).

(** A number as the statistics print it: an int, or the float of
    [num / den], kept as the exact fraction. *)
Inductive pynum := PInt (n : Z) | PFrac (num den : Z).

(** ** Primitives of the runtime *)

Section Runtime.
Context {Obj : Type}.

Definition on_self (f : Obj -> Obj) : M (Sys Obj) unit :=
  modify (fun s => mkSys (f (self s)) (os s)).

Definition on_os (f : World -> World) : M (Sys Obj) unit :=
  modify (fun s => mkSys (self s) (f (os s))).

Definition tick (w : World) : World :=
  {| env := env w; procs := procs w; threads := threads w;
     next_id := next_id w; step := S (step w); trace := trace w |}.

Definition record (e : event) (w : World) : World :=
  {| env := env w; procs := procs w; threads := threads w;
     next_id := next_id w; step := step w; trace := e :: trace w |}.

Definition with_procs (f : gmap pid process -> gmap pid process)
    (w : World) : World :=
  {| env := env w; procs := f (procs w); threads := threads w;
     next_id := next_id w; step := step w; trace := trace w |}.

Definition with_threads (f : gmap pid thread -> gmap pid thread)
    (w : World) : World :=
  {| env := env w; procs := procs w; threads := f (threads w);
     next_id := next_id w; step := step w; trace := trace w |}.

Definition bump_id (w : World) : World :=
  {| env := env w; procs := procs w; threads := threads w;
     next_id := Pos.succ (next_id w); step := step w; trace := trace w |}.

Definition emit (e : event) : M (Sys Obj) unit := on_os (record e).

(** datetime.now() *)
Definition now : M (Sys Obj) timestamp :=
  t <- gets (fun s => wall (env (os s)) (step (os s))) ;;
  on_os tick ;;
  ret t.

(** self.log(message): a timestamp is taken, the line is printed. *)
Definition log (msg : string) : M (Sys Obj) unit :=
  _ <- now ;; emit (Log msg).

(** A library call that may raise: it consumes one step of the
    environment and raises what [fault] holds there. *)
Definition guarded : M (Sys Obj) unit :=
  f <- gets (fun s => fault (env (os s)) (step (os s))) ;;
  on_os tick ;;
  match f with Some e => raise e | None => ret tt end.

Definition stop_process (p : process) : process :=
  {| image := image p; script := script p; alive := false |}.

Fixpoint fate_of (fs : list (pid * fate)) (i : pid) : option fate :=
  match fs with
  | [] => None
  | (j, f) :: rest => if Pos.eqb j i then Some f else fate_of rest i
  end.

Definition age_process (fs : list (pid * fate)) (i : pid) (p : process)
    : process :=
  match fate_of fs i with
  | Some Dies | Some Fails => stop_process p
  | _ => p
  end.

Definition age_thread (fs : list (pid * fate)) (i : pid) (t : thread)
    : thread :=
  match fate_of fs i, th_phase t with
  | Some Proceeds, Starting => {| target := target t; th_phase := Serving |}
  | Some Fails, (Starting | Serving) =>
      {| target := target t; th_phase := Finished |}
  | Some Dies, Serving => {| target := target t; th_phase := Finished |}
  | _, _ => t
  end.

(** time.sleep(secs): a negative length is a ValueError; otherwise time
    passes for every other task as well. *)
Definition sleep (secs : Z) : M (Sys Obj) unit :=
  (if secs <? 0 then raise ValueError else ret tt) ;;
  fs <- gets (fun s => fates (env (os s)) (step (os s))) ;;
  emit (Sleep secs) ;;
  on_os (with_procs (map_imap (fun i p => Some (age_process fs i p)))) ;;
  on_os (with_threads (map_imap (fun i t => Some (age_thread fs i t)))) ;;
  on_os tick.

(** The operating system creates a child running [file] under the next
    free identifier. *)
Definition spawn (file : string) (w : World) : World :=
  bump_id (with_procs (insert (next_id w)
                         {| image := executable (env w); script := file;
                            alive := true |}) w).

(** subprocess.Popen([sys.executable, script], ...) *)
Definition popen (file : string) : M (Sys Obj) pid :=
  emit (Popen file) ;;
  guarded ;;
  p <- gets (fun s => next_id (os s)) ;;
  on_os (spawn file) ;;
  ret p.

(** [h.poll() is None] *)
Definition poll_is_none (p : pid) : M (Sys Obj) bool :=
  guarded ;;
  gets (fun s => match procs (os s) !! p with
                 | Some pr => alive pr
                 | None => false
                 end).

(** h.communicate(): the child has exited; its captured output. *)
Definition communicate (p : pid) : M (Sys Obj) string :=
  out <- gets (fun s => stdout_of (env (os s)) (step (os s))) ;;
  guarded ;;
  ret out.

(** h.terminate() *)
Definition terminate (p : pid) : M (Sys Obj) unit :=
  emit (Terminate p) ;;
  on_os (with_procs (alter stop_process p)).

(** What a command line does to the process table: [pkill -f pat]
    signals the processes whose command line names [pat], [taskkill /F
    /IM img] those whose image is [img]. *)
Definition command_effect (argv : list string) (p : process) : process :=
  match argv with
  | ["pkill"; "-f"; pat] =>
      if bool_decide (script p = pat) then stop_process p else p
  | ["taskkill"; "/F"; "/IM"; img] =>
      if bool_decide (image p = img) then stop_process p else p
  | _ => p
  end.

(** subprocess.run(argv, capture_output=True, check=False) *)
Definition subprocess_run (argv : list string) : M (Sys Obj) unit :=
  emit (Run argv) ;;
  guarded ;;
  on_os (with_procs (fmap (command_effect argv))).

Definition new_thread (name : string) (w : World) : World :=
  bump_id (with_threads (insert (next_id w)
                           {| target := name; th_phase := Created |}) w).

(** threading.Thread(target=..., daemon=True) *)
Definition thread_new (name : string) : M (Sys Obj) pid :=
  t <- gets (fun s => next_id (os s)) ;;
  on_os (new_thread name) ;;
  ret t.

Definition launch_thread (t : thread) : thread :=
  {| target := target t;
     th_phase := match th_phase t with Created => Starting | ph => ph end |}.

(** t.start() *)
Definition thread_run (t : pid) : M (Sys Obj) unit :=
  nm <- gets (fun s => match threads (os s) !! t with
                       | Some th => target th
                       | None => EmptyString
                       end) ;;
  emit (ThreadStart nm) ;;
  guarded ;;
  on_os (with_threads (alter launch_thread t)).

(** A local [Thread(...)] that is started at once. *)
Definition thread_start (name : string) : M (Sys Obj) pid :=
  t <- thread_new name ;;
  thread_run t ;;
  ret t.

(** t.is_alive() *)
Definition is_alive (t : pid) : M (Sys Obj) bool :=
  guarded ;;
  gets (fun s => match threads (os s) !! t with
                 | Some th => match th_phase th with
                              | Starting | Serving => true
                              | Created | Finished => false
                              end
                 | None => false
                 end).

(** flask.jsonify(d): status 200, JSON body. *)
Definition jsonify (items : list (string * json)) : M (Sys Obj) response :=
  ret {| status_code := 200; body := Json (JObj (dict items)) |}.

Definition text (s : string) : M (Sys Obj) response :=
  ret {| status_code := 200; body := Text s |}.

(** Flask turns an exception escaping a view into a 500 and an unknown
    path into a 404. *)
Definition view (h : M (Sys Obj) response) : M (Sys Obj) response :=
  try_except h (fun _ =>
    ret {| status_code := 500; body := Text "Internal Server Error" |}).

Definition not_found : M (Sys Obj) response :=
  ret {| status_code := 404; body := Text "Not Found" |}.

(** requests.get(url, timeout=...) against a remote host *)
Definition requests_get (url : string) : M (Sys Obj) (Z * option json) :=
  emit (Get url) ;;
  r <- gets (fun s => remote (env (os s)) (step (os s))) ;;
  on_os tick ;;
  match r with
  | Refused e => raise e
  | Answer code payload => ret (code, payload)
  end.

(** response.json() *)
Definition response_json (r : Z * option json) : M (Sys Obj) json :=
  match snd r with
  | Some doc => ret doc
  | None => raise JSONDecodeError
  end.

(** data.get(key, default): only a dict has [get]. *)
Definition data_get (data : json) (key : string) (default : json)
    : M (Sys Obj) json :=
  match data with
  | JObj kv => ret (default_of (kv !! key) default)
  | _ => raise AttributeError
  end.

(** Has Ctrl+C arrived?  KeyboardInterrupt is not an [Exception]: it passes
    every [except Exception] and is polled where the loops can observe it. *)
Definition interrupted : M (Sys Obj) bool :=
  b <- gets (fun s => interrupt (env (os s)) (step (os s))) ;;
  on_os tick ;;
  ret b.

(** [(num / den) * 100] on ints *)
Definition percent (num den : Z) : M (Sys Obj) pynum :=
  emit (Divide num den) ;;
  if den =? 0 then raise ZeroDivisionError else ret (PFrac (num * 100) den).

End Runtime.

Inductive loop_exit := Stopped | OutOfFuel.

(** s.rstrip('/') *)
Fixpoint rstrip_slash (s : string) : string :=
  match s with
  | EmptyString => EmptyString
  | String c rest =>
      match rstrip_slash rest with
      | EmptyString => if Ascii.eqb c (Ascii.ascii_of_nat 47) then EmptyString
                       else String c EmptyString
      | rest' => String c rest'
      end
  end.

(** ** keep_bot_alive_24x7.py: class BotKeepAlive24x7 *)

Module KeepAlive.

Record BotKeepAlive24x7 := {
  teacher_process : option pid;
  student_process : option pid;
  running : bool;
  restart_count : Z;
  start_time : timestamp;
  last_ping : timestamp;
  ping_count : Z;
  port : Z
}.

Definition State := Sys BotKeepAlive24x7.

Definition set_teacher_process (h : option pid) (o : BotKeepAlive24x7) :=
  {| teacher_process := h; student_process := student_process o;
     running := running o; restart_count := restart_count o;
     start_time := start_time o; last_ping := last_ping o;
     ping_count := ping_count o; port := port o |}.

Definition set_student_process (h : option pid) (o : BotKeepAlive24x7) :=
  {| teacher_process := teacher_process o; student_process := h;
     running := running o; restart_count := restart_count o;
     start_time := start_time o; last_ping := last_ping o;
     ping_count := ping_count o; port := port o |}.

Definition set_running (b : bool) (o : BotKeepAlive24x7) :=
  {| teacher_process := teacher_process o;
     student_process := student_process o;
     running := b; restart_count := restart_count o;
     start_time := start_time o; last_ping := last_ping o;
     ping_count := ping_count o; port := port o |}.

Definition set_restart_count (n : Z) (o : BotKeepAlive24x7) :=
  {| teacher_process := teacher_process o;
     student_process := student_process o;
     running := running o; restart_count := n;
     start_time := start_time o; last_ping := last_ping o;
     ping_count := ping_count o; port := port o |}.

Definition set_last_ping (t : timestamp) (o : BotKeepAlive24x7) :=
  {| teacher_process := teacher_process o;
     student_process := student_process o;
     running := running o; restart_count := restart_count o;
     start_time := start_time o; last_ping := t;
     ping_count := ping_count o; port := port o |}.

Definition set_ping_count (n : Z) (o : BotKeepAlive24x7) :=
  {| teacher_process := teacher_process o;
     student_process := student_process o;
     running := running o; restart_count := restart_count o;
     start_time := start_time o; last_ping := last_ping o;
     ping_count := n; port := port o |}.

(** BotKeepAlive24x7.__init__ *)
Definition init : M (Sys unit) BotKeepAlive24x7 :=
  t0 <- now ;;
  t1 <- now ;;
  p <- gets (fun s => env_port (env (os s))) ;;
  ret {| teacher_process := None; student_process := None; running := true;
         restart_count := 0; start_time := t0; last_ping := t1;
         ping_count := 0; port := p |}.

(** The object right after construction in world [w]. *)
Definition fresh (w : World) : State :=
  match init (mkSys tt w) with
  | (Ret o, s) => mkSys o (os s)
  | (Raise _, s) =>
      mkSys {| teacher_process := None; student_process := None;
               running := true; restart_count := 0; start_time := 0;
               last_ping := 0; ping_count := 0; port := 0 |} (os s)
  end.

(** [h and h.poll() is None] *)
Definition alive_flag (h : option pid) : M State (option bool) :=
  match h with
  | None => ret None
  | Some p => b <- poll_is_none p ;; ret (Some b)
  end.

(** *** The Flask views *)

Definition home : M State response :=
  text "🤖 Telegram Quiz Bot is running 24/7! 🎓".

Definition health : M State response :=
  t <- now ;;
  st <- gets (fun s => start_time (self s)) ;;
  let uptime := t - st in
  tp <- gets (fun s => teacher_process (self s)) ;;
  teacher_alive <- alive_flag tp ;;
  sp <- gets (fun s => student_process (self s)) ;;
  student_alive <- alive_flag sp ;;
  rc <- gets (fun s => restart_count (self s)) ;;
  lp <- gets (fun s => last_ping (self s)) ;;
  pc <- gets (fun s => ping_count (self s)) ;;
  t' <- now ;;
  jsonify
    [("status", JStr (if is_true teacher_alive && is_true student_alive
                      then "healthy" else "partial"));
     ("uptime_seconds", JInt (Z.quot uptime 1000000));
     ("uptime_formatted", JDelta uptime);
     ("teacher_bot_running", py_flag teacher_alive);
     ("student_bot_running", py_flag student_alive);
     ("restart_count", JInt rc);
     ("last_ping", JIso lp);
     ("ping_count", JInt pc);
     ("timestamp", JIso t')].

Definition keep_alive : M State response :=
  t <- now ;;
  on_self (set_last_ping t) ;;
  on_self (fun o => set_ping_count (ping_count o + 1) o) ;;
  pc <- gets (fun s => ping_count (self s)) ;;
  lp <- gets (fun s => last_ping (self s)) ;;
  t' <- now ;;
  st <- gets (fun s => start_time (self s)) ;;
  jsonify
    [("status", JStr "alive");
     ("message", JStr "Bot is running 24/7");
     ("ping_count", JInt pc);
     ("timestamp", JIso lp);
     ("uptime", JDelta (t' - st))].

Definition ping : M State response := text "pong".

(** *** Worker management *)

Definition kill_existing_bots : M State unit :=
  try_except
    (nm <- gets (fun s => os_name (env (os s))) ;;
     (if String.eqb nm "nt"
      then subprocess_run ["taskkill"; "/F"; "/IM"; "python.exe"]
      else subprocess_run ["pkill"; "-f"; "TelegramBot.py"] ;;
           subprocess_run ["pkill"; "-f"; "StudentBot.py"]) ;;
     sleep 2 ;;
     log "🔄 Cleared any existing bot processes")
    (fun _ => log "⚠️ Could not kill existing processes: {e}").

(** start_output_monitor: a daemon thread that copies the child's output
    to the log; only its creation is modelled. *)
Definition start_output_monitor (p : pid) (bot_name : string)
    : M State unit :=
  _ <- thread_start "monitor" ;; ret tt.

Definition start_teacher_bot : M State bool :=
  try_except
    (log "🎓 Starting Teacher Bot..." ;;
     p <- popen "TelegramBot.py" ;;
     on_self (set_teacher_process (Some p)) ;;
     sleep 5 ;;
     up <- poll_is_none p ;;
     if up then
       log "✅ Teacher Bot started successfully" ;;
       start_output_monitor p "Teacher Bot" ;;
       ret true
     else
       out <- communicate p ;;
       log "❌ Teacher Bot failed to start" ;;
       when (negb (String.eqb out EmptyString)) (log "   Output: {stdout}") ;;
       ret false)
    (fun _ => log "❌ Error starting Teacher Bot: {e}" ;; ret false).

Definition start_student_bot : M State bool :=
  try_except
    (log "👨‍🎓 Starting Student Bot..." ;;
     p <- popen "StudentBot.py" ;;
     on_self (set_student_process (Some p)) ;;
     sleep 5 ;;
     up <- poll_is_none p ;;
     if up then
       log "✅ Student Bot started successfully" ;;
       start_output_monitor p "Student Bot" ;;
       ret true
     else
       out <- communicate p ;;
       log "❌ Student Bot failed to start" ;;
       when (negb (String.eqb out EmptyString)) (log "   Output: {stdout}") ;;
       ret false)
    (fun _ => log "❌ Error starting Student Bot: {e}" ;; ret false).

Definition check_bots_health : M State (option bool * option bool) :=
  tp <- gets (fun s => teacher_process (self s)) ;;
  teacher_alive <- alive_flag tp ;;
  sp <- gets (fun s => student_process (self s)) ;;
  student_alive <- alive_flag sp ;;
  ret (teacher_alive, student_alive).

Definition restart_bots : M State bool :=
  on_self (fun o => set_restart_count (restart_count o + 1) o) ;;
  log "🔄 Restarting bots (restart #{self.restart_count})..." ;;
  kill_existing_bots ;;
  teacher_ok <- start_teacher_bot ;;
  student_ok <- start_student_bot ;;
  if teacher_ok && student_ok then
    log "✅ Both bots restarted successfully" ;; ret true
  else
    log "❌ Failed to restart one or both bots" ;; ret false.

(** The emergency route. *)
Definition restart_bots_endpoint : M State response :=
  success <- restart_bots ;;
  rc <- gets (fun s => restart_count (self s)) ;;
  jsonify
    [("status", JStr (if success then "success" else "failed"));
     ("message", JStr (if success then "Bots restarted"
                       else "Failed to restart bots"));
     ("restart_count", JInt rc)].

Definition routes : list string :=
  ["/"; "/health"; "/keep-alive"; "/ping"; "/restart-bots"].

(** The Flask application: one request, handled to completion. *)
Definition serve (path : string) : M State response :=
  if String.eqb path "/" then view home
  else if String.eqb path "/health" then view health
  else if String.eqb path "/keep-alive" then view keep_alive
  else if String.eqb path "/ping" then view ping
  else if String.eqb path "/restart-bots" then view restart_bots_endpoint
  else not_found.

(** *** The background loops *)

(** One pass of the body of [while self.running] in self_ping_loop; the
    request is answered by this very application. *)
Definition self_ping_once : M State unit :=
  try_except
    (emit (Get "http://localhost:{port}/keep-alive") ;;
     guarded ;;
     r <- serve "/keep-alive" ;;
     if status_code r =? 200
     then log "✅ Self-ping successful (total: {self.ping_count})"
     else log "⚠️ Self-ping returned status {response.status_code}")
    (fun _ => log "❌ Self-ping failed: {e}") ;;
  sleep 300.

(** One pass of the body of [while self.running] in monitor_bots_loop. *)
Definition monitor_once : M State unit :=
  try_except
    (r <- check_bots_health ;;
     let '(teacher_alive, student_alive) := r in
     (if negb (is_true teacher_alive) || negb (is_true student_alive) then
        log "💀 One or both bots have died!" ;;
        log "Teacher Bot: {status}" ;;
        log "Student Bot: {status}" ;;
        ok <- restart_bots ;;
        when (negb ok)
          (log "❌ Failed to restart, will retry in 30 seconds..." ;;
           sleep 30)
      else
        _ <- now ;;
        log "✅ Both bots healthy (uptime: {uptime})") ;;
     sleep 120)
    (fun _ => log "❌ Monitor error: {e}" ;; sleep 60).

Fixpoint monitor_bots_loop (fuel : nat) : M State loop_exit :=
  match fuel with
  | O => ret OutOfFuel
  | S fuel' =>
      go <- gets (fun s => running (self s)) ;;
      if go then monitor_once ;; monitor_bots_loop fuel'
      else ret Stopped
  end.

Definition start_flask_server : M State unit :=
  _ <- thread_start "run_flask" ;;
  sleep 2 ;;
  log "✅ HTTP server started successfully".

Definition banner (lines : list string) : M State unit :=
  foldr (fun l k => log l ;; k) (ret tt) lines.

Definition start : M State bool :=
  banner ["🚀 Starting 24/7 Telegram Bot Keep-Alive System"; "====";
          "This system will:"; "✅ Keep both bots running continuously";
          "✅ Prevent Google Cloud Run from shutting down";
          "✅ Auto-restart bots if they crash";
          "✅ Provide HTTP endpoints for external monitoring"; "===="] ;;
  start_flask_server ;;
  kill_existing_bots ;;
  teacher_ok <- start_teacher_bot ;;
  student_ok <- start_student_bot ;;
  if negb (teacher_ok && student_ok) then
    log "❌ Failed to start one or both bots" ;; ret false
  else
    banner ["🎉 System started successfully!"; "🎓 Teacher Bot: Running";
            "👨‍🎓 Student Bot: Running"; "🌐 HTTP server: http://localhost:{port}";
            "💬 Test by sending /start to your bots on Telegram"; "===="] ;;
    _ <- thread_start "self_ping_loop" ;;
    log "🔄 Self-ping system started (every 5 minutes)" ;;
    _ <- thread_start "monitor_bots_loop" ;;
    log "👀 Bot health monitoring started" ;;
    ret true.

Definition stop : M State unit :=
  log "🛑 Stopping all processes..." ;;
  on_self (set_running false) ;;
  tp <- gets (fun s => teacher_process (self s)) ;;
  match tp with Some p => terminate p | None => ret tt end ;;
  sp <- gets (fun s => student_process (self s)) ;;
  match sp with Some p => terminate p | None => ret tt end ;;
  log "✅ All processes stopped".

(** Everything that can act on a running system: a request, a pass of one
    of the two loops, or a life-cycle call. *)
Inductive op :=
| Request (path : string)
| SelfPing
| Monitor
| Restart
| Start
| Stop.

Definition run_op (o : op) : M State unit :=
  match o with
  | Request path => _ <- serve path ;; ret tt
  | SelfPing => self_ping_once
  | Monitor => monitor_once
  | Restart => _ <- restart_bots ;; ret tt
  | Start => _ <- start ;; ret tt
  | Stop => stop
  end.

(** The state after a schedule of operations; an exception that escapes an
    operation ends that operation only. *)
Definition after (ops : list op) (s : State) : State :=
  foldl (fun s o => snd (run_op o s)) s ops.

End KeepAlive.

(** ** webserver.py: a module-level Flask app with global counters *)

Module Webserver.

Record Globals := {
  bot_start_time : timestamp;
  last_keepalive_ping : timestamp;
  keepalive_count : Z
}.

Definition State := Sys Globals.

(** The module body, run at import. *)
Definition import : M (Sys unit) Globals :=
  t0 <- now ;;
  t1 <- now ;;
  ret {| bot_start_time := t0; last_keepalive_ping := t1;
         keepalive_count := 0 |}.

Definition fresh (w : World) : State :=
  match import (mkSys tt w) with
  | (Ret g, s) => mkSys g (os s)
  | (Raise _, s) =>
      mkSys {| bot_start_time := 0; last_keepalive_ping := 0;
               keepalive_count := 0 |} (os s)
  end.

Definition home : M State response :=
  text "🤖 Telegram Quiz Bot is running! 🎓".

Definition health : M State response :=
  t <- now ;;
  st <- gets (fun s => bot_start_time (self s)) ;;
  let uptime := t - st in
  lk <- gets (fun s => last_keepalive_ping (self s)) ;;
  kc <- gets (fun s => keepalive_count (self s)) ;;
  t' <- now ;;
  jsonify
    [("status", JStr "healthy");
     ("uptime_seconds", JInt (Z.quot uptime 1000000));
     ("uptime_formatted", JDelta uptime);
     ("last_keepalive", JIso lk);
     ("keepalive_count", JInt kc);
     ("timestamp", JIso t')].

Definition keep_alive_endpoint : M State response :=
  t <- now ;;
  on_self (fun g => {| bot_start_time := bot_start_time g;
                       last_keepalive_ping := t;
                       keepalive_count := keepalive_count g |}) ;;
  on_self (fun g => {| bot_start_time := bot_start_time g;
                       last_keepalive_ping := last_keepalive_ping g;
                       keepalive_count := keepalive_count g + 1 |}) ;;
  kc <- gets (fun s => keepalive_count (self s)) ;;
  lk <- gets (fun s => last_keepalive_ping (self s)) ;;
  jsonify
    [("status", JStr "alive");
     ("message", JStr "Bot is running");
     ("ping_count", JInt kc);
     ("timestamp", JIso lk)].

Definition ping : M State response := text "pong".

Definition routes : list string := ["/"; "/health"; "/keep-alive"; "/ping"].

Definition serve (path : string) : M State response :=
  if String.eqb path "/" then view home
  else if String.eqb path "/health" then view health
  else if String.eqb path "/keep-alive" then view keep_alive_endpoint
  else if String.eqb path "/ping" then view ping
  else not_found.

(** keep_alive(): start the server thread. *)
Definition keep_alive : M State unit :=
  _ <- thread_start "run" ;; ret tt.

(** One pass of [while True] in self_ping_loop. *)
Definition self_ping_once : M State unit :=
  try_except
    (emit (Get "http://localhost:{port}/keep-alive") ;;
     guarded ;;
     r <- serve "/keep-alive" ;;
     if status_code r =? 200
     then _ <- now ;; emit (Log "✅ Self-ping successful at {now}")
     else emit (Log "⚠️ Self-ping returned status {response.status_code}"))
    (fun _ => emit (Log "❌ Self-ping failed: {e}")) ;;
  sleep 300.

Definition start_self_ping : M State unit :=
  _ <- thread_start "self_ping_loop" ;;
  emit (Log "🔄 Self-ping loop started (every 5 minutes)").

End Webserver.

(** ** run_cloud_24_7.py: class CloudRunBotManager, served by webserver.py *)

Module CloudRun.

Record CloudRunBotManager := {
  teacher_process : option pid;
  student_process : option pid;
  monitor_thread : option pid;
  running : bool;
  restart_count : Z;
  start_time : timestamp
}.

(** The process: the manager object and the imported webserver module. *)
Record Deployment := { manager : CloudRunBotManager; web : Webserver.Globals }.

Definition State := Sys Deployment.

Definition on_manager (f : CloudRunBotManager -> CloudRunBotManager)
    : M State unit :=
  on_self (fun d => {| manager := f (manager d); web := web d |}).

Definition set_web (g : Webserver.Globals) (d : Deployment) : Deployment :=
  {| manager := manager d; web := g |}.

Definition set_teacher_process (h : option pid) (o : CloudRunBotManager) :=
  {| teacher_process := h; student_process := student_process o;
     monitor_thread := monitor_thread o; running := running o;
     restart_count := restart_count o; start_time := start_time o |}.

Definition set_student_process (h : option pid) (o : CloudRunBotManager) :=
  {| teacher_process := teacher_process o; student_process := h;
     monitor_thread := monitor_thread o; running := running o;
     restart_count := restart_count o; start_time := start_time o |}.

Definition set_monitor_thread (h : option pid) (o : CloudRunBotManager) :=
  {| teacher_process := teacher_process o;
     student_process := student_process o;
     monitor_thread := h; running := running o;
     restart_count := restart_count o; start_time := start_time o |}.

Definition set_running (b : bool) (o : CloudRunBotManager) :=
  {| teacher_process := teacher_process o;
     student_process := student_process o;
     monitor_thread := monitor_thread o; running := b;
     restart_count := restart_count o; start_time := start_time o |}.

Definition set_restart_count (n : Z) (o : CloudRunBotManager) :=
  {| teacher_process := teacher_process o;
     student_process := student_process o;
     monitor_thread := monitor_thread o; running := running o;
     restart_count := n; start_time := start_time o |}.

(** CloudRunBotManager.__init__ *)
Definition init : M (Sys unit) CloudRunBotManager :=
  t0 <- now ;;
  ret {| teacher_process := None; student_process := None;
         monitor_thread := None; running := true; restart_count := 0;
         start_time := t0 |}.

(** The process right after the manager is built and webserver imported. *)
Definition fresh (w : World) : State :=
  match init (mkSys tt w) with
  | (Ret m, s) =>
      let g := Webserver.fresh (os s) in
      mkSys {| manager := m; web := self g |} (os g)
  | (Raise _, s) =>
      let g := Webserver.fresh (os s) in
      mkSys {| manager := {| teacher_process := None; student_process := None;
                             monitor_thread := None; running := true;
                             restart_count := 0; start_time := 0 |};
               web := self g |} (os g)
  end.

(** The HTTP surface of the deployment is the webserver module's. *)
Definition serve (path : string) : M State response :=
  zoom web set_web (Webserver.serve path).

Definition start_webserver : M State bool :=
  try_except
    (guarded ;;
     log "🌐 Starting HTTP server for keep-alive..." ;;
     zoom web set_web Webserver.keep_alive ;;
     zoom web set_web Webserver.start_self_ping ;;
     log "✅ HTTP server started successfully" ;;
     ret true)
    (fun _ => log "❌ Failed to start webserver: {e}" ;; ret false).

Definition kill_existing_bots : M State unit :=
  try_except
    (nm <- gets (fun s => os_name (env (os s))) ;;
     (if String.eqb nm "nt"
      then subprocess_run ["taskkill"; "/F"; "/IM"; "python.exe"]
      else subprocess_run ["pkill"; "-f"; "TelegramBot.py"] ;;
           subprocess_run ["pkill"; "-f"; "StudentBot.py"]) ;;
     sleep 2)
    (fun _ => log "⚠️ Could not kill existing processes: {e}").

Definition start_teacher_bot : M State bool :=
  try_except
    (log "🎓 Starting Teacher Bot..." ;;
     p <- popen "TelegramBot.py" ;;
     on_manager (set_teacher_process (Some p)) ;;
     sleep 3 ;;
     up <- poll_is_none p ;;
     if up then log "✅ Teacher Bot started successfully" ;; ret true
     else log "❌ Teacher Bot failed to start" ;; ret false)
    (fun _ => log "❌ Error starting Teacher Bot: {e}" ;; ret false).

Definition start_student_bot : M State bool :=
  try_except
    (log "👨‍🎓 Starting Student Bot..." ;;
     p <- popen "StudentBot.py" ;;
     on_manager (set_student_process (Some p)) ;;
     sleep 3 ;;
     up <- poll_is_none p ;;
     if up then log "✅ Student Bot started successfully" ;; ret true
     else log "❌ Student Bot failed to start" ;; ret false)
    (fun _ => log "❌ Error starting Student Bot: {e}" ;; ret false).

Definition alive_flag (h : option pid) : M State (option bool) :=
  match h with
  | None => ret None
  | Some p => b <- poll_is_none p ;; ret (Some b)
  end.

Definition check_bot_health : M State (option bool * option bool) :=
  tp <- gets (fun s => teacher_process (manager (self s))) ;;
  teacher_alive <- alive_flag tp ;;
  sp <- gets (fun s => student_process (manager (self s))) ;;
  student_alive <- alive_flag sp ;;
  ret (teacher_alive, student_alive).

Definition restart_bots : M State bool :=
  on_manager (fun o => set_restart_count (restart_count o + 1) o) ;;
  log "🔄 Restarting bots (restart #{self.restart_count})..." ;;
  kill_existing_bots ;;
  teacher_ok <- start_teacher_bot ;;
  student_ok <- start_student_bot ;;
  if teacher_ok && student_ok then
    log "✅ Both bots restarted successfully" ;; ret true
  else
    log "❌ Failed to restart one or both bots" ;; ret false.

(** One pass of the body of [while self.running] in monitor_bots. *)
Definition monitor_once : M State unit :=
  try_except
    (r <- check_bot_health ;;
     let '(teacher_alive, student_alive) := r in
     (if negb (is_true teacher_alive) || negb (is_true student_alive) then
        log "💀 One or both bots have died!" ;;
        log "Teacher Bot: {status}" ;;
        log "Student Bot: {status}" ;;
        ok <- restart_bots ;;
        when (negb ok)
          (log "❌ Failed to restart bots, will retry in 30 seconds..." ;;
           sleep 30)
      else
        _ <- now ;;
        log "✅ Both bots healthy (uptime: {uptime})") ;;
     sleep 120)
    (fun _ => log "❌ Error in monitor loop: {e}" ;; sleep 60).

Fixpoint monitor_loop (fuel : nat) : M State loop_exit :=
  match fuel with
  | O => ret OutOfFuel
  | S fuel' =>
      go <- gets (fun s => running (manager (self s))) ;;
      if go then monitor_once ;; monitor_loop fuel'
      else ret Stopped
  end.

Definition monitor_bots (fuel : nat) : M State loop_exit :=
  log "👀 Starting bot health monitor..." ;;
  monitor_loop fuel.

Definition start : M State bool :=
  log "🚀 Starting Google Cloud Run 24/7 Bot Manager" ;;
  log "====" ;;
  ok <- start_webserver ;;
  when (negb ok) (log "❌ Failed to start webserver, continuing anyway...") ;;
  kill_existing_bots ;;
  teacher_ok <- start_teacher_bot ;;
  student_ok <- start_student_bot ;;
  if negb (teacher_ok && student_ok) then
    log "❌ Failed to start one or both bots initially" ;; ret false
  else
    log "🎉 System started successfully!" ;;
    log "🎓 Teacher Bot: @QuizForCollegeBot" ;;
    log "👨‍🎓 Student Bot: @TestStudentCollegeBot" ;;
    log "🌐 HTTP endpoints available for keep-alive" ;;
    log "💬 Test by sending /start to either bot on Telegram" ;;
    log "====" ;;
    t <- thread_start "monitor_bots" ;;
    on_manager (set_monitor_thread (Some t)) ;;
    ret true.

Definition stop : M State unit :=
  log "🛑 Stopping all processes..." ;;
  on_manager (set_running false) ;;
  tp <- gets (fun s => teacher_process (manager (self s))) ;;
  match tp with Some p => terminate p | None => ret tt end ;;
  sp <- gets (fun s => student_process (manager (self s))) ;;
  match sp with Some p => terminate p | None => ret tt end ;;
  log "✅ All processes stopped".

Inductive op :=
| Request (path : string)
| SelfPing
| Monitor
| Restart
| Start
| Stop.

Definition run_op (o : op) : M State unit :=
  match o with
  | Request path => _ <- serve path ;; ret tt
  | SelfPing => zoom web set_web Webserver.self_ping_once
  | Monitor => monitor_once
  | Restart => _ <- restart_bots ;; ret tt
  | Start => _ <- start ;; ret tt
  | Stop => stop
  end.

Definition after (ops : list op) (s : State) : State :=
  foldl (fun s o => snd (run_op o s)) s ops.

End CloudRun.

(** ** run_bots_24x7_integrated.py: class IntegratedBot24x7 *)

Module Integrated.

Inductive bot := TeleBot.

Record IntegratedBot24x7 := {
  teacher_bot : option bot;
  student_bot : option bot;
  teacher_thread : option pid;
  student_thread : option pid;
  running : bool;
  start_time : timestamp;
  last_ping : timestamp;
  ping_count : Z;
  port : Z;
  teacher_running : bool;
  student_running : bool
}.

Definition State := Sys IntegratedBot24x7.

Definition set_teacher_bot (b : option bot) (o : IntegratedBot24x7) :=
  {| teacher_bot := b; student_bot := student_bot o;
     teacher_thread := teacher_thread o; student_thread := student_thread o;
     running := running o; start_time := start_time o;
     last_ping := last_ping o; ping_count := ping_count o; port := port o;
     teacher_running := teacher_running o;
     student_running := student_running o |}.

Definition set_student_bot (b : option bot) (o : IntegratedBot24x7) :=
  {| teacher_bot := teacher_bot o; student_bot := b;
     teacher_thread := teacher_thread o; student_thread := student_thread o;
     running := running o; start_time := start_time o;
     last_ping := last_ping o; ping_count := ping_count o; port := port o;
     teacher_running := teacher_running o;
     student_running := student_running o |}.

Definition set_teacher_thread (t : option pid) (o : IntegratedBot24x7) :=
  {| teacher_bot := teacher_bot o; student_bot := student_bot o;
     teacher_thread := t; student_thread := student_thread o;
     running := running o; start_time := start_time o;
     last_ping := last_ping o; ping_count := ping_count o; port := port o;
     teacher_running := teacher_running o;
     student_running := student_running o |}.

Definition set_student_thread (t : option pid) (o : IntegratedBot24x7) :=
  {| teacher_bot := teacher_bot o; student_bot := student_bot o;
     teacher_thread := teacher_thread o; student_thread := t;
     running := running o; start_time := start_time o;
     last_ping := last_ping o; ping_count := ping_count o; port := port o;
     teacher_running := teacher_running o;
     student_running := student_running o |}.

Definition set_running (b : bool) (o : IntegratedBot24x7) :=
  {| teacher_bot := teacher_bot o; student_bot := student_bot o;
     teacher_thread := teacher_thread o; student_thread := student_thread o;
     running := b; start_time := start_time o;
     last_ping := last_ping o; ping_count := ping_count o; port := port o;
     teacher_running := teacher_running o;
     student_running := student_running o |}.

Definition set_last_ping (t : timestamp) (o : IntegratedBot24x7) :=
  {| teacher_bot := teacher_bot o; student_bot := student_bot o;
     teacher_thread := teacher_thread o; student_thread := student_thread o;
     running := running o; start_time := start_time o;
     last_ping := t; ping_count := ping_count o; port := port o;
     teacher_running := teacher_running o;
     student_running := student_running o |}.

Definition set_ping_count (n : Z) (o : IntegratedBot24x7) :=
  {| teacher_bot := teacher_bot o; student_bot := student_bot o;
     teacher_thread := teacher_thread o; student_thread := student_thread o;
     running := running o; start_time := start_time o;
     last_ping := last_ping o; ping_count := n; port := port o;
     teacher_running := teacher_running o;
     student_running := student_running o |}.

Definition set_teacher_running (b : bool) (o : IntegratedBot24x7) :=
  {| teacher_bot := teacher_bot o; student_bot := student_bot o;
     teacher_thread := teacher_thread o; student_thread := student_thread o;
     running := running o; start_time := start_time o;
     last_ping := last_ping o; ping_count := ping_count o; port := port o;
     teacher_running := b; student_running := student_running o |}.

Definition set_student_running (b : bool) (o : IntegratedBot24x7) :=
  {| teacher_bot := teacher_bot o; student_bot := student_bot o;
     teacher_thread := teacher_thread o; student_thread := student_thread o;
     running := running o; start_time := start_time o;
     last_ping := last_ping o; ping_count := ping_count o; port := port o;
     teacher_running := teacher_running o; student_running := b |}.

(** IntegratedBot24x7.__init__ *)
Definition init : M (Sys unit) IntegratedBot24x7 :=
  t0 <- now ;;
  t1 <- now ;;
  p <- gets (fun s => env_port (env (os s))) ;;
  ret {| teacher_bot := None; student_bot := None; teacher_thread := None;
         student_thread := None; running := true; start_time := t0;
         last_ping := t1; ping_count := 0; port := p;
         teacher_running := false; student_running := false |}.

Definition fresh (w : World) : State :=
  match init (mkSys tt w) with
  | (Ret o, s) => mkSys o (os s)
  | (Raise _, s) =>
      mkSys {| teacher_bot := None; student_bot := None;
               teacher_thread := None; student_thread := None;
               running := true; start_time := 0; last_ping := 0;
               ping_count := 0; port := 0; teacher_running := false;
               student_running := false |} (os s)
  end.

(** *** The worker threads

    [run_teacher] and [run_student] run concurrently with the caller and
    write the shared object.  They are scheduled while the caller sleeps:
    a started thread either reaches [bot.polling] (it has then published
    the bot and raised its running flag) or raises; a polling thread either
    returns or raises; on an exception the handler lowers the flag. *)

Definition run_teacher (ph : phase) (f : fate) : M State unit :=
  match ph, f with
  | Starting, Proceeds =>
      log "🎓 Starting Teacher Bot..." ;;
      on_self (set_teacher_bot (Some TeleBot)) ;;
      on_self (set_teacher_running true) ;;
      log "✅ Teacher Bot started successfully"
  | Starting, Fails =>
      log "🎓 Starting Teacher Bot..." ;;
      log "❌ Teacher Bot error: {e}" ;;
      on_self (set_teacher_running false)
  | Serving, Fails =>
      log "❌ Teacher Bot error: {e}" ;;
      on_self (set_teacher_running false)
  | _, _ => ret tt
  end.

Definition run_student (ph : phase) (f : fate) : M State unit :=
  match ph, f with
  | Starting, Proceeds =>
      log "👨‍🎓 Starting Student Bot..." ;;
      on_self (set_student_bot (Some TeleBot)) ;;
      on_self (set_student_running true) ;;
      log "✅ Student Bot started successfully"
  | Starting, Fails =>
      log "👨‍🎓 Starting Student Bot..." ;;
      log "❌ Student Bot error: {e}" ;;
      on_self (set_student_running false)
  | Serving, Fails =>
      log "❌ Student Bot error: {e}" ;;
      on_self (set_student_running false)
  | _, _ => ret tt
  end.

Definition thread_body (th : thread) (f : fate) : M State unit :=
  if String.eqb (target th) "run_teacher" then run_teacher (th_phase th) f
  else if String.eqb (target th) "run_student" then run_student (th_phase th) f
  else ret tt.

(** time.sleep in this process: the other threads run meanwhile. *)
Definition yield_sleep (secs : Z) : M State unit :=
  fs <- gets (fun s => fates (env (os s)) (step (os s))) ;;
  ths <- gets (fun s => map_to_list (threads (os s))) ;;
  sleep secs ;;
  foldr (fun ith k =>
           match fate_of fs ith.1 with
           | Some f => thread_body ith.2 f
           | None => ret tt
           end ;; k)
        (ret tt) ths.

(** *** The Flask views *)

Definition home : M State response :=
  text "🤖 Telegram Quiz Bot is running 24/7! 🎓".

Definition health : M State response :=
  t <- now ;;
  st <- gets (fun s => start_time (self s)) ;;
  let uptime := t - st in
  tr <- gets (fun s => teacher_running (self s)) ;;
  sr <- gets (fun s => student_running (self s)) ;;
  lp <- gets (fun s => last_ping (self s)) ;;
  pc <- gets (fun s => ping_count (self s)) ;;
  t' <- now ;;
  jsonify
    [("status", JStr (if tr && sr then "healthy" else "partial"));
     ("uptime_seconds", JInt (Z.quot uptime 1000000));
     ("uptime_formatted", JDelta uptime);
     ("teacher_bot_running", JBool tr);
     ("student_bot_running", JBool sr);
     ("last_ping", JIso lp);
     ("ping_count", JInt pc);
     ("timestamp", JIso t')].

Definition keep_alive : M State response :=
  t <- now ;;
  on_self (set_last_ping t) ;;
  on_self (fun o => set_ping_count (ping_count o + 1) o) ;;
  pc <- gets (fun s => ping_count (self s)) ;;
  lp <- gets (fun s => last_ping (self s)) ;;
  t' <- now ;;
  st <- gets (fun s => start_time (self s)) ;;
  tr <- gets (fun s => teacher_running (self s)) ;;
  sr <- gets (fun s => student_running (self s)) ;;
  jsonify
    [("status", JStr "alive");
     ("message", JStr "Bot is running 24/7");
     ("ping_count", JInt pc);
     ("timestamp", JIso lp);
     ("uptime", JDelta (t' - st));
     ("teacher_running", JBool tr);
     ("student_running", JBool sr)].

Definition ping : M State response := text "pong".

Definition routes : list string := ["/"; "/health"; "/keep-alive"; "/ping"].

Definition serve (path : string) : M State response :=
  if String.eqb path "/" then view home
  else if String.eqb path "/health" then view health
  else if String.eqb path "/keep-alive" then view keep_alive
  else if String.eqb path "/ping" then view ping
  else not_found.

(** *** Starting, watching and restarting the threads *)

Definition start_flask_server : M State unit :=
  _ <- thread_start "run_flask" ;;
  yield_sleep 2 ;;
  log "✅ HTTP server started successfully".

Definition start_teacher_bot_thread : M State unit :=
  t <- thread_new "run_teacher" ;;
  on_self (set_teacher_thread (Some t)) ;;
  thread_run t ;;
  yield_sleep 3.

Definition start_student_bot_thread : M State unit :=
  t <- thread_new "run_student" ;;
  on_self (set_student_thread (Some t)) ;;
  thread_run t ;;
  yield_sleep 3.

Definition restart_teacher_bot : M State unit :=
  log "🔄 Restarting Teacher Bot..." ;;
  try_except start_teacher_bot_thread
    (fun _ => log "❌ Failed to restart Teacher Bot: {e}").

Definition restart_student_bot : M State unit :=
  log "🔄 Restarting Student Bot..." ;;
  try_except start_student_bot_thread
    (fun _ => log "❌ Failed to restart Student Bot: {e}").

(** [t and t.is_alive()] *)
Definition alive_flag (h : option pid) : M State (option bool) :=
  match h with
  | None => ret None
  | Some t => b <- is_alive t ;; ret (Some b)
  end.

(** One pass of the body of [while self.running] in monitor_bots_loop. *)
Definition monitor_once : M State unit :=
  try_except
    (tt_ <- gets (fun s => teacher_thread (self s)) ;;
     teacher_alive <- alive_flag tt_ ;;
     st_ <- gets (fun s => student_thread (self s)) ;;
     student_alive <- alive_flag st_ ;;
     tr <- gets (fun s => teacher_running (self s)) ;;
     when (negb (is_true teacher_alive) && tr)
       (log "💀 Teacher Bot thread died!" ;;
        on_self (set_teacher_running false) ;;
        restart_teacher_bot) ;;
     sr <- gets (fun s => student_running (self s)) ;;
     when (negb (is_true student_alive) && sr)
       (log "💀 Student Bot thread died!" ;;
        on_self (set_student_running false) ;;
        restart_student_bot) ;;
     tr' <- gets (fun s => teacher_running (self s)) ;;
     sr' <- gets (fun s => student_running (self s)) ;;
     when (tr' && sr')
       (_ <- now ;; log "✅ Both bots healthy (uptime: {uptime})") ;;
     yield_sleep 120)
    (fun _ => log "❌ Monitor error: {e}" ;; yield_sleep 60).

Fixpoint monitor_bots_loop (fuel : nat) : M State loop_exit :=
  match fuel with
  | O => ret OutOfFuel
  | S fuel' =>
      go <- gets (fun s => running (self s)) ;;
      if go then monitor_once ;; monitor_bots_loop fuel'
      else ret Stopped
  end.

Definition self_ping_once : M State unit :=
  try_except
    (emit (Get "http://localhost:{port}/keep-alive") ;;
     guarded ;;
     r <- serve "/keep-alive" ;;
     if status_code r =? 200
     then log "✅ Self-ping successful (total: {self.ping_count})"
     else log "⚠️ Self-ping returned status {response.status_code}")
    (fun _ => log "❌ Self-ping failed: {e}") ;;
  yield_sleep 300.

Definition banner (lines : list string) : M State unit :=
  foldr (fun l k => log l ;; k) (ret tt) lines.

Definition start : M State bool :=
  banner ["🚀 Starting Integrated 24/7 Telegram Bot System"; "====";
          "This system will:"; "✅ Run both bots in the same process";
          "✅ Prevent Google Cloud Run from shutting down";
          "✅ Auto-restart bot threads if they die";
          "✅ Provide HTTP endpoints for external monitoring"; "===="] ;;
  start_flask_server ;;
  start_teacher_bot_thread ;;
  start_student_bot_thread ;;
  yield_sleep 5 ;;
  tr <- gets (fun s => teacher_running (self s)) ;;
  sr <- gets (fun s => student_running (self s)) ;;
  (if tr && sr then
     banner ["🎉 System started successfully!"; "🎓 Teacher Bot: Running";
             "👨‍🎓 Student Bot: Running";
             "🌐 HTTP server: http://localhost:{port}";
             "💬 Test by sending /start to your bots on Telegram"; "===="]
   else
     banner ["⚠️ Some bots may not have started properly";
             "Teacher Bot: {mark}"; "Student Bot: {mark}"]) ;;
  _ <- thread_start "self_ping_loop" ;;
  log "🔄 Self-ping system started (every 5 minutes)" ;;
  _ <- thread_start "monitor_bots_loop" ;;
  log "👀 Bot health monitoring started" ;;
  ret true.

(** [try: bot.stop_polling() except: pass] *)
Definition stop_polling (name : string) : M State unit :=
  try_except (emit (StopPolling name) ;; guarded) (fun _ => ret tt).

Definition stop : M State unit :=
  log "🛑 Stopping all processes..." ;;
  on_self (set_running false) ;;
  on_self (set_teacher_running false) ;;
  on_self (set_student_running false) ;;
  tb <- gets (fun s => teacher_bot (self s)) ;;
  match tb with Some _ => stop_polling "teacher_bot" | None => ret tt end ;;
  sb <- gets (fun s => student_bot (self s)) ;;
  match sb with Some _ => stop_polling "student_bot" | None => ret tt end ;;
  log "✅ All processes stopped".

Inductive op :=
| Request (path : string)
| SelfPing
| Monitor
| RestartTeacher
| RestartStudent
| Start
| Stop.

Definition run_op (o : op) : M State unit :=
  match o with
  | Request path => _ <- serve path ;; ret tt
  | SelfPing => self_ping_once
  | Monitor => monitor_once
  | RestartTeacher => restart_teacher_bot
  | RestartStudent => restart_student_bot
  | Start => _ <- start ;; ret tt
  | Stop => stop
  end.

Definition after (ops : list op) (s : State) : State :=
  foldl (fun s o => snd (run_op o s)) s ops.

End Integrated.

(** ** external_keepalive_monitor.py: class ExternalKeepAliveMonitor *)

Module ExternalMonitor.

Record ExternalKeepAliveMonitor := {
  cloud_run_url : string;
  ping_count : Z;
  success_count : Z;
  error_count : Z;
  start_time : timestamp
}.

Definition State := Sys ExternalKeepAliveMonitor.

Definition bump_ping (o : ExternalKeepAliveMonitor) :=
  {| cloud_run_url := cloud_run_url o; ping_count := ping_count o + 1;
     success_count := success_count o; error_count := error_count o;
     start_time := start_time o |}.

Definition bump_success (o : ExternalKeepAliveMonitor) :=
  {| cloud_run_url := cloud_run_url o; ping_count := ping_count o;
     success_count := success_count o + 1; error_count := error_count o;
     start_time := start_time o |}.

Definition bump_error (o : ExternalKeepAliveMonitor) :=
  {| cloud_run_url := cloud_run_url o; ping_count := ping_count o;
     success_count := success_count o; error_count := error_count o + 1;
     start_time := start_time o |}.

(** ExternalKeepAliveMonitor.__init__ *)
Definition init (url : string) : M (Sys unit) ExternalKeepAliveMonitor :=
  t0 <- now ;;
  ret {| cloud_run_url := rstrip_slash url; ping_count := 0;
         success_count := 0; error_count := 0; start_time := t0 |}.

Definition ping_service : M State bool :=
  try_except
    (on_self bump_ping ;;
     url <- gets (fun s => cloud_run_url (self s)) ;;
     r <- requests_get (url +:+ "/keep-alive") ;;
     if fst r =? 200 then
       on_self bump_success ;;
       data <- response_json r ;;
       _ <- data_get data "ping_count" (JStr "unknown") ;;
       log "✅ Keep-alive successful (ping #{ping_count})" ;;
       ret true
     else
       log "⚠️ Keep-alive returned status {response.status_code}" ;;
       ret false)
    (fun e =>
       on_self bump_error ;;
       match e with
       | Timeout => log "❌ Keep-alive request timed out"
       | ConnectionError => log "❌ Could not connect to service"
       | _ => log "❌ Keep-alive error: {e}"
       end ;;
       ret false).

Definition check_health : M State bool :=
  try_except
    (url <- gets (fun s => cloud_run_url (self s)) ;;
     r <- requests_get (url +:+ "/health") ;;
     if fst r =? 200 then
       data <- response_json r ;;
       _ <- data_get data "uptime_formatted" (JStr "unknown") ;;
       log "🏥 Health check OK - Service uptime: {uptime}" ;;
       ret true
     else
       log "⚠️ Health check returned status {response.status_code}" ;;
       ret false)
    (fun _ => log "❌ Health check error: {e}" ;; ret false).

Definition print_stats : M State unit :=
  _ <- now ;;
  pc <- gets (fun s => ping_count (self s)) ;;
  sc <- gets (fun s => success_count (self s)) ;;
  success_rate <- (if 0 <? pc then percent sc pc else ret (PInt 0)) ;;
  log "📊 MONITORING STATISTICS:" ;;
  log "   Runtime: {runtime}" ;;
  log "   Total pings: {self.ping_count}" ;;
  log "   Successful: {self.success_count}" ;;
  log "   Errors: {self.error_count}" ;;
  log "   Success rate: {success_rate:.1f}%" ;;
  log "--------------------------------------------------".

Definition run_once : M State bool :=
  log "🔄 Running single keep-alive check..." ;;
  health_ok <- check_health ;;
  ping_ok <- ping_service ;;
  if health_ok && ping_ok then
    log "✅ Service is healthy and responsive" ;; ret true
  else
    log "❌ Service has issues" ;; ret false.

(** How a pass of [while True] ends. *)
Inductive pass := Continue | Interrupted.

(** One pass of [while True] in run_continuous; Ctrl+C is looked for before
    the ping, after it, and during the sleep. *)
Definition continuous_pass (interval_minutes : Z) : M State pass :=
  stop <- interrupted ;;
  if stop then ret Interrupted else
  _ <- ping_service ;;
  stop <- interrupted ;;
  if stop then ret Interrupted else
  pc <- gets (fun s => ping_count (self s)) ;;
  when (pc mod 6 =? 0) (_ <- check_health ;; print_stats) ;;
  log "💤 Waiting {interval_minutes} minutes until next ping..." ;;
  stop <- interrupted ;;
  if stop then ret Interrupted else
  sleep (interval_minutes * 60) ;;
  ret Continue.

Fixpoint continuous_loop (fuel : nat) (interval_minutes : Z)
    : M State (option pass) :=
  match fuel with
  | O => ret None
  | S fuel' =>
      r <- continuous_pass interval_minutes ;;
      match r with
      | Continue => continuous_loop fuel' interval_minutes
      | Interrupted => ret (Some Interrupted)
      end
  end.

(** run_continuous: [Some tt] once the function has returned, [None] while
    it is still looping when the fuel runs out. *)
Definition run_continuous (fuel : nat) (interval_minutes : Z)
    : M State (option unit) :=
  log "🚀 Starting continuous monitoring (every {interval_minutes} minutes)" ;;
  log "🎯 Target: {self.cloud_run_url}" ;;
  log "🛑 Press Ctrl+C to stop" ;;
  log "====" ;;
  try_except
    (r <- continuous_loop fuel interval_minutes ;;
     match r with
     | Some _ =>
         log "🛑 Monitoring stopped by user" ;; print_stats ;; ret (Some tt)
     | None => ret None
     end)
    (fun _ => log "💥 Fatal error: {e}" ;; print_stats ;; ret (Some tt)).

(** main(): the exit status of the process, [None] while it still runs.
    [py_int] is Python's [int] on a string, [None] where it raises
    ValueError; an exception that escapes [main] ends the process with
    status 1. *)
Definition main (py_int : string -> option Z) (argv : list string)
    (fuel : nat) : M (Sys unit) (option Z) :=
  match argv with
  | [] | [_] => emit (Log "usage") ;; ret (Some 1)
  | _ :: cloud_run_url :: rest =>
      let mode := match rest with m :: _ => m | [] => "continuous" end in
      match (match rest with
             | _ :: i :: _ => py_int i
             | _ => Some 5
             end) with
      | None => ret (Some 1)
      | Some interval =>
          fun s =>
            match init cloud_run_url s with
            | (Raise e, s') => (Ret (Some 1), s')
            | (Ret monitor, s') =>
                let run : M State (option Z) :=
                  if String.eqb mode "once" then
                    success <- run_once ;;
                    ret (Some (if success then 0 else 1))
                  else
                    r <- run_continuous fuel interval ;;
                    ret (match r with Some _ => Some 0 | None => None end) in
                match run (mkSys monitor (os s')) with
                | (Ret code, t) => (Ret code, mkSys tt (os t))
                | (Raise _, t) => (Ret (Some 1), mkSys tt (os t))
                end
            end
      end
  end.

End ExternalMonitor.

(** ** simple_external_pinger.py *)

Module SimplePinger.

Definition State := Sys unit.

Definition ping_bot (url : string) : M State bool :=
  try_except
    (r <- requests_get (url +:+ "/keep-alive") ;;
     if fst r =? 200 then
       data <- response_json r ;;
       _ <- data_get data "ping_count" (JStr "unknown") ;;
       _ <- data_get data "uptime" (JStr "unknown") ;;
       log "✅ Bot is alive! Ping #{ping_count}, Uptime: {uptime}" ;;
       ret true
     else
       log "⚠️ Bot responded with status {response.status_code}" ;;
       ret false)
    (fun e =>
       match e with
       | Timeout => log "❌ Request timed out - bot might be starting up"
       | ConnectionError => log "❌ Could not connect to bot - check URL"
       | _ => log "❌ Error: {e}"
       end ;;
       ret false).

(** check_health returns [teacher_running and student_running], a Python
    value that need not be a bool. *)
Definition check_health (url : string) : M State json :=
  try_except
    (r <- requests_get (url +:+ "/health") ;;
     if fst r =? 200 then
       data <- response_json r ;;
       teacher_running <- data_get data "teacher_bot_running" (JBool false) ;;
       student_running <- data_get data "student_bot_running" (JBool false) ;;
       _ <- data_get data "uptime_formatted" (JStr "unknown") ;;
       _ <- data_get data "restart_count" (JInt 0) ;;
       log "🏥 Health Check:" ;;
       log "   Teacher Bot: {status}" ;;
       log "   Student Bot: {status}" ;;
       log "   Uptime: {uptime}" ;;
       log "   Restarts: {restart_count}" ;;
       ret (py_and teacher_running student_running)
     else
       log "⚠️ Health check returned status {response.status_code}" ;;
       ret (JBool false))
    (fun _ => log "❌ Health check error: {e}" ;; ret (JBool false)).

(** The local counters of the continuous branch of main(). *)
Record counters := { ping_count : Z; success_count : Z }.

Inductive pass := Continue (c : counters) | Interrupted (c : counters).

(** One pass of [while True]; Ctrl+C is looked for before the counter is
    advanced, while the ping is in flight, and during the sleep. *)
Definition continuous_pass (bot_url : string) (interval : Z) (c : counters)
    : M State pass :=
  stop <- interrupted ;;
  if stop then ret (Interrupted c) else
  let c := {| ping_count := ping_count c + 1;
              success_count := success_count c |} in
  log "🔢 Ping #{ping_count}" ;;
  stop <- interrupted ;;
  if stop then ret (Interrupted c) else
  ok <- ping_bot bot_url ;;
  let c := if ok then {| ping_count := ping_count c;
                         success_count := success_count c + 1 |}
           else c in
  when (ping_count c mod 6 =? 0)
    (_ <- check_health bot_url ;;
     _ <- percent (success_count c) (ping_count c) ;;
     log "📊 Success rate: {success_rate:.1f}% ({success_count}/{ping_count})" ;;
     log "--------------------------------------------------") ;;
  log "💤 Waiting {interval} minutes..." ;;
  stop <- interrupted ;;
  if stop then ret (Interrupted c) else
  sleep (interval * 60) ;;
  ret (Continue c).

Fixpoint continuous_loop (fuel : nat) (bot_url : string) (interval : Z)
    (c : counters) : M State (option counters) :=
  match fuel with
  | O => ret None
  | S fuel' =>
      r <- continuous_pass bot_url interval c ;;
      match r with
      | Continue c' => continuous_loop fuel' bot_url interval c'
      | Interrupted c' => ret (Some c')
      end
  end.

(** [except KeyboardInterrupt:] of the continuous branch. *)
Definition final_stats (c : counters) : M State unit :=
  log "🛑 Pinger stopped by user" ;;
  _ <- (if 0 <? ping_count c then percent (success_count c) (ping_count c)
        else ret (PInt 0)) ;;
  log "📊 Final stats: {success_rate:.1f}% success rate ({success_count}/{ping_count})" ;;
  log "👋 Goodbye!".

(** main(): the exit status of the process, [None] while it still runs. *)
Definition main (py_int : string -> option Z) (argv : list string)
    (fuel : nat) : M State (option Z) :=
  match argv with
  | [] | [_] => emit (Log "usage") ;; ret (Some 1)
  | _ :: url :: rest =>
      let bot_url := rstrip_slash url in
      match (match rest with i :: _ => py_int i | [] => Some 5 end) with
      | None => ret (Some 1)
      | Some interval =>
          try_except
            (log "🚀 Starting External Bot Pinger" ;;
             log "🎯 Target: {bot_url}" ;;
             if interval =? 0 then
               log "🧪 Running single test..." ;;
               health_ok <- check_health bot_url ;;
               ping_ok <- ping_bot bot_url ;;
               if truthy health_ok && ping_ok then
                 log "✅ Bot is healthy and responsive!" ;; ret (Some 0)
               else
                 log "❌ Bot has issues" ;; ret (Some 1)
             else
               log "🔄 Will ping every {interval} minutes" ;;
               log "🛑 Press Ctrl+C to stop" ;;
               log "==================================================" ;;
               r <- continuous_loop fuel bot_url interval
                      {| ping_count := 0; success_count := 0 |} ;;
               match r with
               | Some c => final_stats c ;; ret (Some 0)
               | None => ret None
               end)
            (fun _ => ret (Some 1))
      end
  end.

End SimplePinger.

(** ** Vocabulary of the properties *)

(** No library call raises. *)
Definition calm (e : Env) : Prop := forall k, fault e k = None.

(** The liveness a poll of handle [h] finds in world [w]. *)
Definition worker_up (w : World) (h : option pid) : bool :=
  match h with
  | Some p => match procs w !! p with
              | Some pr => alive pr
              | None => false
              end
  | None => false
  end.

(** The field [key] of a JSON response, if the response is a JSON object. *)
Definition field (key : string) (r : response) : option json :=
  match body r with
  | Json (JObj kv) => kv !! key
  | _ => None
  end.

(** The keys of a JSON response. *)
Definition keys (r : response) : gset string :=
  match body r with
  | Json (JObj kv) => dom kv
  | _ => ∅
  end.


(** [c] takes every state to an [R]-related one, whether it returns or
    raises. *)
Definition Moves {St A} (R : relation St) (c : M St A) : Prop :=
  forall s, R s (c s).2.

(** [c] returns: no exception leaves it. *)
Definition Returns {St A} (c : M St A) : Prop :=
  forall s, exists a, (c s).1 = Ret a.

(** Whenever [c] returns, its result satisfies [P]. *)
Definition Yields {St A} (P : A -> Prop) (c : M St A) : Prop :=
  forall s, match (c s).1 with Ret a => P a | Raise _ => True end.

(** The object, the process table and the threads are as before. *)
Definition frame {Obj} : relation (Sys Obj) :=
  fun s s' => self s' = self s /\ procs (os s') = procs (os s)
              /\ threads (os s') = threads (os s).

(** A counter of the object does not go down. *)
Definition rises {Obj} (f : Obj -> Z) : relation (Sys Obj) :=
  fun s s' => f (self s) <= f (self s').

(** A counter of the object goes up by at most [n]. *)
Definition within {Obj} (f : Obj -> Z) (n : Z) : relation (Sys Obj) :=
  fun s s' => f (self s) <= f (self s') <= f (self s) + n.

(** A field of the object is as before. *)
Definition keeps {Obj A} (f : Obj -> A) : relation (Sys Obj) :=
  fun s s' => f (self s') = f (self s).

(** An observation of the whole system is as before. *)
Definition same {Obj A} (f : Sys Obj -> A) : relation (Sys Obj) :=
  fun s s' => f s' = f s.

(** Everything but the environment's step counter: what a poll leaves
    alone. *)
Definition poll_view {Obj} (s : Sys Obj) :=
  (self s, trace (os s), procs (os s), threads (os s), env (os s),
   next_id (os s)).

(** The trace has only grown, by events that satisfy [P]. *)
Definition logs {Obj} (P : event -> Prop) : relation (Sys Obj) :=
  fun s s' => exists evs, trace (os s') = evs ++ trace (os s) /\ Forall P evs.

(** *** Sample environments

    A quiet machine: the clock reads the step number, nothing raises,
    nothing dies, no remote host answers. *)
Definition quiet_env : Env :=
  {| wall := fun k => Z.of_nat k; fault := fun _ => None;
     fates := fun _ => []; stdout_of := fun _ => EmptyString;
     remote := fun _ => Refused ConnectionError;
     interrupt := fun _ => false; os_name := "posix";
     executable := "python3"; env_port := 8080 |}.

Definition boot (e : Env) : World :=
  {| env := e; procs := ∅; threads := ∅; next_id := 1%positive;
     step := 0%nat; trace := [] |}.

(** The teacher bot (the third task the run_cloud_24_7 deployment creates)
    exits during any sleep after start-up. *)
Definition teacher_dies_env : Env :=
  {| wall := fun k => Z.of_nat k; fault := fun _ => None;
     fates := fun k => if (30 <? k)%nat then [(3%positive, Dies)] else [];
     stdout_of := fun _ => EmptyString;
     remote := fun _ => Refused ConnectionError;
     interrupt := fun _ => false; os_name := "posix";
     executable := "python3"; env_port := 8080 |}.

(** A run_cloud_24_7 deployment that started both bots and polled them
    once; the teacher bot died during the sleep that followed. *)
Definition cloud_teacher_down : CloudRun.State :=
  CloudRun.after [CloudRun.Start; CloudRun.Monitor]
    (CloudRun.fresh (boot teacher_dies_env)).

(** The restart counter of the manager inside a deployment. *)
Definition manager_restarts (d : CloudRun.Deployment) : Z :=
  CloudRun.restart_count (CloudRun.manager d).

(** The first library call raises OSError; later ones succeed. *)
Definition first_call_fails_env : Env :=
  {| wall := fun k => Z.of_nat k;
     fault := fun k => match k with O => Some OSError | S _ => None end;
     fates := fun _ => []; stdout_of := fun _ => EmptyString;
     remote := fun _ => Refused ConnectionError;
     interrupt := fun _ => false; os_name := "posix";
     executable := "python3"; env_port := 8080 |}.

(** A keep_bot_alive_24x7 supervisor holding two handles, on a machine
    whose next library call fails. *)
Definition keepalive_poll_fails : KeepAlive.State :=
  mkSys {| KeepAlive.teacher_process := Some 1%positive;
           KeepAlive.student_process := Some 2%positive;
           KeepAlive.running := true; KeepAlive.restart_count := 4;
           KeepAlive.start_time := 0; KeepAlive.last_ping := 0;
           KeepAlive.ping_count := 0; KeepAlive.port := 8080 |}
        (boot first_call_fails_env).

(** The same for a run_cloud_24_7 deployment. *)
Definition cloudrun_poll_fails : CloudRun.State :=
  mkSys {| CloudRun.manager :=
             {| CloudRun.teacher_process := Some 1%positive;
                CloudRun.student_process := Some 2%positive;
                CloudRun.monitor_thread := None; CloudRun.running := true;
                CloudRun.restart_count := 4; CloudRun.start_time := 0 |};
           CloudRun.web := self (Webserver.fresh (boot first_call_fails_env)) |}
        (boot first_call_fails_env).

(** A request succeeded as the external monitor sees it: status 200 and a
    body that decodes to a JSON object. *)
Definition answers_ok (r : http_result) : bool :=
  match r with
  | Answer code (Some (JObj _)) => code =? 200
  | _ => false
  end.

(** A /health request succeeded as the simple pinger sees it: as above, and
    the body reports both bots running. *)
Definition reports_both_up (r : http_result) : bool :=
  match r with
  | Answer code (Some (JObj kv)) =>
      (code =? 200)
      && truthy (py_and (default_of (kv !! "teacher_bot_running") (JBool false))
                        (default_of (kv !! "student_bot_running") (JBool false)))
  | _ => false
  end.




(** A division is evaluated with a positive divisor. *)
Definition safe_division (e : event) : Prop :=
  match e with
  | Divide _ den => 0 < den
  | _ => True
  end.

(** The counters a pass of the simple pinger ends with. *)
Definition counters_of (r : SimplePinger.pass) : SimplePinger.counters :=
  match r with
  | SimplePinger.Continue c | SimplePinger.Interrupted c => c
  end.

(** The process [p] is in the table and has exited. *)
Definition dead_at (w : World) (p : pid) : Prop :=
  exists pr, procs w !! p = Some pr /\ alive pr = false.

(** Identifiers are only handed out upwards, and a process below the next
    identifier that has exited stays so. *)
Definition tomb {Obj} (p : pid) : relation (Sys Obj) :=
  fun s s' =>
    (next_id (os s) <= next_id (os s'))%positive /\
    ((p < next_id (os s))%positive -> dead_at (os s) p -> dead_at (os s') p).








(** *** Cooldown after a failed restart

    Traces are read oldest first here. *)

(** The seconds slept during some events. *)
Fixpoint slept (tr : list event) : Z :=
  match tr with
  | [] => 0
  | Sleep d :: tr' => d + slept tr'
  | _ :: tr' => slept tr'
  end.

(** restart_bots has just reported that it failed (the line is logged
    exactly when it returns False). *)
Definition restart_failed (e : event) : bool :=
  match e with
  | Log m => String.eqb m "❌ Failed to restart one or both bots"
  | _ => false
  end.

(** A worker process is launched. *)
Definition is_launch (e : event) : bool :=
  match e with
  | Popen _ => true
  | _ => false
  end.

(** restart_teacher_bot or restart_student_bot has just reported that it
    failed. *)
Definition thread_restart_failed (e : event) : bool :=
  match e with
  | Log m => String.eqb m "❌ Failed to restart Teacher Bot: {e}"
             || String.eqb m "❌ Failed to restart Student Bot: {e}"
  | _ => false
  end.

(** A worker thread is launched. *)
Definition is_thread_launch (e : event) : bool :=
  match e with
  | ThreadStart t => String.eqb t "run_teacher" || String.eqb t "run_student"
  | _ => false
  end.

(** Between a failure and any later launch at least [n] seconds are
    slept. *)
Definition respects_cooldown (failure launch : event -> bool) (n : Z)
    (tr : list event) : Prop :=
  forall pre f mid l post,
    tr = pre ++ f :: mid ++ l :: post ->
    failure f = true -> launch l = true -> n <= slept mid.

(** No launch happens in [tr] before [n] seconds have been slept. *)
Fixpoint quiet_for (launch : event -> bool) (n : Z) (tr : list event) : Prop :=
  match tr with
  | [] => True
  | e :: tr' =>
      (launch e = true -> n <= 0) /\
      quiet_for launch (match e with Sleep d => n - d | _ => n end) tr'
  end.

(** Every failure in [tr] is followed, in [tr] and then [after], by [n]
    seconds without a launch. *)
Fixpoint cooled (failure launch : event -> bool) (n : Z)
    (tr after : list event) : Prop :=
  match tr with
  | [] => True
  | e :: tr' =>
      (failure e = true -> quiet_for launch n (tr' ++ after)) /\
      cooled failure launch n tr' after
  end.

(** No sleep has a negative length. *)
Definition sleep_ok (e : event) : Prop :=
  match e with
  | Sleep d => 0 <= d
  | _ => True
  end.

(** An event that is neither a reported restart failure nor a sleep of
    negative length. *)
Definition uneventful (e : event) : Prop :=
  restart_failed e = false /\ sleep_ok e.

(** What restart_bots leaves in the trace (newest first): the failure line
    on top exactly when it returns False, uneventful events otherwise. *)
Definition Shaped {Obj} (c : M (Sys Obj) bool) : Prop :=
  forall s, exists evs,
    trace (os (c s).2) = evs ++ trace (os s) /\
    match (c s).1 with
    | Ret false =>
        exists evs', evs = Log "❌ Failed to restart one or both bots" :: evs'
                     /\ Forall uneventful evs'
    | _ => Forall uneventful evs
    end.

(** What the restart step of a pass leaves in the trace (newest first):
    uneventful events, or, when restart_bots failed, its failure line, a
    further log line and the 30 s cooldown on top of uneventful events. *)
Definition Pending {Obj A} (c : M (Sys Obj) A) : Prop :=
  forall s, exists evs,
    trace (os (c s).2) = evs ++ trace (os s) /\
    (Forall uneventful evs \/
     exists a m evs',
       (c s).1 = Ret a /\
       evs = Sleep 30 :: Log m
             :: Log "❌ Failed to restart one or both bots" :: evs' /\
       restart_failed (Log m) = false /\ Forall uneventful evs').

(** What a pass of the supervisor loop leaves in the trace (newest first):
    sleeps of non-negative length, and every reported failure followed by
    150 seconds without a launch, whatever comes after the pass. *)
Definition Cooled {Obj A} (c : M (Sys Obj) A) : Prop :=
  forall s, exists evs,
    trace (os (c s).2) = evs ++ trace (os s) /\
    Forall sleep_ok evs /\
    forall after,
      Forall sleep_ok after ->
      cooled restart_failed is_launch 150 (rev evs) after.

(** The events a run from [s] to [s'] added to the trace, oldest first. *)
Definition emitted {Obj} (s s' : Sys Obj) : list event :=
  rev (firstn (length (trace (os s')) - length (trace (os s)))%nat
              (trace (os s'))).

(** Both worker threads (the second and third tasks the integrated system
    creates) come up, and return from polling during the first sleep of the
    monitor loop; the next Thread.start() raises RuntimeError. *)
Definition thread_start_fails_env : Env :=
  {| wall := fun k => Z.of_nat k;
     fault := fun k => if (k =? 41)%nat then Some RuntimeError else None;
     fates := fun k => if (k <? 36)%nat
                       then [(2%positive, Proceeds); (3%positive, Proceeds)]
                       else [(2%positive, Dies); (3%positive, Dies)];
     stdout_of := fun _ => EmptyString;
     remote := fun _ => Refused ConnectionError;
     interrupt := fun _ => false; os_name := "posix";
     executable := "python3"; env_port := 8080 |}.

(** The integrated system after start-up and one pass of its monitor
    loop: both worker threads have returned, both running flags are still
    raised. *)
Definition integrated_both_down : Integrated.State :=
  Integrated.after [Integrated.Start; Integrated.Monitor]
    (Integrated.fresh (boot thread_start_fails_env)).

(** Every child process exits during any sleep from step 40 on, that is
    once keep_bot_alive_24x7 has started. *)
Definition workers_exit_env : Env :=
  {| wall := fun k => Z.of_nat k; fault := fun _ => None;
     fates := fun k => if (k <? 40)%nat then []
                       else map (fun p => (Pos.of_nat p, Dies)) (seq 1 40);
     stdout_of := fun _ => EmptyString;
     remote := fun _ => Refused ConnectionError;
     interrupt := fun _ => false; os_name := "posix";
     executable := "python3"; env_port := 8080 |}.

Definition keepalive_started : KeepAlive.State :=
  KeepAlive.after [KeepAlive.Start] (KeepAlive.fresh (boot workers_exit_env)).

(** ** Vocabulary of the further properties *)

(** [n] slashes. *)
Fixpoint slashes (n : nat) : string :=
  match n with
  | O => EmptyString
  | S n' => String (Ascii.ascii_of_nat 47) (slashes n')
  end.

(** The last character of a string. *)
Fixpoint last_char (s : string) : option Ascii.ascii :=
  match s with
  | EmptyString => None
  | String c rest =>
      match rest with
      | EmptyString => Some c
      | String _ _ => last_char rest
      end
  end.

(** The monitor main() builds for [url] in world [w]; __init__ makes no
    call that can raise, so the second branch is never taken. *)
Definition monitor_of (url : string) (w : World) : ExternalMonitor.State :=
  match ExternalMonitor.init url (mkSys tt w) with
  | (Ret o, s) => mkSys o (os s)
  | (Raise _, s) =>
      mkSys {| ExternalMonitor.cloud_run_url := rstrip_slash url;
               ExternalMonitor.ping_count := 0;
               ExternalMonitor.success_count := 0;
               ExternalMonitor.error_count := 0;
               ExternalMonitor.start_time := 0 |} (os s)
  end.

(** How ping_service books an answer: what it returns, and what it adds to
    success_count and to error_count. *)
Definition ping_outcome (r : http_result) : bool * Z * Z :=
  match r with
  | Answer code payload =>
      if code =? 200 then
        match payload with
        | Some (JObj _) => (true, 1, 0)
        | _ => (false, 1, 1)
        end
      else (false, 0, 0)
  | Refused _ => (false, 0, 1)
  end.

(** The URLs requested during some events. *)
Definition requested (evs : list event) : list string :=
  omap (fun e => match e with Get u => Some u | _ => None end) evs.

(** The counters of the external monitor have moved consistently: none
    went down, and neither the successes nor the errors grew by more than
    the pings did. *)
Definition tallies : relation ExternalMonitor.State :=
  fun s s' =>
    ExternalMonitor.cloud_run_url (self s')
    = ExternalMonitor.cloud_run_url (self s) /\
    ExternalMonitor.ping_count (self s)
    <= ExternalMonitor.ping_count (self s') /\
    0 <= ExternalMonitor.success_count (self s')
         - ExternalMonitor.success_count (self s)
      <= ExternalMonitor.ping_count (self s')
         - ExternalMonitor.ping_count (self s) /\
    0 <= ExternalMonitor.error_count (self s')
         - ExternalMonitor.error_count (self s)
      <= ExternalMonitor.ping_count (self s')
         - ExternalMonitor.ping_count (self s).

(** Ctrl+C never arrives. *)
Definition undisturbed (e : Env) : Prop := forall k, interrupt e k = false.

(** From [s] to [s'] the environment is the same and the trace has grown
    by events that request the URLs [us], in this order. *)
Definition advances {Obj} (s s' : Sys Obj) (us : list string) : Prop :=
  env (os s') = env (os s) /\
  exists evs, trace (os s') = evs ++ trace (os s) /\ requested (rev evs) = us.

(** What the pass of a continuous run that counts ping number [k]
    requests from the base URL [u]. *)
Definition pass_requests (u : string) (k : Z) : list string :=
  (u +:+ "/keep-alive") :: (if k mod 6 =? 0 then [u +:+ "/health"] else []).


(** The library call made at step [k] goes through. *)
Definition reaches (e : Env) (k : nat) : bool :=
  match fault e k with
  | None => true
  | Some _ => false
  end.

(** An event that is not the launch of a worker thread. *)
Definition no_thread_launch (e : event) : Prop := is_thread_launch e = false.


(** The wall clock is strictly increasing. *)
Definition ticking (e : Env) : Prop :=
  forall i j, (i < j)%nat -> wall e i < wall e j.

(** Same environment, and no step of it taken back. *)
Definition later {Obj} : relation (Sys Obj) :=
  fun s s' => env (os s') = env (os s) /\ (step (os s) <= step (os s'))%nat.

(** What /health of keep_bot_alive_24x7 reports for the handle [h]:
    [h and h.poll() is None], which is None while there is no handle. *)
Definition handle_flag (w : World) (h : option pid) : json :=
  match h with
  | None => JNull
  | Some _ => JBool (worker_up w h)
  end.

(** What a client receives when the server answers with [r]. *)
Definition reply_of (r : response) : http_result :=
  Answer (status_code r)
    (match body r with
     | Json doc => Some doc
     | Text _ => None
     end).

(** A thread that is not a worker thread on its way to polling. *)
Definition settled (th : thread) : Prop :=
  th_phase th <> Starting \/
  (target th <> "run_teacher" /\ target th <> "run_student").

(** Both running flags of the integrated system are down and no worker
    thread is about to raise one. *)
Definition given_up (s : Integrated.State) : Prop :=
  Integrated.teacher_running (self s) = false /\
  Integrated.student_running (self s) = false /\
  map_Forall (fun _ th => settled th) (threads (os s)).

(** The running flags stay down if they were, the threads are the same,
    and no worker thread was launched. *)
Definition idles : relation Integrated.State :=
  fun s s' =>
    (Integrated.teacher_running (self s) = false ->
     Integrated.teacher_running (self s') = false) /\
    (Integrated.student_running (self s) = false ->
     Integrated.student_running (self s') = false) /\
    threads (os s') = threads (os s) /\
    logs no_thread_launch s s'.

(** Both worker threads of the integrated system (its second and third
    tasks) raise as soon as they run. *)
Definition workers_fail_env : Env :=
  {| wall := fun k => Z.of_nat k; fault := fun _ => None;
     fates := fun _ => [(2%positive, Fails); (3%positive, Fails)];
     stdout_of := fun _ => EmptyString;
     remote := fun _ => Refused ConnectionError;
     interrupt := fun _ => false; os_name := "posix";
     executable := "python3"; env_port := 8080 |}.

(** The integrated system after a start() during which both bots failed. *)
Definition integrated_both_failed : Integrated.State :=
  Integrated.after [Integrated.Start]
    (Integrated.fresh (boot workers_fail_env)).

(** An event other than the launch of one of the threads [names]. *)
Definition not_launch (names : list string) (e : event) : Prop :=
  match e with
  | ThreadStart t => ~ In t names
  | _ => True
  end.

(** What start() leaves in the trace: when it returns True the thread
    [loop] has been launched, when it returns False none of the threads
    [names] has. *)
Definition Launches {Obj} (names : list string) (loop : string)
    (c : M (Sys Obj) bool) : Prop :=
  forall s, exists evs,
    trace (os (c s).2) = evs ++ trace (os s) /\
    match (c s).1 with
    | Ret true => In (ThreadStart loop) evs
    | Ret false => Forall (not_launch names) evs
    | Raise _ => True
    end.

(** Every child process exits during any sleep. *)
Definition children_exit_env : Env :=
  {| wall := fun k => Z.of_nat k; fault := fun _ => None;
     fates := fun _ => map (fun p => (Pos.of_nat p, Dies)) (seq 1 40);
     stdout_of := fun _ => EmptyString;
     remote := fun _ => Refused ConnectionError;
     interrupt := fun _ => false; os_name := "posix";
     executable := "python3"; env_port := 8080 |}.

(** A run_cloud_24_7 deployment right after a start() on a quiet
    machine. *)
Definition cloudrun_started : CloudRun.State :=
  CloudRun.after [CloudRun.Start] (CloudRun.fresh (boot quiet_env)).

(** A keep_bot_alive_24x7 supervisor right after a start() on a quiet
    machine. *)
Definition keepalive_running : KeepAlive.State :=
  KeepAlive.after [KeepAlive.Start] (KeepAlive.fresh (boot quiet_env)).

(** Every library call from the third step on raises OSError. *)
Definition refusing_env : Env :=
  {| wall := fun k => Z.of_nat k;
     fault := fun k => if (2 <? k)%nat then Some OSError else None;
     fates := fun _ => []; stdout_of := fun _ => EmptyString;
     remote := fun _ => Refused ConnectionError;
     interrupt := fun _ => false; os_name := "posix";
     executable := "python3"; env_port := 8080 |}.


(** What a client receives from /health of webserver.py. *)
Definition webserver_health_reply : http_result :=
  match (Webserver.serve "/health" (Webserver.fresh (boot quiet_env))).1 with
  | Ret r => reply_of r
  | Raise _ => Refused ConnectionError
  end.

(** A remote host that answers every request as /health of webserver.py
    does. *)
Definition webserver_remote_env : Env :=
  {| wall := fun k => Z.of_nat k; fault := fun _ => None;
     fates := fun _ => []; stdout_of := fun _ => EmptyString;
     remote := fun _ => webserver_health_reply;
     interrupt := fun _ => false; os_name := "posix";
     executable := "python3"; env_port := 8080 |}.

(** ** Reasoning about computations *)

Section Running.
Context {St A B : Type}.

Lemma bind_ret (c : M St A) (k : A -> M St B) s a s1 :
  c s = (Ret a, s1) -> bind c k s = k a s1.
Proof. intros H. unfold bind. rewrite H. reflexivity. Qed.

Lemma bind_raise (c : M St A) (k : A -> M St B) s e s1 :
  c s = (Raise e, s1) -> bind c k s = (Raise e, s1).
Proof. intros H. unfold bind. rewrite H. reflexivity. Qed.


Lemma bind_ret_fst (c : M St A) (k : A -> M St B) s a s1 :
  c s = (Ret a, s1) -> (bind c k s).1 = (k a s1).1.
Proof. intros H. unfold bind. rewrite H. reflexivity. Qed.

Lemma try_ret_fst (c : M St A) h s a :
  (c s).1 = Ret a -> (try_except c h s).1 = Ret a.
Proof.
  intros H. unfold try_except. destruct (c s) as [[x|e] s1]; simpl in *.
  - exact H.
  - discriminate H.
Qed.

Lemma try_raise (c : M St A) h s e s1 :
  c s = (Raise e, s1) -> try_except c h s = h e s1.
Proof. intros H. unfold try_except. rewrite H. reflexivity. Qed.
End Running.

Section MovesRules.
Context {St : Type} (R : relation St) `{!PreOrder R}.

Lemma moves_ret {A} (a : A) : Moves R (ret a).
Proof. intros s. reflexivity. Qed.

Lemma moves_raise {A} e : Moves R (@raise St A e).
Proof. intros s. reflexivity. Qed.

Lemma moves_gets {A} (f : St -> A) : Moves R (gets f).
Proof. intros s. reflexivity. Qed.

Lemma moves_modify f : (forall s, R s (f s)) -> Moves R (modify f).
Proof. intros H s. apply H. Qed.

Lemma moves_bind {A B} (c : M St A) (k : A -> M St B) :
  Moves R c -> (forall a, Moves R (k a)) -> Moves R (bind c k).
Proof.
  intros Hc Hk s. unfold bind. specialize (Hc s).
  destruct (c s) as [[a|e] s1]; simpl in *; [|assumption].
  etransitivity; [eassumption | apply Hk].
Qed.

Lemma moves_try {A} (c : M St A) h :
  Moves R c -> (forall e, Moves R (h e)) -> Moves R (try_except c h).
Proof.
  intros Hc Hh s. unfold try_except. specialize (Hc s).
  destruct (c s) as [[a|e] s1]; simpl in *; [assumption|].
  etransitivity; [eassumption | apply Hh].
Qed.

Lemma moves_when (b : bool) c : Moves R c -> Moves R (when b c).
Proof. destruct b; simpl; [trivial | intros _; apply moves_ret]. Qed.

Lemma moves_chain {A} (f : A -> M St unit) (l : list A) :
  (forall a, Moves R (f a)) ->
  Moves R (foldr (fun a k => bind (f a) (fun _ => k)) (ret tt) l).
Proof.
  intros Hf. induction l as [|a l IH]; simpl.
  - apply moves_ret.
  - apply moves_bind; [apply Hf | intros _; exact IH].
Qed.
End MovesRules.

Section YieldsRules.
Context {St : Type}.

Lemma yields_ret {A} (P : A -> Prop) a : P a -> Yields P (@ret St A a).
Proof. intros H s. exact H. Qed.

Lemma yields_bind {A B} (P : B -> Prop) (c : M St A) (k : A -> M St B) :
  (forall a, Yields P (k a)) -> Yields P (bind c k).
Proof.
  intros Hk s. unfold bind. destruct (c s) as [[a|e] s1]; simpl.
  - apply Hk.
  - exact I.
Qed.

Lemma moves_bind_yields {A B} (R : relation St) `{!PreOrder R}
    (P : A -> Prop) (c : M St A) (k : A -> M St B) :
  Moves R c -> Yields P c -> (forall a, P a -> Moves R (k a)) ->
  Moves R (bind c k).
Proof.
  intros Hc Hy Hk s. unfold bind. specialize (Hc s). specialize (Hy s).
  destruct (c s) as [[a|e] s1]; simpl in *; [|assumption].
  etransitivity; [eassumption | apply Hk, Hy].
Qed.
End YieldsRules.

Lemma moves_zoom {S T A} (RT : relation (Sys T)) (RS : relation (Sys S))
    (get : S -> T) (set : T -> S -> S) (c : M (Sys T) A) :
  Moves RT c ->
  (forall s t, RT (mkSys (get (self s)) (os s)) t ->
               RS s (mkSys (set (self t) (self s)) (os t))) ->
  Moves RS (zoom get set c).
Proof.
  intros Hc Hlift s. unfold zoom. specialize (Hc (mkSys (get (self s)) (os s))).
  destruct (c _) as [r t]. simpl in *. apply Hlift, Hc.
Qed.

#[global] Instance frame_preorder {Obj} : PreOrder (@frame Obj).
Proof.
  split.
  - intros s. repeat split.
  - intros a b c (H1 & H2 & H3) (H4 & H5 & H6). repeat split; congruence.
Qed.

#[global] Instance rises_preorder {Obj} (f : Obj -> Z) : PreOrder (rises f).
Proof.
  split; unfold rises.
  - intros s. lia.
  - intros a b c ? ?. lia.
Qed.

#[global] Instance same_preorder {Obj A} (f : Sys Obj -> A) :
  PreOrder (same f).
Proof.
  split; unfold same.
  - intros s. reflexivity.
  - intros a b c ? ?. congruence.
Qed.

#[global] Instance tomb_preorder {Obj} (p : pid) : PreOrder (@tomb Obj p).
Proof.
  split; unfold tomb.
  - intros s. split; [reflexivity | auto].
  - intros a b c [H1 H2] [H3 H4]. split; [etransitivity; eassumption|].
    intros Hp Hd. apply H4; [|auto]. eapply Pos.lt_le_trans; eassumption.
Qed.

#[global] Instance keeps_preorder {Obj A} (f : Obj -> A) : PreOrder (keeps f).
Proof.
  split; unfold keeps.
  - intros s. reflexivity.
  - intros a b c ? ?. congruence.
Qed.

#[global] Instance logs_preorder {Obj} (P : event -> Prop) :
  PreOrder (@logs Obj P).
Proof.
  split.
  - intros s. exists []. split; [reflexivity | constructor].
  - intros a b c (e1 & H1 & F1) (e2 & H2 & F2). exists (e2 ++ e1). split.
    + rewrite H2, H1. apply app_assoc.
    + apply Forall_app; split; assumption.
Qed.

(** One step of the structural decomposition of a computation. *)
Ltac moves_step :=
  lazymatch goal with
  | |- Moves _ (bind _ _) => apply moves_bind; [typeclasses eauto | | intros ?]
  | |- Moves _ (try_except _ _) =>
      apply moves_try; [typeclasses eauto | | intros ?]
  | |- Moves _ (ret _) => apply moves_ret; typeclasses eauto
  | |- Moves _ (raise _) => apply moves_raise; typeclasses eauto
  | |- Moves _ (gets _) => apply moves_gets; typeclasses eauto
  | |- Moves _ (when _ _) => apply moves_when; [typeclasses eauto | ]
  | |- Moves _ (foldr _ _ _) =>
      apply moves_chain; [typeclasses eauto | intros ?]
  | |- Moves ?R (if ?b then ?x else ?y) =>
      first [ let v := eval vm_compute in b in
              lazymatch v with
              | true => change (Moves R x)
              | false => change (Moves R y)
              end
            | destruct b eqn:? ]
  | |- Moves _ (let _ := _ in _) => cbv zeta
  | |- Moves _ (match ?x with _ => _ end) => destruct x
  | |- Moves _ (let '(_, _) := ?x in _) => destruct x
  end.

(** Leaves are state updates: [modify f] with [f] explicit. *)
Ltac moves_leaf tac :=
  lazymatch goal with
  | |- Moves _ (modify _) =>
      apply moves_modify; intros [? ?]; cbn; solve [tac]
  end.

Ltac unfold_runtime :=
  unfold text, jsonify, view, not_found, thread_start, thread_new,
    thread_run, popen, poll_is_none, communicate, terminate, subprocess_run,
    is_alive, requests_get, response_json, data_get, interrupted, percent,
    sleep, log, now, emit, guarded, on_self, on_os.

(** How to cross a [zoom]; set where a module embeds another. *)
Ltac zoom_rule := fail.

Ltac moves_with tac :=
  repeat (first [moves_step | moves_leaf tac | progress unfold_runtime
                | zoom_rule]).

Ltac frame_leaf := unfold frame; cbn; auto.
Ltac keeps_leaf := unfold keeps; cbn; reflexivity.

Ltac split_path path :=
  repeat (match goal with
          | |- context [String.eqb path ?p] =>
              destruct (String.eqb_spec path p); [subst|]
          end); try congruence.

(** ** Read-only routes *)

Lemma keepalive_readonly path :
  path <> "/keep-alive" -> path <> "/restart-bots" ->
  Moves frame (KeepAlive.serve path).
Proof.
  intros H1 H2. unfold KeepAlive.serve. split_path path;
  unfold KeepAlive.home, KeepAlive.health, KeepAlive.alive_flag,
    KeepAlive.ping; moves_with frame_leaf.
Qed.

Lemma webserver_readonly path :
  path <> "/keep-alive" -> Moves frame (Webserver.serve path).
Proof.
  intros H1. unfold Webserver.serve. split_path path;
  unfold Webserver.home, Webserver.health, Webserver.ping;
  moves_with frame_leaf.
Qed.

Lemma cloudrun_readonly path :
  path <> "/keep-alive" -> Moves frame (CloudRun.serve path).
Proof.
  intros H1. unfold CloudRun.serve.
  eapply moves_zoom; [apply webserver_readonly, H1|].
  intros [[m g] w] [g' w'] (Hs & Hp & Ht); cbn in *. subst g'.
  repeat split; assumption.
Qed.

Lemma integrated_readonly path :
  path <> "/keep-alive" -> Moves frame (Integrated.serve path).
Proof.
  intros H1. unfold Integrated.serve. split_path path;
  unfold Integrated.home, Integrated.health, Integrated.ping;
  moves_with frame_leaf.
Qed.

(** C4 (as amended): handling a request for any path other than
    /keep-alive -- and, for keep_bot_alive_24x7, other than /restart-bots --
    leaves the object (counters, timestamps, worker handles and flags), the
    process table and the threads exactly as they were, in each of the
    servers. *)
Theorem readonly_routes_leave_state (path : string) :
  path <> "/keep-alive" ->
  (path <> "/restart-bots" -> forall s, frame s (KeepAlive.serve path s).2) /\
  (forall s, frame s (Webserver.serve path s).2) /\
  (forall s, frame s (CloudRun.serve path s).2) /\
  (forall s, frame s (Integrated.serve path s).2).
Proof.
  intros H. split; [|split; [|split]].
  - intros H'. apply keepalive_readonly; assumption.
  - apply webserver_readonly, H.
  - apply cloudrun_readonly, H.
  - apply integrated_readonly, H.
Qed.

Lemma readonly_routes_leave_state_witness :
  "/health" <> "/keep-alive" /\ "/health" <> "/restart-bots" /\
  frame (KeepAlive.fresh (boot quiet_env))
        (KeepAlive.serve "/health" (KeepAlive.fresh (boot quiet_env))).2.
Proof.
  assert (H1 : "/health" <> "/keep-alive") by discriminate.
  assert (H2 : "/health" <> "/restart-bots") by discriminate.
  split; [exact H1 | split; [exact H2 |]].
  exact (proj1 (readonly_routes_leave_state "/health" H1) H2 _).
Defined.

(** C4 (as stated) fails: /restart-bots is a route of keep_bot_alive_24x7
    other than /keep-alive, and a request for it changes the object: on a
    freshly built one restart_count goes from 0 to 1 and both worker handles
    are replaced. *)
Lemma restart_route_has_effects :
  In "/restart-bots" KeepAlive.routes /\
  "/restart-bots" <> "/keep-alive" /\
  ~ frame (KeepAlive.fresh (boot quiet_env))
          (KeepAlive.serve "/restart-bots" (KeepAlive.fresh (boot quiet_env))).2.
Proof.
  split; [|split].
  - simpl. tauto.
  - discriminate.
  - intros (Hself & _). vm_compute in Hself. discriminate Hself.
Qed.

(** ** The /keep-alive response *)

(** C6 (as amended): in every server and every state /keep-alive answers
    200 with a JSON object whose status is "alive" and which carries
    message, ping_count and timestamp.  keep_bot_alive_24x7 adds uptime and
    nothing else; run_bots_24x7_integrated adds uptime, teacher_running and
    student_running; webserver.py (also the HTTP surface of run_cloud_24_7)
    has no uptime. *)
Theorem keep_alive_response_fields :
  (forall s, exists r s',
     KeepAlive.serve "/keep-alive" s = (Ret r, s') /\ status_code r = 200 /\
     field "status" r = Some (JStr "alive") /\
     keys r = {["status"; "message"; "ping_count"; "timestamp"; "uptime"]}) /\
  (forall s, exists r s',
     Integrated.serve "/keep-alive" s = (Ret r, s') /\ status_code r = 200 /\
     field "status" r = Some (JStr "alive") /\
     keys r = {["status"; "message"; "ping_count"; "timestamp"; "uptime";
                "teacher_running"; "student_running"]}) /\
  (forall s, exists r s',
     Webserver.serve "/keep-alive" s = (Ret r, s') /\ status_code r = 200 /\
     field "status" r = Some (JStr "alive") /\
     keys r = {["status"; "message"; "ping_count"; "timestamp"]}) /\
  (forall s, exists r s',
     CloudRun.serve "/keep-alive" s = (Ret r, s') /\ status_code r = 200 /\
     field "status" r = Some (JStr "alive") /\
     keys r = {["status"; "message"; "ping_count"; "timestamp"]}).
Proof.
  split; [|split; [|split]]; intros [o w]; eexists _, _;
    (split; [reflexivity|]); (split; [reflexivity|]);
    (split; [reflexivity|]); unfold keys, dict; cbn [body foldl fst snd];
    rewrite !dom_insert_L, dom_empty_L; set_solver.
Qed.

(** C6 (as stated) fails: the body webserver.py sends for /keep-alive has
    no uptime field. *)
Lemma webserver_keep_alive_lacks_uptime :
  exists r s',
    Webserver.serve "/keep-alive" (Webserver.fresh (boot quiet_env))
      = (Ret r, s') /\
    field "uptime" r = None /\
    keys r <> {["status"; "message"; "ping_count"; "timestamp"; "uptime"]}.
Proof.
  eexists _, _. split; [reflexivity|]. split; [reflexivity|].
  unfold keys, dict; cbn [body foldl fst snd].
  rewrite !dom_insert_L, dom_empty_L. intros H.
  assert (Hin : "uptime" ∈ ({["status"; "message"; "ping_count"; "timestamp";
                              "uptime"]} : gset string)) by set_solver.
  rewrite <- H in Hin. set_solver.
Qed.

(** ** Counting pings *)

Ltac unfold_keepalive :=
  unfold KeepAlive.run_op, KeepAlive.serve, KeepAlive.start, KeepAlive.stop,
    KeepAlive.self_ping_once, KeepAlive.monitor_once,
    KeepAlive.restart_bots_endpoint, KeepAlive.restart_bots,
    KeepAlive.start_flask_server, KeepAlive.banner,
    KeepAlive.check_bots_health, KeepAlive.start_teacher_bot,
    KeepAlive.start_student_bot, KeepAlive.start_output_monitor,
    KeepAlive.kill_existing_bots, KeepAlive.home, KeepAlive.health,
    KeepAlive.keep_alive, KeepAlive.ping, KeepAlive.alive_flag.


Ltac unfold_cloudrun :=
  unfold CloudRun.run_op, CloudRun.start, CloudRun.stop,
    CloudRun.monitor_once, CloudRun.restart_bots, CloudRun.start_webserver,
    CloudRun.check_bot_health, CloudRun.start_teacher_bot,
    CloudRun.start_student_bot, CloudRun.kill_existing_bots,
    CloudRun.alive_flag, CloudRun.on_manager.

Ltac unfold_integrated :=
  unfold Integrated.run_op, Integrated.serve, Integrated.start,
    Integrated.stop, Integrated.stop_polling, Integrated.self_ping_once,
    Integrated.monitor_once, Integrated.restart_teacher_bot,
    Integrated.restart_student_bot, Integrated.start_teacher_bot_thread,
    Integrated.start_student_bot_thread, Integrated.start_flask_server,
    Integrated.banner, Integrated.alive_flag, Integrated.home,
    Integrated.health, Integrated.keep_alive, Integrated.ping,
    Integrated.yield_sleep, Integrated.thread_body, Integrated.run_teacher,
    Integrated.run_student.

Lemma after_cons_keepalive o ops s :
  KeepAlive.after (o :: ops) s = KeepAlive.after ops (KeepAlive.run_op o s).2.
Proof. reflexivity. Qed.





Lemma after_cons_integrated o ops s :
  Integrated.after (o :: ops) s
  = Integrated.after ops (Integrated.run_op o s).2.
Proof. reflexivity. Qed.





(** webserver.py, as served by the run_cloud_24_7 deployment. *)





Lemma after_cons_cloudrun o ops s :
  CloudRun.after (o :: ops) s = CloudRun.after ops (CloudRun.run_op o s).2.
Proof. reflexivity. Qed.





Ltac unfold_monad :=
  unfold_runtime; unfold when, bind, ret, raise, try_except, gets, modify.
Ltac exec := unfold_monad; cbn.

(** ** The status reported by /health *)

Lemma keepalive_health_status s :
  calm (env (os s)) ->
  exists r s',
    KeepAlive.serve "/health" s = (Ret r, s') /\ status_code r = 200 /\
    field "status" r
    = Some (JStr (if worker_up (os s) (KeepAlive.teacher_process (self s))
                     && worker_up (os s) (KeepAlive.student_process (self s))
                  then "healthy" else "partial")).
Proof.
  intros Hcalm. destruct s as [[tp sp rn rc st lp pc pt] w].
  unfold calm in Hcalm. cbn in Hcalm.
  change (KeepAlive.serve "/health") with (view KeepAlive.health).
  unfold KeepAlive.health, KeepAlive.alive_flag.
  destruct tp as [p|], sp as [q|]; exec; repeat (rewrite Hcalm; cbn);
    eexists _, _; (split; [reflexivity|]); (split; [reflexivity|]);
    cbn; repeat (match goal with
                 | |- context [procs w !! ?x] =>
                     destruct (procs w !! x) as [[? ? []]|]
                 end); reflexivity.
Qed.

Lemma integrated_health_status s :
  exists r s',
    Integrated.serve "/health" s = (Ret r, s') /\ status_code r = 200 /\
    field "status" r
    = Some (JStr (if Integrated.teacher_running (self s)
                     && Integrated.student_running (self s)
                  then "healthy" else "partial")).
Proof. destruct s as [o w]. eexists _, _. repeat split. Qed.

Lemma webserver_health_status s :
  exists r s',
    Webserver.serve "/health" s = (Ret r, s') /\ status_code r = 200 /\
    field "status" r = Some (JStr "healthy").
Proof. destruct s as [o w]. eexists _, _. repeat split. Qed.

Lemma cloudrun_health_status s :
  exists r s',
    CloudRun.serve "/health" s = (Ret r, s') /\ status_code r = 200 /\
    field "status" r = Some (JStr "healthy").
Proof. destruct s as [[m g] w]. eexists _, _. repeat split. Qed.

(** C2 (as amended): in keep_bot_alive_24x7, when no library call fails,
    /health answers 200 with status "healthy" if the polls of both worker
    handles find them running and "partial" otherwise, whichever worker is
    down; in run_bots_24x7_integrated the same holds of the two running
    flags; the /health of webserver.py, which is what run_cloud_24_7
    serves, answers "healthy" in every state. *)
Theorem health_status_by_server :
  (forall s, calm (env (os s)) -> exists r s',
     KeepAlive.serve "/health" s = (Ret r, s') /\ status_code r = 200 /\
     field "status" r
     = Some (JStr (if worker_up (os s) (KeepAlive.teacher_process (self s))
                      && worker_up (os s) (KeepAlive.student_process (self s))
                   then "healthy" else "partial"))) /\
  (forall s, exists r s',
     Integrated.serve "/health" s = (Ret r, s') /\ status_code r = 200 /\
     field "status" r
     = Some (JStr (if Integrated.teacher_running (self s)
                      && Integrated.student_running (self s)
                   then "healthy" else "partial"))) /\
  (forall s, exists r s',
     Webserver.serve "/health" s = (Ret r, s') /\ status_code r = 200 /\
     field "status" r = Some (JStr "healthy")) /\
  (forall s, exists r s',
     CloudRun.serve "/health" s = (Ret r, s') /\ status_code r = 200 /\
     field "status" r = Some (JStr "healthy")).
Proof.
  split; [|split; [|split]].
  - exact keepalive_health_status.
  - exact integrated_health_status.
  - exact webserver_health_status.
  - exact cloudrun_health_status.
Qed.

Lemma health_status_by_server_witness :
  calm (env (os (KeepAlive.fresh (boot quiet_env)))) /\
  exists r s',
    KeepAlive.serve "/health" (KeepAlive.fresh (boot quiet_env)) = (Ret r, s')
    /\ status_code r = 200 /\ field "status" r = Some (JStr "partial").
Proof.
  assert (H : calm (env (os (KeepAlive.fresh (boot quiet_env)))))
    by (intros k; reflexivity).
  split; [exact H|].
  exact (proj1 health_status_by_server (KeepAlive.fresh (boot quiet_env)) H).
Defined.

(** C2 (as stated) fails for run_cloud_24_7: its supervisor tracks the two
    bot processes, yet with the teacher bot dead the /health it serves still
    answers "healthy". *)
Lemma cloud_run_health_ignores_workers :
  worker_up (os cloud_teacher_down)
    (CloudRun.teacher_process (CloudRun.manager (self cloud_teacher_down)))
  = false /\
  exists r s',
    CloudRun.serve "/health" cloud_teacher_down = (Ret r, s') /\
    field "status" r = Some (JStr "healthy") /\
    field "status" r <> Some (JStr "partial").
Proof.
  split; [vm_compute; reflexivity|].
  destruct (cloudrun_health_status cloud_teacher_down)
    as (r & s' & Hr & _ & Hf).
  exists r, s'. rewrite Hf. repeat split; [assumption | discriminate].
Qed.

(** ** The restart counter *)

Section Within.
Context {Obj : Type} (f : Obj -> Z).

Lemma within_keeps {A} (c : M (Sys Obj) A) :
  Moves (keeps f) c -> Moves (within f 0) c.
Proof. intros H s. specialize (H s). unfold keeps, within in *. lia. Qed.

Lemma within_weaken {A} (c : M (Sys Obj) A) m n :
  m <= n -> Moves (within f m) c -> Moves (within f n) c.
Proof. intros Hmn H s. specialize (H s). unfold within in *. lia. Qed.

Lemma within_bind {A B} m n (c : M (Sys Obj) A) (k : A -> M (Sys Obj) B) :
  0 <= m -> 0 <= n ->
  Moves (within f m) c -> (forall a, Moves (within f n) (k a)) ->
  Moves (within f (m + n)) (bind c k).
Proof.
  intros Hm Hn Hc Hk s. unfold bind. specialize (Hc s).
  destruct (c s) as [[a|e] s1]; simpl in *.
  - specialize (Hk a s1). unfold within in *. lia.
  - unfold within in *. lia.
Qed.

Lemma within_try {A} m n (c : M (Sys Obj) A) h :
  0 <= m -> 0 <= n ->
  Moves (within f m) c -> (forall e, Moves (within f n) (h e)) ->
  Moves (within f (m + n)) (try_except c h).
Proof.
  intros Hm Hn Hc Hh s. unfold try_except. specialize (Hc s).
  destruct (c s) as [[a|e] s1]; simpl in *.
  - unfold within in *. lia.
  - specialize (Hh e s1). unfold within in *. lia.
Qed.
End Within.

Lemma keepalive_restart_adds_one s :
  KeepAlive.restart_count (self (KeepAlive.restart_bots s).2)
  = KeepAlive.restart_count (self s) + 1.
Proof.
  unfold KeepAlive.restart_bots.
  match goal with
  | |- context [bind (on_self ?g) ?k] =>
      assert (Hk : Moves (keeps KeepAlive.restart_count) (k tt))
        by (cbv beta; repeat (progress unfold_keepalive);
            moves_with keeps_leaf);
      specialize (Hk (mkSys (g (self s)) (os s)));
      change ((bind (on_self g) k) s) with (k tt (mkSys (g (self s)) (os s)))
  end.
  exact Hk.
Qed.

Lemma keepalive_restart_within :
  Moves (within KeepAlive.restart_count 1) KeepAlive.restart_bots.
Proof.
  intros s. unfold within. rewrite keepalive_restart_adds_one. lia.
Qed.

Ltac keeps_restart_count :=
  apply within_keeps; repeat (progress unfold_keepalive);
  moves_with keeps_leaf.

Lemma keepalive_op_within o :
  Moves (within KeepAlive.restart_count 1) (KeepAlive.run_op o).
Proof.
  destruct o as [path| | | | |]; unfold KeepAlive.run_op.
  - apply (within_bind _ 1 0); [lia | lia | | intros r; keeps_restart_count].
    destruct (String.eqb_spec path "/restart-bots") as [Hp|Hp].
    + subst path.
      change (KeepAlive.serve "/restart-bots")
        with (view KeepAlive.restart_bots_endpoint).
      unfold view, KeepAlive.restart_bots_endpoint.
      apply (within_try _ 1 0); [lia | lia | | intros e; keeps_restart_count].
      apply (within_bind _ 1 0);
        [lia | lia | apply keepalive_restart_within
        | intros b; keeps_restart_count].
    + apply (within_weaken _ _ 0 1); [lia|]. apply within_keeps.
      unfold KeepAlive.serve. split_path path;
        repeat (progress unfold_keepalive); moves_with keeps_leaf.
  - apply (within_weaken _ _ 0 1); [lia|]. keeps_restart_count.
  - unfold KeepAlive.monitor_once.
    apply (within_try _ 1 0); [lia | lia | | intros e; keeps_restart_count].
    apply (within_bind _ 0 1); [lia | lia | keeps_restart_count |].
    intros [ta sa].
    apply (within_bind _ 1 0); [lia | lia | | intros u; keeps_restart_count].
    destruct (negb (is_true ta) || negb (is_true sa)).
    + apply (within_bind _ 0 1); [lia | lia | keeps_restart_count | intros _].
      apply (within_bind _ 0 1); [lia | lia | keeps_restart_count | intros _].
      apply (within_bind _ 0 1); [lia | lia | keeps_restart_count | intros _].
      apply (within_bind _ 1 0);
        [lia | lia | apply keepalive_restart_within
        | intros b; keeps_restart_count].
    + apply (within_weaken _ _ 0 1); [lia|]. keeps_restart_count.
  - apply (within_bind _ 1 0);
      [lia | lia | apply keepalive_restart_within
      | intros b; keeps_restart_count].
  - apply (within_weaken _ _ 0 1); [lia|]. keeps_restart_count.
  - apply (within_weaken _ _ 0 1); [lia|]. keeps_restart_count.
Qed.

Lemma keepalive_restarts_rise ops s :
  KeepAlive.restart_count (self s)
  <= KeepAlive.restart_count (self (KeepAlive.after ops s)).
Proof.
  revert s. induction ops as [|o ops IH]; intros s.
  - simpl. lia.
  - rewrite after_cons_keepalive.
    pose proof (keepalive_op_within o s) as [H _].
    eapply Z.le_trans; [exact H | apply IH].
Qed.

Lemma zoom_keeps_manager {A} (c : M Webserver.State A) :
  Moves (keeps manager_restarts) (zoom CloudRun.web CloudRun.set_web c).
Proof.
  intros [d w]. unfold zoom, keeps, manager_restarts. cbn.
  destruct (c _) as [r t]. reflexivity.
Qed.

Ltac cloud_keeps :=
  repeat (progress unfold_cloudrun);
  repeat (first [moves_step
                | moves_leaf ltac:(unfold keeps, manager_restarts; cbn;
                                   reflexivity)
                | progress unfold_runtime
                | apply zoom_keeps_manager]).

Lemma cloudrun_restart_adds_one s :
  manager_restarts (self (CloudRun.restart_bots s).2)
  = manager_restarts (self s) + 1.
Proof.
  unfold CloudRun.restart_bots.
  match goal with
  | |- context [bind (CloudRun.on_manager ?g) ?k] =>
      assert (Hk : Moves (keeps manager_restarts) (k tt))
        by (cbv beta; cloud_keeps);
      specialize
        (Hk (mkSys {| CloudRun.manager := g (CloudRun.manager (self s));
                      CloudRun.web := CloudRun.web (self s) |} (os s)))
  end.
  exact Hk.
Qed.

Lemma cloudrun_restart_within :
  Moves (within manager_restarts 1) CloudRun.restart_bots.
Proof.
  intros s. unfold within. rewrite cloudrun_restart_adds_one. lia.
Qed.

Lemma cloudrun_op_within o :
  Moves (within manager_restarts 1) (CloudRun.run_op o).
Proof.
  destruct o as [path| | | | |]; unfold CloudRun.run_op.
  - apply (within_weaken _ _ 0 1); [lia|]. apply within_keeps.
    unfold CloudRun.serve. cloud_keeps.
  - apply (within_weaken _ _ 0 1); [lia|]. apply within_keeps. cloud_keeps.
  - unfold CloudRun.monitor_once.
    apply (within_try _ 1 0);
      [lia | lia | | intros e; apply within_keeps; cloud_keeps].
    apply (within_bind _ 0 1);
      [lia | lia | apply within_keeps; cloud_keeps |].
    intros [ta sa].
    apply (within_bind _ 1 0);
      [lia | lia | | intros u; apply within_keeps; cloud_keeps].
    destruct (negb (is_true ta) || negb (is_true sa)).
    + do 3 (apply (within_bind _ 0 1);
              [lia | lia | apply within_keeps; cloud_keeps | intros _]).
      apply (within_bind _ 1 0);
        [lia | lia | apply cloudrun_restart_within
        | intros b; apply within_keeps; cloud_keeps].
    + apply (within_weaken _ _ 0 1); [lia|]. apply within_keeps. cloud_keeps.
  - apply (within_bind _ 1 0);
      [lia | lia | apply cloudrun_restart_within
      | intros b; apply within_keeps; cloud_keeps].
  - apply (within_weaken _ _ 0 1); [lia|]. apply within_keeps. cloud_keeps.
  - apply (within_weaken _ _ 0 1); [lia|]. apply within_keeps. cloud_keeps.
Qed.

Lemma cloudrun_restarts_rise ops s :
  manager_restarts (self s)
  <= manager_restarts (self (CloudRun.after ops s)).
Proof.
  revert s. induction ops as [|o ops IH]; intros s.
  - simpl. lia.
  - rewrite after_cons_cloudrun.
    pose proof (cloudrun_op_within o s) as [H _].
    eapply Z.le_trans; [exact H | apply IH].
Qed.

(** run_bots_24x7_integrated has no restart counter to report. *)
Lemma integrated_health_has_no_restart_count s :
  exists r s',
    Integrated.serve "/health" s = (Ret r, s') /\
    field "restart_count" r = None.
Proof. destruct s as [o w]. eexists _, _. split; reflexivity. Qed.

(** C3 (as amended): in keep_bot_alive_24x7 and in run_cloud_24_7 every
    invocation of restart_bots adds exactly 1 to restart_count, every
    operation of the system (a request, a pass of a loop, a restart, start,
    stop) leaves it unchanged or adds 1, and so no schedule of operations
    lowers it.  run_bots_24x7_integrated keeps no restart_count: its /health
    has no such field. *)
Theorem restart_count_monotone :
  ((forall s,
      KeepAlive.restart_count (self (KeepAlive.restart_bots s).2)
      = KeepAlive.restart_count (self s) + 1) /\
   (forall o s,
      let n := KeepAlive.restart_count (self s) in
      let n' := KeepAlive.restart_count (self (KeepAlive.run_op o s).2) in
      n' = n \/ n' = n + 1) /\
   (forall ops s,
      KeepAlive.restart_count (self s)
      <= KeepAlive.restart_count (self (KeepAlive.after ops s)))) /\
  ((forall s,
      manager_restarts (self (CloudRun.restart_bots s).2)
      = manager_restarts (self s) + 1) /\
   (forall o s,
      let n := manager_restarts (self s) in
      let n' := manager_restarts (self (CloudRun.run_op o s).2) in
      n' = n \/ n' = n + 1) /\
   (forall ops s,
      manager_restarts (self s)
      <= manager_restarts (self (CloudRun.after ops s)))) /\
  (forall s, exists r s',
     Integrated.serve "/health" s = (Ret r, s') /\
     field "restart_count" r = None).
Proof.
  split; [|split]; [split; [|split] | split; [|split] |].
  - exact keepalive_restart_adds_one.
  - intros o s. pose proof (keepalive_op_within o s) as H.
    unfold within, KeepAlive.State in *. cbv zeta. lia.
  - exact keepalive_restarts_rise.
  - exact cloudrun_restart_adds_one.
  - intros o s. pose proof (cloudrun_op_within o s) as H.
    unfold within, CloudRun.State in *. cbv zeta. lia.
  - exact cloudrun_restarts_rise.
  - exact integrated_health_has_no_restart_count.
Qed.

(** C3 (as stated) fails for run_bots_24x7_integrated: one invocation of
    its restart operation, restart_teacher_bot, is not counted anywhere;
    the restart_count a client reads from /health is absent before and
    after, so it has not gone up by 1. *)
Lemma integrated_restart_is_not_counted :
  let s := Integrated.fresh (boot quiet_env) in
  let s' := (Integrated.restart_teacher_bot s).2 in
  ~ exists n r t r' t',
      Integrated.serve "/health" s = (Ret r, t) /\
      Integrated.serve "/health" s' = (Ret r', t') /\
      field "restart_count" r = Some (JInt n) /\
      field "restart_count" r' = Some (JInt (n + 1)).
Proof.
  intros s s' (n & r & t & r' & t' & Hr & _ & Hf & _).
  destruct (integrated_health_has_no_restart_count s) as (r0 & t0 & H0 & Hn).
  rewrite Hr in H0. injection H0 as <- <-. rewrite Hn in Hf. discriminate Hf.
Qed.

(** ** An exception in the liveness check *)

Ltac same_leaf := unfold same, poll_view; cbn; reflexivity.

Lemma keepalive_check_is_a_read :
  Moves (same poll_view) KeepAlive.check_bots_health.
Proof.
  unfold KeepAlive.check_bots_health, KeepAlive.alive_flag.
  moves_with same_leaf.
Qed.

Lemma cloudrun_check_is_a_read :
  Moves (same poll_view) CloudRun.check_bot_health.
Proof.
  unfold CloudRun.check_bot_health, CloudRun.alive_flag.
  moves_with same_leaf.
Qed.

Lemma keepalive_monitor_survives s e s1 :
  KeepAlive.check_bots_health s = (Raise e, s1) ->
  exists s',
    KeepAlive.monitor_once s = (Ret tt, s') /\
    self s' = self s /\
    trace (os s') = Sleep 60 :: Log "❌ Monitor error: {e}" :: trace (os s) /\
    forall fuel,
      KeepAlive.running (self s) = true ->
      KeepAlive.monitor_bots_loop (S fuel) s
      = KeepAlive.monitor_bots_loop fuel s'.
Proof.
  intros Hc. pose proof (keepalive_check_is_a_read s) as Hv.
  rewrite Hc in Hv. unfold same, poll_view in Hv. cbn in Hv.
  injection Hv as Hself Htrace _ _ _ _.
  assert (Hm : KeepAlive.monitor_once s
               = (log "❌ Monitor error: {e}" ;; sleep 60) s1).
  { unfold KeepAlive.monitor_once.
    erewrite try_raise; [reflexivity|]. apply bind_raise, Hc. }
  eexists. split; [rewrite Hm; reflexivity|]. cbn.
  split; [exact Hself | split].
  - rewrite Htrace. reflexivity.
  - intros fuel Hrun. cbn [KeepAlive.monitor_bots_loop].
    rewrite Hrun. erewrite bind_ret; [reflexivity | rewrite Hm; reflexivity].
Qed.

Lemma cloudrun_monitor_survives s e s1 :
  CloudRun.check_bot_health s = (Raise e, s1) ->
  exists s',
    CloudRun.monitor_once s = (Ret tt, s') /\
    self s' = self s /\
    trace (os s')
    = Sleep 60 :: Log "❌ Error in monitor loop: {e}" :: trace (os s) /\
    forall fuel,
      CloudRun.running (CloudRun.manager (self s)) = true ->
      CloudRun.monitor_loop (S fuel) s = CloudRun.monitor_loop fuel s'.
Proof.
  intros Hc. pose proof (cloudrun_check_is_a_read s) as Hv.
  rewrite Hc in Hv. unfold same, poll_view in Hv. cbn in Hv.
  injection Hv as Hself Htrace _ _ _ _.
  assert (Hm : CloudRun.monitor_once s
               = (log "❌ Error in monitor loop: {e}" ;; sleep 60) s1).
  { unfold CloudRun.monitor_once.
    erewrite try_raise; [reflexivity|]. apply bind_raise, Hc. }
  eexists. split; [rewrite Hm; reflexivity|]. cbn.
  split; [exact Hself | split].
  - rewrite Htrace. reflexivity.
  - intros fuel Hrun. cbn [CloudRun.monitor_loop].
    rewrite Hrun. erewrite bind_ret; [reflexivity | rewrite Hm; reflexivity].
Qed.

(** C7: when the liveness check of one pass of the supervisor loop raises,
    the pass still returns normally; the exception is logged; the object --
    restart_count and both worker handles included -- is exactly as before;
    the only events of the pass are that log line and a sleep of 60 s, so
    nothing was killed or launched; and, the supervisor still running, the
    loop goes on with its next pass.  For keep_bot_alive_24x7 and
    run_cloud_24_7. *)
Theorem poll_error_is_survived :
  (forall s e s1,
     KeepAlive.check_bots_health s = (Raise e, s1) ->
     exists s',
       KeepAlive.monitor_once s = (Ret tt, s') /\
       self s' = self s /\
       trace (os s')
       = Sleep 60 :: Log "❌ Monitor error: {e}" :: trace (os s) /\
       forall fuel,
         KeepAlive.running (self s) = true ->
         KeepAlive.monitor_bots_loop (S fuel) s
         = KeepAlive.monitor_bots_loop fuel s') /\
  (forall s e s1,
     CloudRun.check_bot_health s = (Raise e, s1) ->
     exists s',
       CloudRun.monitor_once s = (Ret tt, s') /\
       self s' = self s /\
       trace (os s')
       = Sleep 60 :: Log "❌ Error in monitor loop: {e}" :: trace (os s) /\
       forall fuel,
         CloudRun.running (CloudRun.manager (self s)) = true ->
         CloudRun.monitor_loop (S fuel) s = CloudRun.monitor_loop fuel s').
Proof.
  split.
  - exact keepalive_monitor_survives.
  - exact cloudrun_monitor_survives.
Qed.

Lemma poll_error_is_survived_witness :
  (KeepAlive.check_bots_health keepalive_poll_fails).1 = Raise OSError /\
  (exists s',
     KeepAlive.monitor_once keepalive_poll_fails = (Ret tt, s') /\
     KeepAlive.restart_count (self s') = 4) /\
  (CloudRun.check_bot_health cloudrun_poll_fails).1 = Raise OSError /\
  (exists s',
     CloudRun.monitor_once cloudrun_poll_fails = (Ret tt, s') /\
     manager_restarts (self s') = 4).
Proof.
  split; [reflexivity | split; [| split; [reflexivity|]]].
  - destruct (proj1 poll_error_is_survived keepalive_poll_fails OSError _
                eq_refl) as (s' & Hm & Hs & _).
    exists s'. split; [exact Hm | rewrite Hs; reflexivity].
  - destruct (proj2 poll_error_is_survived cloudrun_poll_fails OSError _
                eq_refl) as (s' & Hm & Hs & _).
    exists s'. split; [exact Hm | rewrite Hs; reflexivity].
Defined.

(** ** Exit status of the external pingers *)





Lemma simple_check_health url s :
  exists v s',
    SimplePinger.check_health url s = (Ret v, s') /\
    truthy v = reports_both_up (remote (env (os s)) (step (os s))) /\
    env (os s') = env (os s) /\
    step (os s')
    = ((if answers_ok (remote (env (os s)) (step (os s))) then 6 else 2)
       + step (os s))%nat.
Proof.
  destruct s as [o w]. unfold SimplePinger.check_health.
  unfold_monad. cbn.
  destruct (remote (env w) (step w)) as [c [d|]|e]; cbn;
    try destruct (c =? 200); try destruct d; cbn;
    eexists _, _; repeat split.
Qed.

Lemma simple_ping_bot url s :
  exists s',
    SimplePinger.ping_bot url s
    = (Ret (answers_ok (remote (env (os s)) (step (os s)))), s').
Proof.
  destruct s as [o w]. unfold SimplePinger.ping_bot.
  unfold_monad. cbn.
  destruct (remote (env w) (step w)) as [c [d|]|e]; cbn;
    try destruct (c =? 200); try destruct d; try destruct e; cbn;
    eexists; reflexivity.
Qed.

Lemma simple_single_test_exit py_int prog url i rest fuel w :
  py_int i = Some 0 ->
  (SimplePinger.main py_int (prog :: url :: i :: rest) fuel (mkSys tt w)).1
  = Ret (Some (if reports_both_up (remote (env w) (3 + step w))
                  && answers_ok (remote (env w) (9 + step w))
               then 0 else 1)).
Proof.
  intros Hi. unfold SimplePinger.main. rewrite Hi.
  change (0 =? 0) with true. cbv iota.
  set (s3 := (log "🧪 Running single test..."
                (log "🎯 Target: {bot_url}"
                   (log "🚀 Starting External Bot Pinger" (mkSys tt w)).2).2).2).
  destruct (simple_check_health (rstrip_slash url) s3)
    as (v & s4 & Hh & Hv & He & Hs).
  destruct (simple_ping_bot (rstrip_slash url) s4) as (s5 & Hp).
  apply try_ret_fst.
  do 3 (erewrite bind_ret_fst; [|reflexivity]). fold s3.
  erewrite bind_ret_fst; [|exact Hh].
  erewrite bind_ret_fst; [|exact Hp].
  rewrite Hv, He, Hs. subst s3. cbn.
  destruct (remote (env w) (S (S (S (step w))))) as [c [d|]|e]; cbn;
    try destruct d; cbn; try destruct (c =? 200); cbn;
    repeat match goal with
           | |- context [truthy ?x] => destruct (truthy x); cbn
           | |- context [answers_ok ?r] => destruct (answers_ok r); cbn
           end;
    reflexivity.
Qed.




(** ** Divisions in the success-rate statistics *)

Ltac logs_leaf tac :=
  first [ exists []; split; [reflexivity | constructor]
        | eexists [_]; split;
          [reflexivity | constructor; [cbn; tac | constructor]] ].

Ltac safe_leaf := logs_leaf ltac:(first [exact I | lia]).

Lemma external_print_stats_safe :
  Moves (logs safe_division) ExternalMonitor.print_stats.
Proof. unfold ExternalMonitor.print_stats. moves_with safe_leaf. Qed.

Lemma external_ping_service_safe :
  Moves (logs safe_division) ExternalMonitor.ping_service.
Proof. unfold ExternalMonitor.ping_service. moves_with safe_leaf. Qed.

Lemma external_check_health_safe :
  Moves (logs safe_division) ExternalMonitor.check_health.
Proof. unfold ExternalMonitor.check_health. moves_with safe_leaf. Qed.

Lemma external_continuous_safe fuel interval :
  Moves (logs safe_division) (ExternalMonitor.run_continuous fuel interval).
Proof.
  pose proof external_print_stats_safe as Hs.
  pose proof external_ping_service_safe as Hp.
  pose proof external_check_health_safe as Hh.
  assert (Hloop : Moves (logs safe_division)
                    (ExternalMonitor.continuous_loop fuel interval)).
  { induction fuel as [|fuel IH]; cbn [ExternalMonitor.continuous_loop].
    - apply moves_ret; typeclasses eauto.
    - apply moves_bind; [typeclasses eauto | | intros [|]];
        [| exact IH | apply moves_ret; typeclasses eauto].
      unfold ExternalMonitor.continuous_pass.
      repeat (first [assumption | moves_step | moves_leaf safe_leaf
                    | progress unfold_runtime]). }
  unfold ExternalMonitor.run_continuous.
  repeat (first [assumption | moves_step | moves_leaf safe_leaf
                | progress unfold_runtime]).
Qed.

Lemma simple_ping_bot_safe url :
  Moves (logs safe_division) (SimplePinger.ping_bot url).
Proof. unfold SimplePinger.ping_bot. moves_with safe_leaf. Qed.

Lemma simple_check_health_safe url :
  Moves (logs safe_division) (SimplePinger.check_health url).
Proof. unfold SimplePinger.check_health. moves_with safe_leaf. Qed.

Ltac counting_leaf :=
  logs_leaf ltac:(repeat match goal with
                         | |- context [if ?b then _ else _] => destruct b
                         end; cbn; first [exact I | lia]).

Lemma simple_pass_safe url interval c :
  0 <= SimplePinger.ping_count c ->
  Moves (logs safe_division) (SimplePinger.continuous_pass url interval c).
Proof.
  intros Hc. pose proof (simple_ping_bot_safe url) as Hp.
  pose proof (simple_check_health_safe url) as Hh.
  unfold SimplePinger.continuous_pass.
  repeat (first [apply Hp | apply Hh | moves_step | moves_leaf counting_leaf
                | progress unfold_runtime]).
Qed.

Ltac yields_step :=
  lazymatch goal with
  | |- Yields _ (bind _ _) => apply yields_bind; intros ?
  | |- Yields _ (ret _) => apply yields_ret
  | |- Yields _ (if ?b then _ else _) => destruct b
  | |- Yields _ (let _ := _ in _) => cbv zeta
  end.

Lemma simple_pass_counts url interval c :
  0 <= SimplePinger.ping_count c ->
  Yields (fun r => 0 <= SimplePinger.ping_count (counters_of r))
         (SimplePinger.continuous_pass url interval c).
Proof.
  intros Hc. unfold SimplePinger.continuous_pass.
  repeat yields_step; cbn;
    repeat match goal with
           | |- context [if ?b then _ else _] => destruct b
           end; cbn; lia.
Qed.

Lemma simple_loop_safe fuel url interval c :
  0 <= SimplePinger.ping_count c ->
  Moves (logs safe_division) (SimplePinger.continuous_loop fuel url interval c).
Proof.
  revert c. induction fuel as [|fuel IH]; intros c Hc;
    cbn [SimplePinger.continuous_loop].
  - apply moves_ret; typeclasses eauto.
  - eapply moves_bind_yields;
      [typeclasses eauto | apply simple_pass_safe, Hc
      | apply simple_pass_counts, Hc |].
    intros [c'|c'] Hc'; cbn in Hc'.
    + apply IH, Hc'.
    + apply moves_ret; typeclasses eauto.
Qed.

Lemma simple_final_stats_safe c :
  Moves (logs safe_division) (SimplePinger.final_stats c).
Proof. unfold SimplePinger.final_stats. moves_with safe_leaf. Qed.

Lemma simple_main_safe py_int argv fuel :
  Moves (logs safe_division) (SimplePinger.main py_int argv fuel).
Proof.
  pose proof simple_ping_bot_safe as Hp.
  pose proof simple_check_health_safe as Hh.
  pose proof simple_final_stats_safe as Hf.
  assert (Hl : forall url interval,
             Moves (logs safe_division)
               (SimplePinger.continuous_loop fuel url interval
                  {| SimplePinger.ping_count := 0;
                     SimplePinger.success_count := 0 |}))
    by (intros; apply simple_loop_safe; cbn; lia).
  unfold SimplePinger.main.
  destruct argv as [|prog [|url rest]];
    repeat (first [apply Hp | apply Hh | apply Hf | apply Hl | moves_step
                  | moves_leaf safe_leaf | progress unfold_runtime]).
Qed.

(** C10: the success-rate statistics never divide by zero.  Every division
    the external monitor evaluates in print_stats, anywhere in
    run_continuous, and every division the simple pinger evaluates, whatever
    its arguments, however long it runs and whenever it is interrupted, has
    a divisor greater than 0. *)
Theorem success_rate_division_is_guarded :
  (forall s, logs safe_division s (ExternalMonitor.print_stats s).2) /\
  (forall fuel interval s,
     logs safe_division s (ExternalMonitor.run_continuous fuel interval s).2) /\
  (forall py_int argv fuel s,
     logs safe_division s (SimplePinger.main py_int argv fuel s).2).
Proof.
  split; [|split].
  - exact external_print_stats_safe.
  - exact external_continuous_safe.
  - exact simple_main_safe.
Qed.

(** ** One death restarts both workers *)



Lemma tomb_leaf_tick {Obj} p (o o' : Obj) w :
  tomb p (mkSys o w) (mkSys o' (tick w)).
Proof. split; cbn; [reflexivity | auto]. Qed.






Lemma cons_app_eq {A} (x : A) l evs r :
  l = evs ++ r -> x :: l = (x :: evs) ++ r.
Proof. intros ->. reflexivity. Qed.

Ltac peel :=
  first [ exact (eq_refl : _ = [] ++ _) | eapply cons_app_eq; peel ].










(** ** Cooldown after a failed restart *)

Section Cooldown.
Variables failure launch : event -> bool.

Lemma quiet_for_app n a b :
  quiet_for launch n (a ++ b)
  <-> quiet_for launch n a /\ quiet_for launch (n - slept a) b.
Proof.
  revert n. induction a as [|e a IH]; intros n; simpl.
  - rewrite Z.sub_0_r. tauto.
  - rewrite IH. destruct e; simpl; rewrite ?Z.sub_add_distr; tauto.
Qed.

Lemma quiet_for_nonpos n tr :
  n <= 0 -> Forall sleep_ok tr -> quiet_for launch n tr.
Proof.
  intros Hn Hok. revert n Hn.
  induction Hok as [|e tr He Hok IH]; intros n Hn; simpl; [exact I|].
  split; [intros _; exact Hn|].
  apply IH. destruct e; simpl in He; lia.
Qed.

Lemma cooled_app n a b after :
  cooled failure launch n a (b ++ after) ->
  cooled failure launch n b after ->
  cooled failure launch n (a ++ b) after.
Proof.
  intros Ha Hb. induction a as [|e a IH]; simpl in *; [exact Hb|].
  destruct Ha as [He Ha]. split; [|apply IH, Ha].
  rewrite <- app_assoc. exact He.
Qed.

Lemma cooled_uneventful n tr after :
  Forall (fun e => failure e = false) tr ->
  cooled failure launch n tr after.
Proof.
  induction 1 as [|e tr He _ IH]; simpl; [exact I|].
  split; [rewrite He; discriminate | exact IH].
Qed.

Lemma cooled_respects n tr :
  cooled failure launch n tr [] -> respects_cooldown failure launch n tr.
Proof.
  intros Hc pre f mid l post -> Hf Hl.
  induction pre as [|e pre IH]; simpl in Hc.
  - destruct Hc as [Hq _]. specialize (Hq Hf). rewrite app_nil_r in Hq.
    apply quiet_for_app in Hq. destruct Hq as [_ Hq]. simpl in Hq.
    destruct Hq as [Hq _]. specialize (Hq Hl). lia.
  - apply IH. apply Hc.
Qed.
End Cooldown.

Lemma sleeps_ok_rev evs : Forall sleep_ok evs -> Forall sleep_ok (rev evs).
Proof. apply List.Forall_rev. Qed.

Lemma uneventful_sleeps evs : Forall uneventful evs -> Forall sleep_ok evs.
Proof.
  intros H. eapply Forall_impl; [exact H|]. intros e [_ He]. exact He.
Qed.

Lemma uneventful_cooled evs after :
  Forall uneventful evs ->
  cooled restart_failed is_launch 150 (rev evs) after.
Proof.
  intros H. apply cooled_uneventful. apply List.Forall_rev.
  eapply Forall_impl; [exact H|]. intros e [He _]. exact He.
Qed.

Section ShapeRules.
Context {Obj : Type}.

Lemma shaped_bind {A} (c : M (Sys Obj) A) (k : A -> M (Sys Obj) bool) :
  Moves (logs uneventful) c -> (forall a, Shaped (k a)) -> Shaped (bind c k).
Proof.
  intros Hc Hk s. destruct (Hc s) as (evs1 & Ht1 & Hu1). unfold bind.
  destruct (c s) as [[a|e] s1]; simpl in *.
  - destruct (Hk a s1) as (evs2 & Ht2 & Hshape).
    exists (evs2 ++ evs1). split; [rewrite Ht2, Ht1; apply app_assoc|].
    destruct ((k a s1).1) as [[|]|e].
    + apply Forall_app; split; assumption.
    + destruct Hshape as (evs' & -> & Hu2).
      exists (evs' ++ evs1). split; [reflexivity|].
      apply Forall_app; split; assumption.
    + apply Forall_app; split; assumption.
  - exists evs1. split; assumption.
Qed.

Lemma pending_of_moves {A} (c : M (Sys Obj) A) :
  Moves (logs uneventful) c -> Pending c.
Proof.
  intros Hc s. destruct (Hc s) as (evs & Ht & Hu).
  exists evs. split; [exact Ht | left; exact Hu].
Qed.

Lemma pending_bind {A B} (c : M (Sys Obj) A) (k : A -> M (Sys Obj) B) :
  Moves (logs uneventful) c -> (forall a, Pending (k a)) ->
  Pending (bind c k).
Proof.
  intros Hc Hk s. destruct (Hc s) as (evs1 & Ht1 & Hu1). unfold bind.
  destruct (c s) as [[a|e] s1]; simpl in *.
  - destruct (Hk a s1) as (evs2 & Ht2 & Hshape).
    exists (evs2 ++ evs1). split; [rewrite Ht2, Ht1; apply app_assoc|].
    destruct Hshape as [Hu2|(b & m & evs' & Hr & -> & Hm & Hu2)].
    + left. apply Forall_app; split; assumption.
    + right. exists b, m, (evs' ++ evs1). split; [exact Hr|].
      split; [reflexivity|]. split; [exact Hm|].
      apply Forall_app; split; assumption.
  - exists evs1. split; [exact Ht1 | left; exact Hu1].
Qed.

Lemma pending_restart (restart : M (Sys Obj) bool) (m : string) :
  restart_failed (Log m) = false -> Shaped restart ->
  Pending (bind restart (fun ok => when (negb ok) (log m ;; sleep 30))).
Proof.
  intros Hm Hr s. destruct (Hr s) as (evs & Ht & Hshape).
  destruct (restart s) as [[[|]|e] s1] eqn:Hrs; simpl in *.
  - exists evs. erewrite bind_ret; [|exact Hrs].
    split; [exact Ht | left; exact Hshape].
  - destruct Hshape as (evs' & -> & Hu).
    exists (Sleep 30 :: Log m
            :: Log "❌ Failed to restart one or both bots" :: evs').
    erewrite bind_ret; [|exact Hrs]. destruct s1 as [o w]. cbn in *.
    split; [rewrite Ht; reflexivity|].
    right. exists tt, m, evs'. repeat split; assumption.
  - exists evs. erewrite bind_raise; [|exact Hrs].
    split; [exact Ht | left; exact Hshape].
Qed.

Lemma cooled_poll {A} (c : M (Sys Obj) A) :
  Pending c -> Cooled (bind c (fun _ => sleep 120)).
Proof.
  intros Hc s. destruct (Hc s) as (evs & Ht & Hshape). unfold bind.
  destruct (c s) as [[a|e] s1]; simpl in *.
  - exists (Sleep 120 :: evs).
    split; [destruct s1 as [o w]; cbn in *; rewrite Ht; reflexivity|].
    destruct Hshape as [Hu|(b & m & evs' & _ & -> & Hm & Hu)].
    + split; [constructor; [simpl; lia | apply uneventful_sleeps, Hu]|].
      intros after _. apply uneventful_cooled.
      constructor; [split; [reflexivity | simpl; lia] | exact Hu].
    + split.
      { repeat (constructor; [simpl; try lia; exact I|]).
        apply uneventful_sleeps, Hu. }
      intros after Hafter.
      change (rev (Sleep 120 :: Sleep 30 :: Log m
                   :: Log "❌ Failed to restart one or both bots" :: evs'))
        with ((((rev evs' ++ [Log "❌ Failed to restart one or both bots"])
                  ++ [Log m]) ++ [Sleep 30]) ++ [Sleep 120]).
      rewrite <- !app_assoc. apply cooled_app.
      { apply uneventful_cooled, Hu. }
      simpl. rewrite Hm.
      repeat split; intros; try discriminate;
        apply quiet_for_nonpos; [lia | exact Hafter].
  - exists evs. destruct Hshape as [Hu|(b & m & evs' & Hr & _)];
      [|discriminate Hr].
    split; [exact Ht|]. split; [apply uneventful_sleeps, Hu|].
    intros after _. apply uneventful_cooled, Hu.
Qed.

Lemma cooled_of_moves {A} (c : M (Sys Obj) A) :
  Moves (logs uneventful) c -> Cooled c.
Proof.
  intros Hc s. destruct (Hc s) as (evs & Ht & Hu).
  exists evs. split; [exact Ht|]. split; [apply uneventful_sleeps, Hu|].
  intros after _. apply uneventful_cooled, Hu.
Qed.

Lemma cooled_bind {A B} (c : M (Sys Obj) A) (k : A -> M (Sys Obj) B) :
  Moves (logs uneventful) c -> (forall a, Cooled (k a)) -> Cooled (bind c k).
Proof.
  intros Hc Hk s. destruct (Hc s) as (evs1 & Ht1 & Hu1). unfold bind.
  destruct (c s) as [[a|e] s1]; simpl in *.
  - destruct (Hk a s1) as (evs2 & Ht2 & Hok2 & Hcool).
    exists (evs2 ++ evs1). split; [rewrite Ht2, Ht1; apply app_assoc|].
    split; [apply Forall_app; split; [exact Hok2 | apply uneventful_sleeps, Hu1]|].
    intros after Hafter. rewrite rev_app_distr. apply cooled_app.
    + apply uneventful_cooled, Hu1.
    + apply Hcool, Hafter.
  - exists evs1. split; [exact Ht1|]. split; [apply uneventful_sleeps, Hu1|].
    intros after _. apply uneventful_cooled, Hu1.
Qed.

Lemma cooled_try {A} (c : M (Sys Obj) A) h :
  Cooled c -> (forall e, Moves (logs uneventful) (h e)) ->
  Cooled (try_except c h).
Proof.
  intros Hc Hh s. destruct (Hc s) as (evs1 & Ht1 & Hok1 & Hcool).
  unfold try_except. destruct (c s) as [[a|e] s1]; simpl in *.
  - exists evs1. repeat split; assumption.
  - destruct (Hh e s1) as (evs2 & Ht2 & Hu2).
    exists (evs2 ++ evs1). split; [rewrite Ht2, Ht1; apply app_assoc|].
    split; [apply Forall_app; split; [apply uneventful_sleeps, Hu2 | exact Hok1]|].
    intros after Hafter. rewrite rev_app_distr. apply cooled_app.
    + apply Hcool. apply Forall_app. split; [|exact Hafter].
      apply sleeps_ok_rev, uneventful_sleeps, Hu2.
    + apply uneventful_cooled, Hu2.
Qed.
End ShapeRules.

Ltac uneventful_leaf :=
  logs_leaf ltac:(split; [reflexivity | first [exact I | simpl; lia]]).

Ltac shaped_end :=
  intros [o w];
  match goal with
  | |- context [if ?b then _ else _] => destruct b
  end;
  [ exists [Log "✅ Both bots restarted successfully"];
    split; [reflexivity | cbn; repeat constructor]
  | exists [Log "❌ Failed to restart one or both bots"];
    split; [reflexivity | cbn; exists []; split; [reflexivity | constructor]] ].

Lemma keepalive_restart_shaped : Shaped KeepAlive.restart_bots.
Proof.
  unfold KeepAlive.restart_bots.
  repeat (apply shaped_bind;
          [repeat (progress unfold_keepalive); moves_with uneventful_leaf
          | intros ?]).
  shaped_end.
Qed.

Lemma keepalive_pass_cooled : Cooled KeepAlive.monitor_once.
Proof.
  unfold KeepAlive.monitor_once.
  apply cooled_try;
    [|intros e; moves_with uneventful_leaf].
  apply cooled_bind;
    [repeat (progress unfold_keepalive); moves_with uneventful_leaf|].
  intros [ta sa]. apply cooled_poll.
  destruct (negb (is_true ta) || negb (is_true sa)).
  - do 3 (apply pending_bind; [moves_with uneventful_leaf | intros _]).
    apply pending_restart; [reflexivity | exact keepalive_restart_shaped].
  - apply pending_of_moves. moves_with uneventful_leaf.
Qed.

Lemma cloudrun_restart_shaped : Shaped CloudRun.restart_bots.
Proof.
  unfold CloudRun.restart_bots.
  repeat (apply shaped_bind;
          [repeat (progress unfold_cloudrun); moves_with uneventful_leaf
          | intros ?]).
  shaped_end.
Qed.

Lemma cloudrun_pass_cooled : Cooled CloudRun.monitor_once.
Proof.
  unfold CloudRun.monitor_once.
  apply cooled_try;
    [|intros e; moves_with uneventful_leaf].
  apply cooled_bind;
    [repeat (progress unfold_cloudrun); moves_with uneventful_leaf|].
  intros [ta sa]. apply cooled_poll.
  destruct (negb (is_true ta) || negb (is_true sa)).
  - do 3 (apply pending_bind; [moves_with uneventful_leaf | intros _]).
    apply pending_restart; [reflexivity | exact cloudrun_restart_shaped].
  - apply pending_of_moves. moves_with uneventful_leaf.
Qed.

Lemma keepalive_loop_cooled fuel : Cooled (KeepAlive.monitor_bots_loop fuel).
Proof.
  induction fuel as [|fuel IH]; cbn [KeepAlive.monitor_bots_loop].
  - apply cooled_of_moves. apply moves_ret. typeclasses eauto.
  - intros s. destruct (KeepAlive.running (self s)) eqn:Hrun.
    + destruct (keepalive_pass_cooled s) as (evs1 & Ht1 & Hok1 & Hc1).
      erewrite bind_ret; [|unfold gets; rewrite Hrun; reflexivity].
      destruct (KeepAlive.monitor_once s) as [[u|e] s1] eqn:Hm; simpl in *.
      * destruct (IH s1) as (evs2 & Ht2 & Hok2 & Hc2).
        erewrite bind_ret; [|exact Hm].
        exists (evs2 ++ evs1). split; [rewrite Ht2, Ht1; apply app_assoc|].
        split; [apply Forall_app; split; assumption|].
        intros after Hafter. rewrite rev_app_distr. apply cooled_app.
        -- apply Hc1. apply Forall_app. split; [|exact Hafter].
           apply sleeps_ok_rev, Hok2.
        -- apply Hc2, Hafter.
      * erewrite bind_raise; [|exact Hm].
        exists evs1. repeat split; assumption.
    + erewrite bind_ret; [|unfold gets; rewrite Hrun; reflexivity].
      exists []. repeat split; constructor.
Qed.

Lemma cloudrun_loop_cooled fuel : Cooled (CloudRun.monitor_loop fuel).
Proof.
  induction fuel as [|fuel IH]; cbn [CloudRun.monitor_loop].
  - apply cooled_of_moves. apply moves_ret. typeclasses eauto.
  - intros s.
    destruct (CloudRun.running (CloudRun.manager (self s))) eqn:Hrun.
    + destruct (cloudrun_pass_cooled s) as (evs1 & Ht1 & Hok1 & Hc1).
      erewrite bind_ret; [|unfold gets; rewrite Hrun; reflexivity].
      destruct (CloudRun.monitor_once s) as [[u|e] s1] eqn:Hm; simpl in *.
      * destruct (IH s1) as (evs2 & Ht2 & Hok2 & Hc2).
        erewrite bind_ret; [|exact Hm].
        exists (evs2 ++ evs1). split; [rewrite Ht2, Ht1; apply app_assoc|].
        split; [apply Forall_app; split; assumption|].
        intros after Hafter. rewrite rev_app_distr. apply cooled_app.
        -- apply Hc1. apply Forall_app. split; [|exact Hafter].
           apply sleeps_ok_rev, Hok2.
        -- apply Hc2, Hafter.
      * erewrite bind_raise; [|exact Hm].
        exists evs1. repeat split; assumption.
    + erewrite bind_ret; [|unfold gets; rewrite Hrun; reflexivity].
      exists []. repeat split; constructor.
Qed.

Lemma emitted_app {Obj} (s s' : Sys Obj) evs :
  trace (os s') = evs ++ trace (os s) -> emitted s s' = rev evs.
Proof.
  intros H. unfold emitted. rewrite H, length_app, Nat.add_sub.
  now rewrite take_app_length.
Qed.

Lemma cloudrun_monitor_cooled fuel : Cooled (CloudRun.monitor_bots fuel).
Proof.
  unfold CloudRun.monitor_bots.
  apply cooled_bind; [moves_with uneventful_leaf | intros _].
  apply cloudrun_loop_cooled.
Qed.

Lemma cooled_emitted {Obj A} (c : M (Sys Obj) A) s :
  Cooled c ->
  respects_cooldown restart_failed is_launch 150 (emitted s (c s).2).
Proof.
  intros Hc. destruct (Hc s) as (evs & Ht & _ & Hcool).
  rewrite (emitted_app _ _ _ Ht).
  apply cooled_respects, Hcool. constructor.
Qed.

(** C5 (as amended): in keep_bot_alive_24x7 and run_cloud_24_7, whatever
    the environment does and however long the supervisor loop runs, once
    restart_bots has reported that it failed the loop sleeps the 30 s
    cooldown and then the 120 s poll interval: among the events of the
    loop, every launch of a worker process that follows a reported failure
    is separated from it by at least 30 + 120 seconds of sleep. *)
Theorem failed_restart_cools_down (fuel : nat) :
  (forall s : KeepAlive.State,
      respects_cooldown restart_failed is_launch (30 + 120)
        (emitted s (KeepAlive.monitor_bots_loop fuel s).2)) /\
  (forall s : CloudRun.State,
      respects_cooldown restart_failed is_launch (30 + 120)
        (emitted s (CloudRun.monitor_bots fuel s).2)).
Proof.
  split; intros s.
  - apply (cooled_emitted (KeepAlive.monitor_bots_loop fuel)).
    apply keepalive_loop_cooled.
  - apply (cooled_emitted (CloudRun.monitor_bots fuel)).
    apply cloudrun_monitor_cooled.
Qed.

(** C5, run_bots_24x7_integrated: there is no cooldown.  Both worker
    threads have returned; the pass restarts the teacher, whose
    Thread.start() raises, reports the failure, and launches the student
    thread at once: no sleep separates the failure from the launch. *)
Lemma integrated_relaunch_without_cooldown :
  ~ respects_cooldown thread_restart_failed is_thread_launch 30
      (emitted integrated_both_down
         (Integrated.monitor_bots_loop 1 integrated_both_down).2).
Proof.
  intros H.
  specialize (H [Log "💀 Teacher Bot thread died!";
                 Log "🔄 Restarting Teacher Bot...";
                 ThreadStart "run_teacher"]
                (Log "❌ Failed to restart Teacher Bot: {e}")
                [Log "💀 Student Bot thread died!";
                 Log "🔄 Restarting Student Bot..."]
                (ThreadStart "run_student")
                [Sleep 3; Sleep 120]).
  assert (Hgap : 30 <= 0); [|lia].
  apply H; vm_compute; reflexivity.
Qed.

(** The cooldown is exercised: when every relaunched worker exits within
    its grace window, the loop of keep_bot_alive_24x7 reports the failed
    restart and launches again only after 30 + 120 seconds of cooldown and
    poll interval (and the 2 seconds kill_existing_bots waits). *)
Example keepalive_retry_after_cooldown :
  let tr := emitted keepalive_started
              (KeepAlive.monitor_bots_loop 3 keepalive_started).2 in
  exists pre mid post,
    tr = pre ++ Log "❌ Failed to restart one or both bots"
             :: mid ++ Popen "TelegramBot.py" :: post /\
    slept mid = 152.
Proof.
  cbv zeta.
  set (tr := emitted _ _).
  exists (take 18 tr), (take 12 (drop 19 tr)), (drop 32 tr).
  split; vm_compute; reflexivity.
Qed.

(** Inside one restart_bots the two launches are not separated: the
    student bot is launched directly after the launch of the teacher bot
    was found to have failed. *)
Example keepalive_restart_launches_both :
  let tr := emitted keepalive_started
              (KeepAlive.monitor_bots_loop 2 keepalive_started).2 in
  exists pre post,
    tr = pre ++ [Log "❌ Teacher Bot failed to start";
                 Log "👨‍🎓 Starting Student Bot...";
                 Popen "StudentBot.py"] ++ post.
Proof.
  cbv zeta.
  set (tr := emitted _ _).
  exists (take 13 tr), (drop 16 tr).
  vm_compute; reflexivity.
Qed.


(** * Further properties of the code *)

(** ** The external monitor: the URL and the counters *)

Lemma rstrip_slash_spec s :
  last_char (rstrip_slash s) <> Some (Ascii.ascii_of_nat 47) /\
  exists n, s = rstrip_slash s +:+ slashes n.
Proof.
  induction s as [|c rest [IHl [n IHn]]]; simpl.
  - split; [discriminate | exists O; reflexivity].
  - destruct (rstrip_slash rest) as [|a r] eqn:E.
    + destruct (Ascii.eqb_spec c (Ascii.ascii_of_nat 47)) as [->|Hc].
      * split; [discriminate|]. exists (S n). rewrite IHn at 1. reflexivity.
      * split; [simpl; congruence|]. exists n. rewrite IHn at 1. reflexivity.
    + split; [exact IHl|]. exists n. rewrite IHn at 1. reflexivity.
Qed.

(** X1: building the external monitor cannot fail.  The URL it keeps is
    the URL it was given without its trailing slashes: it does not end in
    a slash, and the given URL is the kept one followed by slashes only.
    Its three counters start at 0. *)
Theorem monitor_url_is_normalised url w :
  exists o w',
    ExternalMonitor.init url (mkSys tt w) = (Ret o, mkSys tt w') /\
    monitor_of url w = mkSys o w' /\
    last_char (ExternalMonitor.cloud_run_url o)
    <> Some (Ascii.ascii_of_nat 47) /\
    (exists n, url = ExternalMonitor.cloud_run_url o +:+ slashes n) /\
    ExternalMonitor.ping_count o = 0 /\ ExternalMonitor.success_count o = 0 /\
    ExternalMonitor.error_count o = 0.
Proof.
  destruct (rstrip_slash_spec url) as [H1 H2].
  do 2 eexists. split; [reflexivity|]. split; [reflexivity|].
  cbn. repeat split; assumption.
Qed.

Lemma external_ping_books s :
  exists s',
    ExternalMonitor.ping_service s
    = (Ret (ping_outcome (remote (env (os s)) (step (os s)))).1.1, s') /\
    ExternalMonitor.cloud_run_url (self s')
    = ExternalMonitor.cloud_run_url (self s) /\
    ExternalMonitor.ping_count (self s')
    = ExternalMonitor.ping_count (self s) + 1 /\
    ExternalMonitor.success_count (self s')
    = ExternalMonitor.success_count (self s)
      + (ping_outcome (remote (env (os s)) (step (os s)))).1.2 /\
    ExternalMonitor.error_count (self s')
    = ExternalMonitor.error_count (self s)
      + (ping_outcome (remote (env (os s)) (step (os s)))).2.
Proof.
  destruct s as [o w]. unfold ExternalMonitor.ping_service, ping_outcome.
  unfold_monad. cbn.
  destruct (remote (env w) (step w)) as [c [d|]|e]; cbn;
    try destruct (c =? 200); try destruct d; try destruct e; cbn;
    eexists; repeat split; cbn; lia.
Qed.

#[global] Instance tallies_preorder : PreOrder tallies.
Proof.
  split; unfold tallies.
  - intros s. repeat split; lia.
  - intros a b c (H1 & H2 & H3 & H4) (H5 & H6 & H7 & H8).
    split; [congruence | lia].
Qed.

Ltac tallies_leaf := unfold tallies; cbn; repeat split; lia.

Lemma external_ping_tallies : Moves tallies ExternalMonitor.ping_service.
Proof.
  intros s. destruct (external_ping_books s) as (s' & H & Hu & Hp & Hs & He).
  rewrite H. cbn. unfold tallies. rewrite Hu, Hp, Hs, He.
  unfold ping_outcome.
  destruct (remote (env (os s)) (step (os s))) as [c [d|]|e]; cbn;
    try destruct (c =? 200); try destruct d; cbn; repeat split; lia.
Qed.

Lemma external_check_tallies : Moves tallies ExternalMonitor.check_health.
Proof. unfold ExternalMonitor.check_health. moves_with tallies_leaf. Qed.

Lemma external_stats_tallies : Moves tallies ExternalMonitor.print_stats.
Proof. unfold ExternalMonitor.print_stats. moves_with tallies_leaf. Qed.

Ltac tallies_auto :=
  repeat (first [assumption | moves_step | moves_leaf tallies_leaf
                | progress unfold_runtime]).

Lemma external_once_tallies : Moves tallies ExternalMonitor.run_once.
Proof.
  pose proof external_ping_tallies. pose proof external_check_tallies.
  unfold ExternalMonitor.run_once. tallies_auto.
Qed.

Lemma external_continuous_tallies fuel interval :
  Moves tallies (ExternalMonitor.run_continuous fuel interval).
Proof.
  pose proof external_ping_tallies as Hp.
  pose proof external_check_tallies as Hh.
  pose proof external_stats_tallies as Hs.
  assert (Hloop : Moves tallies
                    (ExternalMonitor.continuous_loop fuel interval)).
  { induction fuel as [|fuel IH]; cbn [ExternalMonitor.continuous_loop].
    - apply moves_ret; typeclasses eauto.
    - apply moves_bind; [typeclasses eauto | | intros [|]];
        [| exact IH | apply moves_ret; typeclasses eauto].
      unfold ExternalMonitor.continuous_pass. tallies_auto. }
  unfold ExternalMonitor.run_continuous. tallies_auto.
Qed.

(** X2: how ping_service books an answer.  Every call adds 1 to
    ping_count and returns normally.  An answer 200 with a JSON object
    counts as a success and returns True; an answer 200 whose body is not
    a JSON object counts both as a success and as an error and returns
    False; any other status counts as neither; a failed request counts as
    an error. *)
Theorem ping_service_books_every_answer s :
  let r := remote (env (os s)) (step (os s)) in
  exists s',
    ExternalMonitor.ping_service s = (Ret (ping_outcome r).1.1, s') /\
    ExternalMonitor.ping_count (self s')
    = ExternalMonitor.ping_count (self s) + 1 /\
    ExternalMonitor.success_count (self s')
    = ExternalMonitor.success_count (self s) + (ping_outcome r).1.2 /\
    ExternalMonitor.error_count (self s')
    = ExternalMonitor.error_count (self s) + (ping_outcome r).2.
Proof.
  cbv zeta. destruct (external_ping_books s) as (s' & H & _ & Hp & Hs & He).
  exists s'. repeat split; assumption.
Qed.

(** X3: the counters of the external monitor stay consistent.  Across
    run_once and across run_continuous, however long it runs and however
    it ends, no counter goes down and neither success_count nor
    error_count grows by more than ping_count does; for the monitor main()
    builds, 0 <= success_count <= ping_count and 0 <= error_count <=
    ping_count at the end, so the success rate lies between 0 and 100. *)
Theorem monitor_counters_stay_consistent :
  (forall s, tallies s (ExternalMonitor.run_once s).2) /\
  (forall fuel interval s,
     tallies s (ExternalMonitor.run_continuous fuel interval s).2) /\
  (forall url w fuel interval,
     let o := self (ExternalMonitor.run_continuous fuel interval
                      (monitor_of url w)).2 in
     0 <= ExternalMonitor.success_count o <= ExternalMonitor.ping_count o /\
     0 <= ExternalMonitor.error_count o <= ExternalMonitor.ping_count o).
Proof.
  split; [exact external_once_tallies | split].
  - intros fuel interval. apply external_continuous_tallies.
  - intros url w fuel interval.
    pose proof (external_continuous_tallies fuel interval (monitor_of url w))
      as (_ & H1 & H2 & H3).
    cbn in H1, H2, H3 |- *. lia.
Qed.

(** ** The requests of the external pingers *)

Lemma requested_app a b : requested (a ++ b) = requested a ++ requested b.
Proof. unfold requested. apply omap_app. Qed.

Lemma advances_refl {Obj} (s : Sys Obj) : advances s s [].
Proof. split; [reflexivity|]. exists []. split; reflexivity. Qed.

Lemma advances_trans {Obj} (s s1 s2 : Sys Obj) u1 u2 :
  advances s s1 u1 -> advances s1 s2 u2 -> advances s s2 (u1 ++ u2).
Proof.
  intros [E1 (e1 & T1 & R1)] [E2 (e2 & T2 & R2)]. split; [congruence|].
  exists (e2 ++ e1). split.
  - rewrite T2, T1. apply app_assoc.
  - rewrite rev_app_distr, requested_app, R1, R2. reflexivity.
Qed.

Lemma advances_emitted {Obj} (s s' : Sys Obj) us :
  advances s s' us -> requested (emitted s s') = us.
Proof. intros [_ (evs & T & R)]. rewrite (emitted_app _ _ _ T). exact R. Qed.

Lemma log_run {Obj} m (s : Sys Obj) :
  exists s', log m s = (Ret tt, s') /\ self s' = self s /\ advances s s' [].
Proof.
  destruct s as [o w]. eexists. split; [reflexivity|].
  split; [reflexivity|]. split; [reflexivity|].
  exists [Log m]. split; reflexivity.
Qed.

Lemma now_run {Obj} (s : Sys Obj) :
  exists t s', now s = (Ret t, s') /\ self s' = self s /\ advances s s' [].
Proof.
  destruct s as [o w]. eexists _, _. split; [reflexivity|].
  split; [reflexivity|]. split; [reflexivity|].
  exists []. split; reflexivity.
Qed.

Lemma interrupted_run {Obj} (s : Sys Obj) :
  undisturbed (env (os s)) ->
  exists s', interrupted s = (Ret false, s') /\ self s' = self s /\
             advances s s' [].
Proof.
  intros H. destruct s as [o w]. unfold interrupted. unfold_monad. cbn in *.
  rewrite H. eexists. split; [reflexivity|]. split; [reflexivity|].
  split; [reflexivity|]. exists []. split; reflexivity.
Qed.

Lemma sleep_run {Obj} secs (s : Sys Obj) :
  0 <= secs ->
  exists s', sleep secs s = (Ret tt, s') /\ self s' = self s /\
             advances s s' [].
Proof.
  intros H. destruct s as [o w]. unfold sleep. unfold_monad. cbn.
  destruct (Z.ltb_spec secs 0) as [?|_]; [lia|]. cbn.
  eexists. split; [reflexivity|]. split; [reflexivity|].
  split; [reflexivity|]. exists [Sleep secs]. split; reflexivity.
Qed.

Lemma sleep_negative {Obj} secs (s : Sys Obj) :
  secs < 0 -> sleep secs s = (Raise ValueError, s).
Proof.
  intros H. destruct s as [o w]. unfold sleep. unfold_monad. cbn.
  destruct (Z.ltb_spec secs 0) as [_|?]; [reflexivity | lia].
Qed.

Lemma external_check_run s :
  exists b s',
    ExternalMonitor.check_health s = (Ret b, s') /\ self s' = self s /\
    advances s s' [ExternalMonitor.cloud_run_url (self s) +:+ "/health"].
Proof.
  destruct s as [o w]. unfold ExternalMonitor.check_health.
  unfold_monad. cbn.
  destruct (remote (env w) (step w)) as [c [d|]|e]; cbn;
    try destruct (c =? 200); try destruct d; cbn;
    eexists _, _; (split; [reflexivity|]); (split; [reflexivity|]);
    (split; [reflexivity|]); eexists; (split; [cbn; peel | reflexivity]).
Qed.

Lemma external_ping_run s :
  exists b s',
    ExternalMonitor.ping_service s = (Ret b, s') /\
    ExternalMonitor.cloud_run_url (self s')
    = ExternalMonitor.cloud_run_url (self s) /\
    ExternalMonitor.ping_count (self s')
    = ExternalMonitor.ping_count (self s) + 1 /\
    advances s s' [ExternalMonitor.cloud_run_url (self s) +:+ "/keep-alive"].
Proof.
  destruct s as [o w]. unfold ExternalMonitor.ping_service.
  unfold_monad. cbn.
  destruct (remote (env w) (step w)) as [c [d|]|e]; cbn;
    try destruct (c =? 200); try destruct d; try destruct e; cbn;
    eexists _, _; (split; [reflexivity|]); (split; [reflexivity|]);
    (split; [reflexivity|]);
    (split; [reflexivity|]); eexists; (split; [cbn; peel | reflexivity]).
Qed.

Lemma external_stats_run s :
  exists s',
    ExternalMonitor.print_stats s = (Ret tt, s') /\ self s' = self s /\
    advances s s' [].
Proof.
  destruct s as [o w]. unfold ExternalMonitor.print_stats.
  unfold_monad. cbn.
  destruct (Z.ltb_spec 0 (ExternalMonitor.ping_count o)) as [Hp|Hp]; cbn.
  - destruct (Z.eqb_spec (ExternalMonitor.ping_count o) 0) as [?|_]; [lia|].
    cbn. eexists. split; [reflexivity|]. split; [reflexivity|].
    split; [reflexivity|]. eexists. split; [cbn; peel | reflexivity].
  - eexists. split; [reflexivity|]. split; [reflexivity|].
    split; [reflexivity|]. eexists. split; [cbn; peel | reflexivity].
Qed.

Lemma undisturbed_advances {Obj} (s s' : Sys Obj) us :
  advances s s' us -> undisturbed (env (os s)) -> undisturbed (env (os s')).
Proof. intros [E _] H. rewrite E. exact H. Qed.

Lemma when_check_run (b : bool) s :
  exists s',
    when b (_ <- ExternalMonitor.check_health ;; ExternalMonitor.print_stats) s
    = (Ret tt, s') /\ self s' = self s /\
    advances s s'
      (if b then [ExternalMonitor.cloud_run_url (self s) +:+ "/health"]
       else []).
Proof.
  destruct b; cbn.
  - destruct (external_check_run s) as (b & s1 & H1 & S1 & A1).
    destruct (external_stats_run s1) as (s2 & H2 & S2 & A2).
    exists s2. split; [erewrite bind_ret; [exact H2 | exact H1]|].
    split; [congruence|]. apply (advances_trans _ _ _ _ _ A1 A2).
  - exists s. split; [reflexivity|]. split; [reflexivity|].
    apply advances_refl.
Qed.

Lemma external_pass_run interval s :
  undisturbed (env (os s)) ->
  exists s',
    ExternalMonitor.continuous_pass interval s
    = ((if interval * 60 <? 0 then Raise ValueError
        else Ret ExternalMonitor.Continue), s') /\
    ExternalMonitor.cloud_run_url (self s')
    = ExternalMonitor.cloud_run_url (self s) /\
    ExternalMonitor.ping_count (self s')
    = ExternalMonitor.ping_count (self s) + 1 /\
    advances s s'
      (pass_requests (ExternalMonitor.cloud_run_url (self s))
         (ExternalMonitor.ping_count (self s) + 1)).
Proof.
  intros U0. unfold ExternalMonitor.continuous_pass.
  destruct (interrupted_run s U0) as (s1 & H1 & S1 & A1).
  pose proof (undisturbed_advances _ _ _ A1 U0) as U1.
  destruct (external_ping_run s1) as (b & s2 & H2 & Su2 & Sp2 & A2).
  pose proof (undisturbed_advances _ _ _ A2 U1) as U2.
  destruct (interrupted_run s2 U2) as (s3 & H3 & S3 & A3).
  pose proof (undisturbed_advances _ _ _ A3 U2) as U3.
  destruct (when_check_run
              (ExternalMonitor.ping_count (self s3) mod 6 =? 0) s3)
    as (s4 & H4 & S4 & A4).
  pose proof (undisturbed_advances _ _ _ A4 U3) as U4.
  destruct (log_run "💤 Waiting {interval_minutes} minutes until next ping..." s4)
    as (s5 & H5 & S5 & A5).
  pose proof (undisturbed_advances _ _ _ A5 U4) as U5.
  destruct (interrupted_run s5 U5) as (s6 & H6 & S6 & A6).
  assert (Hu : ExternalMonitor.cloud_run_url (self s6)
               = ExternalMonitor.cloud_run_url (self s))
    by (rewrite S6, S5, S4, S3, Su2, S1; reflexivity).
  assert (Hp : ExternalMonitor.ping_count (self s6)
               = ExternalMonitor.ping_count (self s) + 1)
    by (rewrite S6, S5, S4, S3, Sp2, S1; reflexivity).
  assert (A : advances s s6
                (pass_requests (ExternalMonitor.cloud_run_url (self s))
                   (ExternalMonitor.ping_count (self s) + 1))).
  { pose proof (advances_trans _ _ _ _ _ A1
                 (advances_trans _ _ _ _ _ A2
                    (advances_trans _ _ _ _ _ A3
                       (advances_trans _ _ _ _ _ A4
                          (advances_trans _ _ _ _ _ A5 A6))))) as A.
    rewrite S3, Sp2, Su2, S1 in A. cbn [app] in A.
    rewrite app_nil_r in A. exact A. }
  erewrite bind_ret; [|exact H1]. cbv iota.
  erewrite bind_ret; [|exact H2].
  erewrite bind_ret; [|exact H3]. cbv iota.
  erewrite bind_ret; [|reflexivity].
  erewrite bind_ret; [|exact H4].
  erewrite bind_ret; [|exact H5].
  erewrite bind_ret; [|exact H6]. cbv iota.
  destruct (Z.ltb_spec (interval * 60) 0) as [Hneg|Hpos].
  - exists s6. split; [|split; [exact Hu | split; [exact Hp | exact A]]].
    erewrite bind_raise; [reflexivity | apply sleep_negative, Hneg].
  - destruct (sleep_run (interval * 60) s6 Hpos) as (s7 & H7 & S7 & A7).
    exists s7. split; [erewrite bind_ret; [reflexivity | exact H7]|].
    split; [rewrite S7; exact Hu|]. split; [rewrite S7; exact Hp|].
    pose proof (advances_trans _ _ _ _ _ A A7) as A'.
    rewrite app_nil_r in A'. exact A'.
Qed.


Lemma external_once_run s :
  exists b s',
    ExternalMonitor.run_once s = (Ret b, s') /\
    ExternalMonitor.ping_count (self s')
    = ExternalMonitor.ping_count (self s) + 1 /\
    advances s s'
      [ExternalMonitor.cloud_run_url (self s) +:+ "/health";
       ExternalMonitor.cloud_run_url (self s) +:+ "/keep-alive"].
Proof.
  unfold ExternalMonitor.run_once.
  destruct (log_run "🔄 Running single keep-alive check..." s)
    as (s1 & H1 & S1 & A1).
  destruct (external_check_run s1) as (hb & s2 & H2 & S2 & A2).
  destruct (external_ping_run s2) as (pb & s3 & H3 & Su3 & Sp3 & A3).
  destruct (log_run (if hb && pb then "✅ Service is healthy and responsive"
                     else "❌ Service has issues") s3)
    as (s4 & H4 & S4 & A4).
  exists (hb && pb), s4. split; [|split].
  - erewrite bind_ret; [|exact H1].
    erewrite bind_ret; [|exact H2].
    erewrite bind_ret; [|exact H3].
    destruct (hb && pb); (erewrite bind_ret; [|exact H4]); reflexivity.
  - rewrite S4, Sp3, S2, S1. reflexivity.
  - pose proof (advances_trans _ _ _ _ _ A1
                  (advances_trans _ _ _ _ _ A2
                     (advances_trans _ _ _ _ _ A3 A4))) as A.
    rewrite S2, S1 in A. exact A.
Qed.

(** X4: run_once always sends both requests, whatever the answers: first
    /health, then /keep-alive, both below the URL the monitor keeps, and
    it counts exactly one ping. *)
Theorem run_once_sends_both_requests s :
  exists b s',
    ExternalMonitor.run_once s = (Ret b, s') /\
    ExternalMonitor.ping_count (self s')
    = ExternalMonitor.ping_count (self s) + 1 /\
    requested (emitted s s')
    = [ExternalMonitor.cloud_run_url (self s) +:+ "/health";
       ExternalMonitor.cloud_run_url (self s) +:+ "/keep-alive"].
Proof.
  destruct (external_once_run s) as (b & s' & H & Hp & A).
  exists b, s'. split; [exact H|]. split; [exact Hp|].
  apply advances_emitted, A.
Qed.



Lemma external_negative_run fuel interval s :
  undisturbed (env (os s)) -> interval < 0 ->
  exists s',
    ExternalMonitor.run_continuous (S fuel) interval s
    = (Ret (Some tt), s') /\
    ExternalMonitor.ping_count (self s')
    = ExternalMonitor.ping_count (self s) + 1 /\
    advances s s'
      (pass_requests (ExternalMonitor.cloud_run_url (self s))
         (ExternalMonitor.ping_count (self s) + 1)).
Proof.
  intros U Hneg. unfold ExternalMonitor.run_continuous.
  destruct (log_run "🚀 Starting continuous monitoring (every {interval_minutes} minutes)" s)
    as (s1 & H1 & S1 & A1).
  destruct (log_run "🎯 Target: {self.cloud_run_url}" s1)
    as (s2 & H2 & S2 & A2).
  destruct (log_run "🛑 Press Ctrl+C to stop" s2) as (s3 & H3 & S3 & A3).
  destruct (log_run "====" s3) as (s4 & H4 & S4 & A4).
  pose proof (advances_trans _ _ _ _ _ A1
                (advances_trans _ _ _ _ _ A2
                   (advances_trans _ _ _ _ _ A3 A4))) as A04.
  destruct (external_pass_run interval s4 (undisturbed_advances _ _ _ A04 U))
    as (s5 & H5 & Su5 & Sp5 & A5).
  destruct (Z.ltb_spec (interval * 60) 0) as [_|?]; [|lia].
  destruct (log_run "💥 Fatal error: {e}" s5) as (s6 & H6 & S6 & A6).
  destruct (external_stats_run s6) as (s7 & H7 & S7 & A7).
  exists s7. split; [|split].
  - erewrite bind_ret; [|exact H1].
    erewrite bind_ret; [|exact H2].
    erewrite bind_ret; [|exact H3].
    erewrite bind_ret; [|exact H4].
    erewrite try_raise.
    + erewrite bind_ret; [|exact H6].
      erewrite bind_ret; [|exact H7]. reflexivity.
    + apply bind_raise. cbn [ExternalMonitor.continuous_loop].
      apply bind_raise. exact H5.
  - rewrite S7, S6, Sp5, S4, S3, S2, S1. reflexivity.
  - pose proof (advances_trans _ _ _ _ _ A04
                  (advances_trans _ _ _ _ _ A5
                     (advances_trans _ _ _ _ _ A6 A7))) as A.
    rewrite S4, S3, S2, S1 in A. cbn [app] in A.
    rewrite !app_nil_r in A. exact A.
Qed.

Lemma simple_check_run url (s : SimplePinger.State) :
  exists v s',
    SimplePinger.check_health url s = (Ret v, s') /\
    advances s s' [url +:+ "/health"].
Proof.
  destruct s as [o w]. unfold SimplePinger.check_health.
  unfold_monad. cbn.
  destruct (remote (env w) (step w)) as [c [d|]|e]; cbn;
    try destruct (c =? 200); try destruct d; cbn;
    eexists _, _; (split; [reflexivity|]);
    (split; [reflexivity|]); eexists; (split; [cbn; peel | reflexivity]).
Qed.

Lemma simple_ping_run url (s : SimplePinger.State) :
  exists b s',
    SimplePinger.ping_bot url s = (Ret b, s') /\
    advances s s' [url +:+ "/keep-alive"].
Proof.
  destruct s as [o w]. unfold SimplePinger.ping_bot.
  unfold_monad. cbn.
  destruct (remote (env w) (step w)) as [c [d|]|e]; cbn;
    try destruct (c =? 200); try destruct d; try destruct e; cbn;
    eexists _, _; (split; [reflexivity|]);
    (split; [reflexivity|]); eexists; (split; [cbn; peel | reflexivity]).
Qed.

Lemma percent_run {Obj} num den (s : Sys Obj) :
  den <> 0 ->
  exists s', percent num den s = (Ret (PFrac (num * 100) den), s') /\
             advances s s' [].
Proof.
  intros H. destruct s as [o w]. unfold percent. unfold_monad. cbn.
  destruct (Z.eqb_spec den 0) as [?|_]; [contradiction|].
  eexists. split; [reflexivity|]. split; [reflexivity|].
  exists [Divide num den]. split; reflexivity.
Qed.

Lemma simple_stats_run url (b : bool) num den (s : SimplePinger.State) :
  den <> 0 ->
  exists s',
    when b
      (_ <- SimplePinger.check_health url ;;
       _ <- percent num den ;;
       log "📊 Success rate: {success_rate:.1f}% ({success_count}/{ping_count})" ;;
       log "--------------------------------------------------") s
    = (Ret tt, s') /\
    advances s s' (if b then [url +:+ "/health"] else []).
Proof.
  intros Hden. destruct b; cbn.
  - destruct (simple_check_run url s) as (v & s1 & H1 & A1).
    destruct (percent_run num den s1 Hden) as (s2 & H2 & A2).
    destruct (log_run "📊 Success rate: {success_rate:.1f}% ({success_count}/{ping_count})" s2)
      as (s3 & H3 & _ & A3).
    destruct (log_run "--------------------------------------------------" s3)
      as (s4 & H4 & _ & A4).
    exists s4. split.
    + erewrite bind_ret; [|exact H1].
      erewrite bind_ret; [|exact H2].
      erewrite bind_ret; [|exact H3]. exact H4.
    + apply (advances_trans _ _ _ _ _ A1
               (advances_trans _ _ _ _ _ A2
                  (advances_trans _ _ _ _ _ A3 A4))).
  - exists s. split; [reflexivity | apply advances_refl].
Qed.

Lemma simple_pass_run url interval c (s : SimplePinger.State) :
  undisturbed (env (os s)) -> 0 <= SimplePinger.ping_count c ->
  exists c' s',
    SimplePinger.continuous_pass url interval c s
    = ((if interval * 60 <? 0 then Raise ValueError
        else Ret (SimplePinger.Continue c')), s') /\
    SimplePinger.ping_count c' = SimplePinger.ping_count c + 1 /\
    SimplePinger.success_count c <= SimplePinger.success_count c'
      <= SimplePinger.success_count c + 1 /\
    advances s s' (pass_requests url (SimplePinger.ping_count c + 1)).
Proof.
  intros U0 Hc. unfold SimplePinger.continuous_pass.
  destruct (interrupted_run s U0) as (s1 & H1 & _ & A1).
  pose proof (undisturbed_advances _ _ _ A1 U0) as U1.
  destruct (log_run "🔢 Ping #{ping_count}" s1) as (s2 & H2 & _ & A2).
  pose proof (undisturbed_advances _ _ _ A2 U1) as U2.
  destruct (interrupted_run s2 U2) as (s3 & H3 & _ & A3).
  pose proof (undisturbed_advances _ _ _ A3 U2) as U3.
  destruct (simple_ping_run url s3) as (ok & s4 & H4 & A4).
  pose proof (undisturbed_advances _ _ _ A4 U3) as U4.
  set (c1 := {| SimplePinger.ping_count := SimplePinger.ping_count c + 1;
                SimplePinger.success_count := SimplePinger.success_count c |}).
  set (c2 := if ok
             then {| SimplePinger.ping_count := SimplePinger.ping_count c1;
                     SimplePinger.success_count :=
                       SimplePinger.success_count c1 + 1 |}
             else c1).
  assert (Hpc : SimplePinger.ping_count c2 = SimplePinger.ping_count c + 1)
    by (subst c2 c1; destruct ok; reflexivity).
  assert (Hsc : SimplePinger.success_count c
                <= SimplePinger.success_count c2
                <= SimplePinger.success_count c + 1)
    by (subst c2 c1; destruct ok; cbn; lia).
  destruct (simple_stats_run url (SimplePinger.ping_count c2 mod 6 =? 0)
              (SimplePinger.success_count c2) (SimplePinger.ping_count c2) s4)
    as (s5 & H5 & A5); [lia|].
  pose proof (undisturbed_advances _ _ _ A5 U4) as U5.
  destruct (log_run "💤 Waiting {interval} minutes..." s5)
    as (s6 & H6 & _ & A6).
  pose proof (undisturbed_advances _ _ _ A6 U5) as U6.
  destruct (interrupted_run s6 U6) as (s7 & H7 & _ & A7).
  assert (A : advances s s7
                (pass_requests url (SimplePinger.ping_count c + 1))).
  { pose proof (advances_trans _ _ _ _ _ A1
                 (advances_trans _ _ _ _ _ A2
                    (advances_trans _ _ _ _ _ A3
                       (advances_trans _ _ _ _ _ A4
                          (advances_trans _ _ _ _ _ A5
                             (advances_trans _ _ _ _ _ A6 A7)))))) as A.
    rewrite Hpc in A. cbn [app] in A. rewrite app_nil_r in A. exact A. }
  erewrite bind_ret; [|exact H1]. cbv iota zeta.
  erewrite bind_ret; [|exact H2].
  erewrite bind_ret; [|exact H3]. cbv iota.
  erewrite bind_ret; [|exact H4]. fold c1. fold c2.
  erewrite bind_ret; [|exact H5].
  erewrite bind_ret; [|exact H6].
  erewrite bind_ret; [|exact H7]. cbv iota.
  destruct (Z.ltb_spec (interval * 60) 0) as [Hneg|Hpos].
  - exists c2, s7. split; [|split; [exact Hpc | split; [exact Hsc | exact A]]].
    erewrite bind_raise; [reflexivity | apply sleep_negative, Hneg].
  - destruct (sleep_run (interval * 60) s7 Hpos) as (s8 & H8 & _ & A8).
    exists c2, s8. split; [erewrite bind_ret; [reflexivity | exact H8]|].
    split; [exact Hpc|]. split; [exact Hsc|].
    pose proof (advances_trans _ _ _ _ _ A A8) as A'.
    rewrite app_nil_r in A'. exact A'.
Qed.


Lemma external_main_negative py_int prog url mode i rest fuel w n :
  String.eqb mode "once" = false -> py_int i = Some n -> n < 0 ->
  undisturbed (env w) ->
  (ExternalMonitor.main py_int (prog :: url :: mode :: i :: rest) (S fuel)
     (mkSys tt w)).1 = Ret (Some 0).
Proof.
  intros Hm Hi Hn U. unfold ExternalMonitor.main. rewrite Hi, Hm.
  cbn -[ExternalMonitor.run_continuous]. unfold bind.
  match goal with
  | |- context [ExternalMonitor.run_continuous _ _ ?st] =>
      destruct (external_negative_run fuel n st U Hn) as (s' & H & _)
  end.
  rewrite H. reflexivity.
Qed.

Lemma simple_main_negative py_int prog url i rest fuel w n :
  py_int i = Some n -> n < 0 -> undisturbed (env w) ->
  exists s',
    SimplePinger.main py_int (prog :: url :: i :: rest) (S fuel) (mkSys tt w)
    = (Ret (Some 1), s') /\
    advances (mkSys tt w) s' [rstrip_slash url +:+ "/keep-alive"].
Proof.
  intros Hi Hn U. unfold SimplePinger.main. rewrite Hi.
  destruct (Z.eqb_spec n 0) as [?|_]; [lia|].
  destruct (log_run "🚀 Starting External Bot Pinger" (mkSys tt w))
    as (s1 & H1 & _ & A1).
  destruct (log_run "🎯 Target: {bot_url}" s1) as (s2 & H2 & _ & A2).
  destruct (log_run "🔄 Will ping every {interval} minutes" s2)
    as (s3 & H3 & _ & A3).
  destruct (log_run "🛑 Press Ctrl+C to stop" s3) as (s4 & H4 & _ & A4).
  destruct (log_run "==================================================" s4)
    as (s5 & H5 & _ & A5).
  pose proof (advances_trans _ _ _ _ _ A1
                (advances_trans _ _ _ _ _ A2
                   (advances_trans _ _ _ _ _ A3
                      (advances_trans _ _ _ _ _ A4 A5)))) as A05.
  destruct (simple_pass_run (rstrip_slash url) n
              {| SimplePinger.ping_count := 0;
                 SimplePinger.success_count := 0 |} s5)
    as (c1 & s6 & H6 & _ & _ & A6);
    [exact (undisturbed_advances _ _ _ A05 U) | cbn; lia |].
  destruct (Z.ltb_spec (n * 60) 0) as [_|?]; [|lia].
  exists s6. split.
  - erewrite try_raise; [reflexivity|].
    erewrite bind_ret; [|exact H1].
    erewrite bind_ret; [|exact H2].
    erewrite bind_ret; [|exact H3].
    erewrite bind_ret; [|exact H4].
    erewrite bind_ret; [|exact H5].
    apply bind_raise. cbn [SimplePinger.continuous_loop].
    apply bind_raise. exact H6.
  - pose proof (advances_trans _ _ _ _ _ A05 A6) as A. exact A.
Qed.

(** X6: a negative interval.  time.sleep raises ValueError after the first
    ping.  run_continuous of the external monitor catches it, prints its
    statistics and returns, so main() ends with exit status 0; the simple
    pinger does not catch it, so its main() ends with exit status 1.  In
    both, exactly one pass was made. *)
Theorem negative_interval_stops_after_one_ping :
  (forall fuel interval s,
     undisturbed (env (os s)) -> interval < 0 ->
     exists s',
       ExternalMonitor.run_continuous (S fuel) interval s
       = (Ret (Some tt), s') /\
       ExternalMonitor.ping_count (self s')
       = ExternalMonitor.ping_count (self s) + 1 /\
       requested (emitted s s')
       = pass_requests (ExternalMonitor.cloud_run_url (self s))
           (ExternalMonitor.ping_count (self s) + 1)) /\
  (forall py_int prog url mode i rest fuel w n,
     String.eqb mode "once" = false -> py_int i = Some n -> n < 0 ->
     undisturbed (env w) ->
     (ExternalMonitor.main py_int (prog :: url :: mode :: i :: rest) (S fuel)
        (mkSys tt w)).1 = Ret (Some 0)) /\
  (forall py_int prog url i rest fuel w n,
     py_int i = Some n -> n < 0 -> undisturbed (env w) ->
     exists s',
       SimplePinger.main py_int (prog :: url :: i :: rest) (S fuel)
         (mkSys tt w) = (Ret (Some 1), s') /\
       requested (emitted (mkSys tt w) s')
       = [rstrip_slash url +:+ "/keep-alive"]).
Proof.
  split; [|split].
  - intros fuel interval s U Hn.
    destruct (external_negative_run fuel interval s U Hn) as (s' & H & Hp & A).
    exists s'. split; [exact H|]. split; [exact Hp|].
    apply advances_emitted, A.
  - exact external_main_negative.
  - intros py_int prog url i rest fuel w n Hi Hn U.
    destruct (simple_main_negative py_int prog url i rest fuel w n Hi Hn U)
      as (s' & H & A).
    exists s'. split; [exact H | apply advances_emitted, A].
Qed.

Lemma negative_interval_stops_after_one_ping_witness :
  undisturbed (env (boot quiet_env)) /\ -1 < 0 /\
  (ExternalMonitor.main (fun _ => Some (-1))
     ["external_keepalive_monitor.py"; "https://bot.example"; "continuous";
      "-1"] 1 (mkSys tt (boot quiet_env))).1 = Ret (Some 0) /\
  (exists s',
     SimplePinger.main (fun _ => Some (-1))
       ["simple_external_pinger.py"; "https://bot.example/"; "-1"] 1
       (mkSys tt (boot quiet_env)) = (Ret (Some 1), s') /\
     requested (emitted (mkSys tt (boot quiet_env)) s')
     = ["https://bot.example/keep-alive"]) /\
  exists s',
    ExternalMonitor.run_continuous 1 (-1)
      (monitor_of "https://bot.example/" (boot quiet_env))
    = (Ret (Some tt), s') /\
    ExternalMonitor.ping_count (self s') = 1.
Proof.
  assert (U : undisturbed (env (boot quiet_env))) by (intros k; reflexivity).
  assert (Hn : -1 < 0) by lia.
  destruct negative_interval_stops_after_one_ping as (H1 & H2 & H3).
  split; [exact U|]. split; [exact Hn|]. split; [|split].
  - exact (H2 (fun _ => Some (-1)) _ _ "continuous" "-1" [] O
              (boot quiet_env) (-1) eq_refl eq_refl Hn U).
  - exact (H3 (fun _ => Some (-1)) _ "https://bot.example/" "-1" [] O
              (boot quiet_env) (-1) eq_refl Hn U).
  - destruct (H1 O (-1) (monitor_of "https://bot.example/" (boot quiet_env))
                U Hn) as (s' & E & Hp & _).
    exists s'. split; [exact E | exact Hp].
Defined.





(** ** Exceptions never leave the supervisors *)

Section ReturnsRules.
Context {St : Type}.

Lemma returns_ret {A} (a : A) : Returns (@ret St A a).
Proof. intros s. eexists. reflexivity. Qed.

Lemma returns_gets {A} (f : St -> A) : Returns (gets f).
Proof. intros s. eexists. reflexivity. Qed.

Lemma returns_modify (f : St -> St) : Returns (modify f).
Proof. intros s. eexists. reflexivity. Qed.

Lemma returns_bind {A B} (c : M St A) (k : A -> M St B) :
  Returns c -> (forall a, Returns (k a)) -> Returns (bind c k).
Proof.
  intros Hc Hk s. unfold bind. destruct (Hc s) as [a Ha].
  destruct (c s) as [[x|e] s1]; simpl in Ha; [|discriminate Ha].
  apply Hk.
Qed.

Lemma returns_try {A} (c : M St A) h :
  (forall e, Returns (h e)) -> Returns (try_except c h).
Proof.
  intros Hh s. unfold try_except. destruct (c s) as [[x|e] s1].
  - eexists. reflexivity.
  - apply Hh.
Qed.

Lemma returns_when (b : bool) (c : M St unit) : Returns c -> Returns (when b c).
Proof. destruct b; simpl; [trivial | intros _; apply returns_ret]. Qed.

Lemma returns_chain {A} (f : A -> M St unit) (l : list A) :
  (forall a, Returns (f a)) ->
  Returns (foldr (fun a k => bind (f a) (fun _ => k)) (ret tt) l).
Proof.
  intros Hf. induction l as [|a l IH]; simpl.
  - apply returns_ret.
  - apply returns_bind; [apply Hf | intros _; exact IH].
Qed.
End ReturnsRules.

Lemma returns_zoom {S T A} (get : S -> T) (set : T -> S -> S)
    (c : M (Sys T) A) :
  Returns c -> Returns (zoom get set c).
Proof.
  intros Hc s. unfold zoom. destruct (Hc (mkSys (get (self s)) (os s))) as [a Ha].
  destruct (c _) as [r t]. simpl in *. exists a. exact Ha.
Qed.

Ltac returns_step :=
  lazymatch goal with
  | |- Returns (bind _ _) => apply returns_bind; [| intros ?]
  | |- Returns (try_except _ _) => apply returns_try; intros ?
  | |- Returns (ret _) => apply returns_ret
  | |- Returns (gets _) => apply returns_gets
  | |- Returns (modify _) => apply returns_modify
  | |- Returns (when _ _) => apply returns_when
  | |- Returns (zoom _ _ _) => apply returns_zoom
  | |- Returns (foldr _ _ _) => apply returns_chain; intros ?
  | |- Returns (if ?b then ?x else ?y) =>
      first [ let v := eval vm_compute in b in
              lazymatch v with
              | true => change (Returns x)
              | false => change (Returns y)
              end
            | destruct b eqn:? ]
  | |- Returns (let _ := _ in _) => cbv zeta
  | |- Returns (match ?x with _ => _ end) => destruct x
  | |- Returns (let '(_, _) := ?x in _) => destruct x
  end.

Ltac returns_unfold :=
  unfold text, jsonify, view, not_found, terminate, sleep, log, now, emit,
    on_self, on_os.

Ltac returns_auto :=
  repeat (first [assumption | returns_step | progress returns_unfold]).















Lemma integrated_sleep_returns secs :
  0 <= secs -> Returns (Integrated.yield_sleep secs).
Proof.
  intros H. unfold Integrated.yield_sleep, Integrated.thread_body,
    Integrated.run_teacher, Integrated.run_student, sleep.
  destruct (Z.ltb_spec secs 0) as [?|_]; [lia|]. returns_auto.
Qed.








(** ** The self-ping *)

Lemma keepalive_self_ping_run s :
  exists s',
    KeepAlive.self_ping_once s = (Ret tt, s') /\
    KeepAlive.ping_count (self s')
    = KeepAlive.ping_count (self s)
      + (if reaches (env (os s)) (step (os s)) then 1 else 0) /\
    (reaches (env (os s)) (step (os s)) = false -> self s' = self s) /\
    KeepAlive.restart_count (self s') = KeepAlive.restart_count (self s) /\
    KeepAlive.teacher_process (self s') = KeepAlive.teacher_process (self s) /\
    KeepAlive.student_process (self s') = KeepAlive.student_process (self s) /\
    exists evs,
      trace (os s') = Sleep 300 :: evs ++ trace (os s) /\ slept (rev evs) = 0.
Proof.
  destruct s as [o w]. unfold KeepAlive.self_ping_once, reaches.
  unfold KeepAlive.serve; cbn [String.eqb Ascii.eqb Bool.eqb].
  unfold KeepAlive.keep_alive. unfold_monad. cbn.
  destruct (fault (env w) (step w)); cbn;
    eexists; (split; [reflexivity|]); cbn;
    (split; [lia|]); (split; [intros; first [reflexivity | discriminate]|]);
    (split; [reflexivity|]); (split; [reflexivity|]);
    (split; [reflexivity|]);
    eexists; (split; [f_equal; peel | reflexivity]).
Qed.

Lemma webserver_self_ping_run s :
  exists s',
    Webserver.self_ping_once s = (Ret tt, s') /\
    Webserver.keepalive_count (self s')
    = Webserver.keepalive_count (self s)
      + (if reaches (env (os s)) (step (os s)) then 1 else 0) /\
    (reaches (env (os s)) (step (os s)) = false -> self s' = self s).
Proof.
  destruct s as [o w]. unfold Webserver.self_ping_once, reaches.
  unfold Webserver.serve; cbn [String.eqb Ascii.eqb Bool.eqb].
  unfold Webserver.keep_alive_endpoint. unfold_monad. cbn.
  destruct (fault (env w) (step w)); cbn;
    eexists; (split; [reflexivity|]); cbn;
    (split; [lia|]); intros; first [reflexivity | discriminate].
Qed.

Lemma integrated_sleep_keeps_pings secs :
  Moves (keeps Integrated.ping_count) (Integrated.yield_sleep secs).
Proof. repeat (progress unfold_integrated). moves_with keeps_leaf. Qed.

Lemma integrated_self_ping_run s :
  exists s',
    Integrated.self_ping_once s = (Ret tt, s') /\
    Integrated.ping_count (self s')
    = Integrated.ping_count (self s)
      + (if reaches (env (os s)) (step (os s)) then 1 else 0).
Proof.
  unfold Integrated.self_ping_once.
  match goal with
  | |- context [bind ?a ?k] =>
      assert (Ha : exists s1,
                 a s = (Ret tt, s1) /\
                 Integrated.ping_count (self s1)
                 = Integrated.ping_count (self s)
                   + (if reaches (env (os s)) (step (os s)) then 1 else 0))
  end.
  { destruct s as [o w]. unfold reaches.
    unfold Integrated.serve; cbn [String.eqb Ascii.eqb Bool.eqb].
    unfold Integrated.keep_alive. unfold_monad. cbn.
    destruct (fault (env w) (step w)); cbn;
      eexists; (split; [reflexivity|]); cbn; lia. }
  destruct Ha as (s1 & H1 & Hp1).
  destruct (integrated_sleep_returns 300 ltac:(lia) s1) as [u Hu].
  pose proof (integrated_sleep_keeps_pings 300 s1) as Hk. unfold keeps in Hk.
  destruct (Integrated.yield_sleep 300 s1) as [r s2] eqn:E.
  cbn in Hu, Hk. subst r. destruct u.
  exists s2. split; [erewrite bind_ret; [|exact H1]; exact E|].
  rewrite Hk. exact Hp1.
Qed.

(** X9: one pass of the self-ping loop.  It returns normally in every
    case.  If the request reaches the server the ping counter goes up by
    exactly 1; if it does not, the failure is only logged and the object is
    as before.  keep_bot_alive_24x7 then sleeps 300 s, and never touches
    restart_count. *)
Theorem self_ping_counts_when_it_arrives :
  (forall s, exists s',
     KeepAlive.self_ping_once s = (Ret tt, s') /\
     KeepAlive.ping_count (self s')
     = KeepAlive.ping_count (self s)
       + (if reaches (env (os s)) (step (os s)) then 1 else 0) /\
     (reaches (env (os s)) (step (os s)) = false -> self s' = self s) /\
     KeepAlive.restart_count (self s') = KeepAlive.restart_count (self s) /\
     exists evs,
       trace (os s') = Sleep 300 :: evs ++ trace (os s) /\
       slept (rev evs) = 0) /\
  (forall s, exists s',
     Webserver.self_ping_once s = (Ret tt, s') /\
     Webserver.keepalive_count (self s')
     = Webserver.keepalive_count (self s)
       + (if reaches (env (os s)) (step (os s)) then 1 else 0) /\
     (reaches (env (os s)) (step (os s)) = false -> self s' = self s)) /\
  (forall s, exists s',
     Integrated.self_ping_once s = (Ret tt, s') /\
     Integrated.ping_count (self s')
     = Integrated.ping_count (self s)
       + (if reaches (env (os s)) (step (os s)) then 1 else 0)).
Proof.
  split; [|split].
  - intros s.
    destruct (keepalive_self_ping_run s)
      as (s' & H & Hp & Hs & Hr & _ & _ & Ht).
    exists s'. repeat split; assumption.
  - exact webserver_self_ping_run.
  - exact integrated_self_ping_run.
Qed.

(** ** Stopping *)









(** ** A pass that finds both workers up *)

Lemma keepalive_healthy_pass s :
  calm (env (os s)) ->
  worker_up (os s) (KeepAlive.teacher_process (self s)) = true ->
  worker_up (os s) (KeepAlive.student_process (self s)) = true ->
  exists s',
    KeepAlive.monitor_once s = (Ret tt, s') /\
    self s' = self s /\
    trace (os s')
    = Sleep 120 :: Log "✅ Both bots healthy (uptime: {uptime})"
      :: trace (os s).
Proof.
  intros Hcalm Ht Hs. destruct s as [[tp sp rn rc st lp pc pt] w].
  unfold calm in Hcalm. unfold worker_up in Ht, Hs. cbn in Hcalm, Ht, Hs.
  destruct tp as [p|]; [|discriminate Ht].
  destruct sp as [q|]; [|discriminate Hs].
  destruct (procs w !! p) as [[i1 f1 a1]|] eqn:E1; [|discriminate Ht].
  destruct (procs w !! q) as [[i2 f2 a2]|] eqn:E2; [|discriminate Hs].
  cbn in Ht, Hs. subst a1 a2.
  unfold KeepAlive.monitor_once, KeepAlive.check_bots_health,
    KeepAlive.alive_flag. unfold_monad. cbn.
  repeat (rewrite ?Hcalm, ?E1, ?E2; cbn).
  eexists. repeat split.
Qed.

Lemma cloudrun_healthy_pass s :
  calm (env (os s)) ->
  worker_up (os s) (CloudRun.teacher_process (CloudRun.manager (self s)))
  = true ->
  worker_up (os s) (CloudRun.student_process (CloudRun.manager (self s)))
  = true ->
  exists s',
    CloudRun.monitor_once s = (Ret tt, s') /\
    self s' = self s /\
    trace (os s')
    = Sleep 120 :: Log "✅ Both bots healthy (uptime: {uptime})"
      :: trace (os s).
Proof.
  intros Hcalm Ht Hs. destruct s as [[[tp sp mt rn rc st] g] w].
  unfold calm in Hcalm. unfold worker_up in Ht, Hs. cbn in Hcalm, Ht, Hs.
  destruct tp as [p|]; [|discriminate Ht].
  destruct sp as [q|]; [|discriminate Hs].
  destruct (procs w !! p) as [[i1 f1 a1]|] eqn:E1; [|discriminate Ht].
  destruct (procs w !! q) as [[i2 f2 a2]|] eqn:E2; [|discriminate Hs].
  cbn in Ht, Hs. subst a1 a2.
  unfold CloudRun.monitor_once, CloudRun.check_bot_health,
    CloudRun.alive_flag. unfold_monad. cbn.
  repeat (rewrite ?Hcalm, ?E1, ?E2; cbn).
  eexists. repeat split.
Qed.

(** X11: healthy workers are left alone.  In the two process supervisors,
    when no library call fails and the poll finds both workers running, a
    pass of the monitor loop returns with the object unchanged, having
    only logged that both bots are healthy and slept the 120 s poll
    interval: nothing was killed, launched or counted. *)
Theorem healthy_workers_are_left_alone :
  (forall s,
     calm (env (os s)) ->
     worker_up (os s) (KeepAlive.teacher_process (self s)) = true ->
     worker_up (os s) (KeepAlive.student_process (self s)) = true ->
     exists s',
       KeepAlive.monitor_once s = (Ret tt, s') /\
       self s' = self s /\
       trace (os s')
       = Sleep 120 :: Log "✅ Both bots healthy (uptime: {uptime})"
         :: trace (os s)) /\
  (forall s,
     calm (env (os s)) ->
     worker_up (os s) (CloudRun.teacher_process (CloudRun.manager (self s)))
     = true ->
     worker_up (os s) (CloudRun.student_process (CloudRun.manager (self s)))
     = true ->
     exists s',
       CloudRun.monitor_once s = (Ret tt, s') /\
       self s' = self s /\
       trace (os s')
       = Sleep 120 :: Log "✅ Both bots healthy (uptime: {uptime})"
         :: trace (os s)).
Proof. split; [exact keepalive_healthy_pass | exact cloudrun_healthy_pass]. Qed.

Lemma healthy_workers_are_left_alone_witness :
  calm (env (os keepalive_running)) /\
  worker_up (os keepalive_running)
    (KeepAlive.teacher_process (self keepalive_running)) = true /\
  worker_up (os keepalive_running)
    (KeepAlive.student_process (self keepalive_running)) = true /\
  (exists s',
     KeepAlive.monitor_once keepalive_running = (Ret tt, s') /\
     KeepAlive.restart_count (self s') = 0) /\
  calm (env (os cloudrun_started)) /\
  exists s',
    CloudRun.monitor_once cloudrun_started = (Ret tt, s') /\
    manager_restarts (self s') = 0.
Proof.
  assert (C1 : calm (env (os keepalive_running))) by (intros k; reflexivity).
  assert (C2 : calm (env (os cloudrun_started))) by (intros k; reflexivity).
  assert (T1 : worker_up (os keepalive_running)
                 (KeepAlive.teacher_process (self keepalive_running)) = true)
    by (vm_compute; reflexivity).
  assert (S1 : worker_up (os keepalive_running)
                 (KeepAlive.student_process (self keepalive_running)) = true)
    by (vm_compute; reflexivity).
  split; [exact C1|]. split; [exact T1|]. split; [exact S1|].
  destruct healthy_workers_are_left_alone as [H1 H2].
  split; [|split; [exact C2|]].
  - destruct (H1 keepalive_running C1 T1 S1) as (s' & H & Hs & _).
    exists s'. split; [exact H|]. rewrite Hs. vm_compute. reflexivity.
  - destruct (H2 cloudrun_started C2) as (s' & H & Hs & _);
      [vm_compute; reflexivity | vm_compute; reflexivity |].
    exists s'. split; [exact H|]. rewrite Hs. vm_compute. reflexivity.
Defined.

(** ** Workers the integrated system has given up *)

Ltac quiet_leaf := logs_leaf ltac:(reflexivity).

#[global] Instance idles_preorder : PreOrder idles.
Proof.
  split; unfold idles.
  - intros s. repeat split; auto. reflexivity.
  - intros a b c (H1 & H2 & H3 & H4) (H5 & H6 & H7 & H8).
    repeat split; auto; [congruence | etransitivity; eassumption].
Qed.

Ltac idles_leaf :=
  unfold idles; cbn;
  repeat split; auto; first [reflexivity | quiet_leaf].

Lemma settled_body_idles th f :
  settled th -> Moves idles (Integrated.thread_body th f).
Proof.
  intros Hs. unfold Integrated.thread_body.
  destruct (String.eqb_spec (target th) "run_teacher") as [Et|Et];
    [|destruct (String.eqb_spec (target th) "run_student") as [Es|Es]].
  - unfold Integrated.run_teacher.
    destruct (th_phase th) eqn:Ph, f;
      try (destruct Hs as [Hs|[Hs _]]; congruence);
      moves_with idles_leaf.
  - unfold Integrated.run_student.
    destruct (th_phase th) eqn:Ph, f;
      try (destruct Hs as [Hs|[_ Hs]]; congruence);
      moves_with idles_leaf.
  - apply moves_ret. typeclasses eauto.
Qed.

Lemma moves_chain_forall {St A} (R : relation St) `{!PreOrder R}
    (P : A -> Prop) (f : A -> M St unit) (l : list A) :
  Forall P l -> (forall a, P a -> Moves R (f a)) ->
  Moves R (foldr (fun a k => bind (f a) (fun _ => k)) (ret tt) l).
Proof.
  intros Hl Hf. induction Hl as [|a l Ha Hl IH]; simpl.
  - apply moves_ret. assumption.
  - apply moves_bind; [assumption | apply Hf, Ha | intros _; exact IH].
Qed.

Lemma aged_is_settled fs i th : settled th -> settled (age_thread fs i th).
Proof.
  intros Hs. unfold age_thread.
  destruct (fate_of fs i) as [[| |]|], (th_phase th) eqn:Ph; cbn;
    try exact Hs; try (left; cbn; discriminate);
    destruct Hs as [Hs|Hs]; try congruence; right; exact Hs.
Qed.

Lemma integrated_sleep_idle secs s :
  0 <= secs -> given_up s ->
  exists s',
    Integrated.yield_sleep secs s = (Ret tt, s') /\ given_up s' /\
    logs no_thread_launch s s'.
Proof.
  intros Hsecs (Ht & Hs & Hth).
  destruct (integrated_sleep_returns secs Hsecs s) as [[] Hret].
  destruct (Integrated.yield_sleep secs s) as [r s'] eqn:E. cbn in Hret.
  subst r. exists s'. split; [reflexivity|].
  revert E. destruct s as [o w]. cbn in Ht, Hs, Hth.
  unfold Integrated.yield_sleep, sleep.
  destruct (Z.ltb_spec secs 0) as [?|_]; [lia|].
  unfold_monad. cbn.
  match goal with
  | |- context [foldr ?g ?z (map_to_list (threads w)) ?st] =>
      pose proof (moves_chain_forall idles (fun ith => settled ith.2)
                    (fun ith => match fate_of (fates (env w) (step w)) ith.1 with
                                | Some f => Integrated.thread_body ith.2 f
                                | None => ret tt
                                end)
                    (map_to_list (threads w))) as Hchain;
      set (st0 := st)
  end.
  intros E.
  assert (Hall : Forall (fun ith : pid * thread => settled ith.2)
                   (map_to_list (threads w))).
  { apply Forall_forall. intros [i th] Hin.
    apply elem_of_map_to_list in Hin. exact (Hth i th Hin). }
  specialize (Hchain Hall).
  assert (Hbody : forall a : pid * thread,
             settled a.2 ->
             Moves idles
               match fate_of (fates (env w) (step w)) a.1 with
               | Some f => Integrated.thread_body a.2 f
               | None => ret tt
               end).
  { intros a Ha. destruct (fate_of _ _).
    - apply settled_body_idles, Ha.
    - apply moves_ret. typeclasses eauto. }
  specialize (Hchain Hbody st0).
  unfold bind, ret in Hchain. unfold bind, ret in E. rewrite E in Hchain.
  destruct Hchain as (I1 & I2 & I3 & (evs & T & F)). cbn in I1, I2, I3, T.
  split; [split; [auto | split; [auto|]]|].
  - rewrite I3. intros i th Hi. rewrite map_lookup_imap in Hi.
    destruct (threads w !! i) as [th0|] eqn:E0; [|discriminate Hi].
    cbn in Hi. injection Hi as <-. apply aged_is_settled, (Hth i th0 E0).
  - exists (evs ++ [Sleep secs]). split.
    + rewrite T. rewrite <- app_assoc. reflexivity.
    + apply Forall_app. split; [exact F|]. repeat constructor.
Qed.

Lemma integrated_alive_flag_read h s :
  exists r s1,
    Integrated.alive_flag h s = (r, s1) /\ self s1 = self s /\
    trace (os s1) = trace (os s) /\ threads (os s1) = threads (os s).
Proof.
  destruct s as [o w]. destruct h as [t|]; unfold Integrated.alive_flag.
  - unfold_monad. cbn. destruct (fault (env w) (step w)); cbn;
      eexists _, _; repeat split.
  - eexists _, _. repeat split.
Qed.

Lemma given_up_read (s s1 : Integrated.State) :
  self s1 = self s -> threads (os s1) = threads (os s) ->
  given_up s -> given_up s1.
Proof. intros E1 E2 (H1 & H2 & H3). unfold given_up. rewrite E1, E2. auto. Qed.

Lemma logs_from {Obj} P (s s1 s2 : Sys Obj) :
  trace (os s1) = trace (os s) -> logs P s1 s2 -> logs P s s2.
Proof. intros E (evs & T & F). exists evs. rewrite T, E. split; auto. Qed.

Lemma integrated_handler_idle (s : Integrated.State) :
  given_up s ->
  exists s',
    (log "❌ Monitor error: {e}" ;; Integrated.yield_sleep 60) s = (Ret tt, s')
    /\ given_up s' /\ logs no_thread_launch s s'.
Proof.
  intros G. destruct s as [o w].
  set (s1 := mkSys o (record (Log "❌ Monitor error: {e}") (tick w))).
  assert (G1 : given_up s1) by exact G.
  destruct (integrated_sleep_idle 60 s1 ltac:(lia) G1) as (s' & H & G' & L).
  exists s'. split; [|split; [exact G'|]].
  - erewrite bind_ret; [exact H | reflexivity].
  - destruct L as (evs & T & F).
    exists (evs ++ [Log "❌ Monitor error: {e}"]). split.
    + rewrite T. rewrite <- app_assoc. reflexivity.
    + apply Forall_app. split; [exact F | repeat constructor].
Qed.

Lemma integrated_pass_idle s :
  given_up s ->
  exists s',
    Integrated.monitor_once s = (Ret tt, s') /\ given_up s' /\
    Integrated.running (self s') = Integrated.running (self s) /\
    logs no_thread_launch s s'.
Proof.
  intros G. pose proof G as (Htr & Hsr & _).
  assert (Hrun : Moves (keeps Integrated.running) Integrated.monitor_once)
    by (repeat (progress unfold_integrated); moves_with keeps_leaf).
  specialize (Hrun s). unfold keeps in Hrun.
  cut (exists s', Integrated.monitor_once s = (Ret tt, s') /\ given_up s' /\
                  logs no_thread_launch s s').
  { intros (s' & H & G' & L). exists s'. rewrite H in Hrun. auto. }
  clear Hrun.
  unfold Integrated.monitor_once, try_except.
  match goal with |- context [match ?b s with _ => _ end] => set (body := b) end.
  destruct (integrated_alive_flag_read (Integrated.teacher_thread (self s)) s)
    as (r1 & s1 & H1 & S1 & T1 & Th1).
  pose proof (given_up_read s s1 S1 Th1 G) as G1.
  destruct r1 as [ta|e1].
  2:{ assert (Hb : body s = (Raise e1, s1)).
      { subst body. erewrite bind_ret; [|reflexivity].
        apply bind_raise. exact H1. }
      rewrite Hb. destruct (integrated_handler_idle s1 G1) as (s' & H & G' & L).
      exists s'. split; [exact H|]. split; [exact G'|].
      apply (logs_from _ s s1 s' T1 L). }
  destruct (integrated_alive_flag_read (Integrated.student_thread (self s1)) s1)
    as (r2 & s2 & H2 & S2 & T2 & Th2).
  pose proof (given_up_read s1 s2 S2 Th2 G1) as G2.
  assert (T02 : trace (os s2) = trace (os s)) by congruence.
  destruct r2 as [sa|e2].
  2:{ assert (Hb : body s = (Raise e2, s2)).
      { subst body. erewrite bind_ret; [|reflexivity].
        erewrite bind_ret; [|exact H1].
        erewrite bind_ret; [|reflexivity].
        apply bind_raise. exact H2. }
      rewrite Hb. destruct (integrated_handler_idle s2 G2) as (s' & H & G' & L).
      exists s'. split; [exact H|]. split; [exact G'|].
      apply (logs_from _ s s2 s' T02 L). }
  assert (Hb : body s = (Integrated.yield_sleep 120) s2).
  { subst body. erewrite bind_ret; [|reflexivity].
    erewrite bind_ret; [|exact H1].
    erewrite bind_ret; [|reflexivity].
    erewrite bind_ret; [|exact H2].
    erewrite bind_ret; [|reflexivity].
    rewrite S2, S1, Htr, andb_false_r.
    erewrite bind_ret; [|reflexivity].
    erewrite bind_ret; [|reflexivity].
    rewrite S2, S1, Hsr, andb_false_r.
    erewrite bind_ret; [|reflexivity].
    erewrite bind_ret; [|reflexivity].
    erewrite bind_ret; [|reflexivity].
    rewrite S2, S1, Htr.
    erewrite bind_ret; [|reflexivity]. reflexivity. }
  rewrite Hb.
  destruct (integrated_sleep_idle 120 s2 ltac:(lia) G2) as (s' & H & G' & L).
  rewrite H. exists s'. split; [reflexivity|]. split; [exact G'|].
  apply (logs_from _ s s2 s' T02 L).
Qed.

Lemma integrated_loop_idle fuel s :
  given_up s ->
  given_up (Integrated.monitor_bots_loop fuel s).2 /\
  logs no_thread_launch s (Integrated.monitor_bots_loop fuel s).2.
Proof.
  revert s. induction fuel as [|fuel IH]; intros s G;
    cbn [Integrated.monitor_bots_loop].
  - split; [exact G | reflexivity].
  - erewrite bind_ret; [|reflexivity]. cbv beta.
    destruct (Integrated.running (self s)).
    + destruct (integrated_pass_idle s G) as (s1 & H1 & G1 & _ & L1).
      erewrite bind_ret; [|exact H1].
      destruct (IH s1 G1) as [G2 L2]. split; [exact G2|].
      etransitivity; eassumption.
    + split; [exact G | reflexivity].
Qed.

(** X12: the integrated system does not relaunch a worker whose running
    flag is down.  Once both flags are down and no worker thread is on its
    way to polling (both bots have failed, or stop() was called), the
    monitor loop, however long it runs, launches no worker thread and both
    flags stay down: /health keeps answering partial. *)
Theorem failed_workers_are_never_relaunched fuel s :
  given_up s ->
  let s' := (Integrated.monitor_bots_loop fuel s).2 in
  Forall no_thread_launch (emitted s s') /\
  Integrated.teacher_running (self s') = false /\
  Integrated.student_running (self s') = false.
Proof.
  intros G. destruct (integrated_loop_idle fuel s G) as [(Ht & Hs & _) L].
  cbv zeta. split; [|split; assumption].
  destruct L as (evs & T & F). rewrite (emitted_app _ _ _ T).
  apply Forall_rev. exact F.
Qed.

Lemma failed_workers_are_never_relaunched_witness :
  given_up integrated_both_failed /\
  Forall no_thread_launch
    (emitted integrated_both_failed
       (Integrated.monitor_bots_loop 5 integrated_both_failed).2) /\
  Integrated.teacher_running
    (self (Integrated.monitor_bots_loop 5 integrated_both_failed).2) = false.
Proof.
  assert (G : given_up integrated_both_failed).
  { split; [vm_compute; reflexivity|]. split; [vm_compute; reflexivity|].
    apply map_Forall_to_list.
    let l := eval vm_compute in
               (map_to_list (threads (os integrated_both_failed))) in
    assert (E : map_to_list (threads (os integrated_both_failed)) = l)
      by (vm_compute; reflexivity).
    rewrite E. clear E.
    repeat (constructor;
            [cbn; first [ left; cbn; discriminate
                        | right; cbn; split; discriminate ]|]).
    constructor. }
  split; [exact G|].
  destruct (failed_workers_are_never_relaunched 5 integrated_both_failed G)
    as (H1 & H2 & _).
  split; [exact H1 | exact H2].
Defined.

(** ** The emergency restart route *)



(** ** What a launch reports *)

Ltac launch_outcome H :=
  unfold_monad; cbn; repeat (rewrite H; cbn);
  rewrite map_lookup_imap, lookup_insert_eq; cbn;
  let E := fresh "E" in
  match goal with
  | |- context [alive (age_process ?fs ?i ?p)] =>
      destruct (alive (age_process fs i p)) eqn:E
  end;
  cbn; repeat (rewrite H; cbn);
  repeat match goal with
         | |- context [if ?b then _ else _] => destruct b; cbn
         end;
  eexists _, _; (split; [reflexivity|]); (split; [reflexivity|]);
  unfold worker_up; cbn; rewrite map_lookup_imap, lookup_insert_eq; cbn;
  exact E.

Lemma keepalive_launch_outcome s :
  calm (env (os s)) ->
  (exists b s',
     KeepAlive.start_teacher_bot s = (Ret b, s') /\
     KeepAlive.teacher_process (self s') = Some (next_id (os s)) /\
     worker_up (os s') (Some (next_id (os s))) = b) /\
  (exists b s',
     KeepAlive.start_student_bot s = (Ret b, s') /\
     KeepAlive.student_process (self s') = Some (next_id (os s)) /\
     worker_up (os s') (Some (next_id (os s))) = b).
Proof.
  intros Hcalm. destruct s as [o w]. unfold calm in Hcalm. cbn in Hcalm.
  unfold KeepAlive.start_teacher_bot, KeepAlive.start_student_bot,
    KeepAlive.start_output_monitor.
  split; launch_outcome Hcalm.
Qed.

Lemma cloudrun_launch_outcome s :
  calm (env (os s)) ->
  (exists b s',
     CloudRun.start_teacher_bot s = (Ret b, s') /\
     CloudRun.teacher_process (CloudRun.manager (self s'))
     = Some (next_id (os s)) /\
     worker_up (os s') (Some (next_id (os s))) = b) /\
  (exists b s',
     CloudRun.start_student_bot s = (Ret b, s') /\
     CloudRun.student_process (CloudRun.manager (self s'))
     = Some (next_id (os s)) /\
     worker_up (os s') (Some (next_id (os s))) = b).
Proof.
  intros Hcalm. destruct s as [o w]. unfold calm in Hcalm. cbn in Hcalm.
  unfold CloudRun.start_teacher_bot, CloudRun.start_student_bot,
    CloudRun.on_manager.
  split; launch_outcome Hcalm.
Qed.

Lemma keepalive_launch_refused s e :
  fault (env (os s)) (S (step (os s))) = Some e ->
  (exists s',
     KeepAlive.start_teacher_bot s = (Ret false, s') /\
     self s' = self s /\ procs (os s') = procs (os s) /\
     trace (os s')
     = Log "❌ Error starting Teacher Bot: {e}" :: Popen "TelegramBot.py"
       :: Log "🎓 Starting Teacher Bot..." :: trace (os s)) /\
  (exists s',
     KeepAlive.start_student_bot s = (Ret false, s') /\
     self s' = self s /\ procs (os s') = procs (os s) /\
     trace (os s')
     = Log "❌ Error starting Student Bot: {e}" :: Popen "StudentBot.py"
       :: Log "👨‍🎓 Starting Student Bot..." :: trace (os s)).
Proof.
  intros H. destruct s as [o w]. cbn in H.
  unfold KeepAlive.start_teacher_bot, KeepAlive.start_student_bot.
  unfold_monad. cbn. rewrite H. cbn.
  split; eexists; repeat split.
Qed.

Lemma cloudrun_launch_refused s e :
  fault (env (os s)) (S (step (os s))) = Some e ->
  (exists s',
     CloudRun.start_teacher_bot s = (Ret false, s') /\
     self s' = self s /\ procs (os s') = procs (os s) /\
     trace (os s')
     = Log "❌ Error starting Teacher Bot: {e}" :: Popen "TelegramBot.py"
       :: Log "🎓 Starting Teacher Bot..." :: trace (os s)) /\
  (exists s',
     CloudRun.start_student_bot s = (Ret false, s') /\
     self s' = self s /\ procs (os s') = procs (os s) /\
     trace (os s')
     = Log "❌ Error starting Student Bot: {e}" :: Popen "StudentBot.py"
       :: Log "👨‍🎓 Starting Student Bot..." :: trace (os s)).
Proof.
  intros H. destruct s as [o w]. cbn in H.
  unfold CloudRun.start_teacher_bot, CloudRun.start_student_bot.
  unfold_monad. cbn. rewrite H. cbn.
  split; eexists; repeat split.
Qed.

(** X14: the outcome of a launch, in the two process supervisors.  When
    no library call fails, start_teacher_bot and start_student_bot return
    whether the process they launched is still running after the grace
    period, and in both cases the handle is the newly launched process, so
    a launch that failed is seen as a worker that is down.  When Popen
    itself raises, they return False, the object and the process table are
    as before, and the error is logged. *)
Theorem launch_reports_what_became_of_the_process :
  (forall s, calm (env (os s)) ->
     (exists b s',
        KeepAlive.start_teacher_bot s = (Ret b, s') /\
        KeepAlive.teacher_process (self s') = Some (next_id (os s)) /\
        worker_up (os s') (Some (next_id (os s))) = b) /\
     (exists b s',
        KeepAlive.start_student_bot s = (Ret b, s') /\
        KeepAlive.student_process (self s') = Some (next_id (os s)) /\
        worker_up (os s') (Some (next_id (os s))) = b)) /\
  (forall s, calm (env (os s)) ->
     (exists b s',
        CloudRun.start_teacher_bot s = (Ret b, s') /\
        CloudRun.teacher_process (CloudRun.manager (self s'))
        = Some (next_id (os s)) /\
        worker_up (os s') (Some (next_id (os s))) = b) /\
     (exists b s',
        CloudRun.start_student_bot s = (Ret b, s') /\
        CloudRun.student_process (CloudRun.manager (self s'))
        = Some (next_id (os s)) /\
        worker_up (os s') (Some (next_id (os s))) = b)) /\
  (forall s e, fault (env (os s)) (S (step (os s))) = Some e ->
     (exists s',
        KeepAlive.start_teacher_bot s = (Ret false, s') /\
        self s' = self s /\ procs (os s') = procs (os s) /\
        trace (os s')
        = Log "❌ Error starting Teacher Bot: {e}" :: Popen "TelegramBot.py"
          :: Log "🎓 Starting Teacher Bot..." :: trace (os s)) /\
     (exists s',
        KeepAlive.start_student_bot s = (Ret false, s') /\
        self s' = self s /\ procs (os s') = procs (os s) /\
        trace (os s')
        = Log "❌ Error starting Student Bot: {e}" :: Popen "StudentBot.py"
          :: Log "👨‍🎓 Starting Student Bot..." :: trace (os s))) /\
  (forall s e, fault (env (os s)) (S (step (os s))) = Some e ->
     (exists s',
        CloudRun.start_teacher_bot s = (Ret false, s') /\
        self s' = self s /\ procs (os s') = procs (os s) /\
        trace (os s')
        = Log "❌ Error starting Teacher Bot: {e}" :: Popen "TelegramBot.py"
          :: Log "🎓 Starting Teacher Bot..." :: trace (os s)) /\
     (exists s',
        CloudRun.start_student_bot s = (Ret false, s') /\
        self s' = self s /\ procs (os s') = procs (os s) /\
        trace (os s')
        = Log "❌ Error starting Student Bot: {e}" :: Popen "StudentBot.py"
          :: Log "👨‍🎓 Starting Student Bot..." :: trace (os s))).
Proof.
  split; [exact keepalive_launch_outcome|].
  split; [exact cloudrun_launch_outcome|].
  split; [exact keepalive_launch_refused | exact cloudrun_launch_refused].
Qed.

Lemma launch_reports_what_became_of_the_process_witness :
  calm (env (os (KeepAlive.fresh (boot quiet_env)))) /\
  (exists s',
     KeepAlive.start_teacher_bot (KeepAlive.fresh (boot quiet_env))
     = (Ret true, s') /\
     worker_up (os s') (KeepAlive.teacher_process (self s')) = true) /\
  fault (env (os (KeepAlive.fresh (boot refusing_env))))
    (S (step (os (KeepAlive.fresh (boot refusing_env))))) = Some OSError /\
  (exists s',
     KeepAlive.start_teacher_bot (KeepAlive.fresh (boot refusing_env))
     = (Ret false, s') /\
     KeepAlive.teacher_process (self s') = None) /\
  fault (env (os (CloudRun.fresh (boot refusing_env))))
    (S (step (os (CloudRun.fresh (boot refusing_env))))) = Some OSError /\
  exists s',
    CloudRun.start_student_bot (CloudRun.fresh (boot refusing_env))
    = (Ret false, s') /\
    CloudRun.student_process (CloudRun.manager (self s')) = None.
Proof.
  assert (C : calm (env (os (KeepAlive.fresh (boot quiet_env)))))
    by (intros k; reflexivity).
  assert (F1 : fault (env (os (KeepAlive.fresh (boot refusing_env))))
                 (S (step (os (KeepAlive.fresh (boot refusing_env)))))
               = Some OSError) by reflexivity.
  assert (F2 : fault (env (os (CloudRun.fresh (boot refusing_env))))
                 (S (step (os (CloudRun.fresh (boot refusing_env)))))
               = Some OSError) by reflexivity.
  destruct launch_reports_what_became_of_the_process as (H1 & H2 & H3 & H4).
  split; [exact C|]. split; [|split; [exact F1|split; [|split; [exact F2|]]]].
  - destruct (proj1 (H1 _ C)) as (b & s' & E & Hh & Hu).
    assert (Hb : b = true).
    { assert (Hv : (KeepAlive.start_teacher_bot
                      (KeepAlive.fresh (boot quiet_env))).1 = Ret true)
        by (vm_compute; reflexivity).
      rewrite E in Hv. injection Hv as ->. reflexivity. }
    rewrite Hb in E, Hu. exists s'. split; [exact E|]. rewrite Hh. exact Hu.
  - destruct (proj1 (H3 _ OSError F1)) as (s' & E & Hs & _).
    exists s'. split; [exact E|]. rewrite Hs. reflexivity.
  - destruct (proj2 (H4 _ OSError F2)) as (s' & E & Hs & _).
    exists s'. split; [exact E|]. rewrite Hs. reflexivity.
Defined.

(** ** What kill_existing_bots spares *)








(** ** The time of the last ping *)

#[global] Instance later_preorder {Obj} : PreOrder (@later Obj).
Proof.
  split; unfold later.
  - intros s. split; [reflexivity | lia].
  - intros a b c [E1 L1] [E2 L2]. split; [congruence | lia].
Qed.

Ltac later_leaf := unfold later; cbn; split; [reflexivity | lia].

Lemma keepalive_op_later o : Moves later (KeepAlive.run_op o).
Proof.
  destruct o as [path| | | | |]; repeat (progress unfold_keepalive);
    try split_path path; moves_with later_leaf.
Qed.

Lemma keepalive_after_later ops s : later s (KeepAlive.after ops s).
Proof.
  revert s. induction ops as [|o ops IH]; intros s.
  - reflexivity.
  - rewrite after_cons_keepalive.
    etransitivity; [apply keepalive_op_later | apply IH].
Qed.

Lemma integrated_op_later o : Moves later (Integrated.run_op o).
Proof.
  destruct o as [path| | | | | |]; repeat (progress unfold_integrated);
    try split_path path; moves_with later_leaf.
Qed.

Lemma integrated_after_later ops s : later s (Integrated.after ops s).
Proof.
  revert s. induction ops as [|o ops IH]; intros s.
  - reflexivity.
  - rewrite after_cons_integrated.
    etransitivity; [apply integrated_op_later | apply IH].
Qed.

Lemma keepalive_ping_stamp s :
  let s' := (KeepAlive.serve "/keep-alive" s).2 in
  KeepAlive.last_ping (self s') = wall (env (os s)) (step (os s)) /\
  env (os s') = env (os s) /\ step (os s') = S (S (step (os s))).
Proof. destruct s as [o w]. repeat split. Qed.

Lemma integrated_ping_stamp s :
  let s' := (Integrated.serve "/keep-alive" s).2 in
  Integrated.last_ping (self s') = wall (env (os s)) (step (os s)) /\
  env (os s') = env (os s) /\ step (os s') = S (S (step (os s))).
Proof. destruct s as [o w]. repeat split. Qed.

(** X16: last_ping moves with the clock.  /keep-alive stores the time it
    reads when it starts; so, on a clock that never stands still, the
    last_ping a request leaves is strictly later than the one the previous
    request left, whatever requests, loop passes, restarts, start() or
    stop() happened in between.  For keep_bot_alive_24x7 and
    run_bots_24x7_integrated. *)
Theorem last_ping_advances_with_the_clock :
  (forall ops s,
     ticking (env (os s)) ->
     let s1 := (KeepAlive.serve "/keep-alive" s).2 in
     let s2 := (KeepAlive.serve "/keep-alive" (KeepAlive.after ops s1)).2 in
     KeepAlive.last_ping (self s1) < KeepAlive.last_ping (self s2)) /\
  (forall ops s,
     ticking (env (os s)) ->
     let s1 := (Integrated.serve "/keep-alive" s).2 in
     let s2 := (Integrated.serve "/keep-alive" (Integrated.after ops s1)).2 in
     Integrated.last_ping (self s1) < Integrated.last_ping (self s2)).
Proof.
  split; intros ops s Ht s1 s2.
  - destruct (keepalive_ping_stamp s) as (L1 & E1 & S1). fold s1 in L1, E1, S1.
    destruct (keepalive_ping_stamp (KeepAlive.after ops s1)) as (L2 & _).
    fold s2 in L2. destruct (keepalive_after_later ops s1) as [E L].
    rewrite L1, L2, E, E1. apply Ht. lia.
  - destruct (integrated_ping_stamp s) as (L1 & E1 & S1). fold s1 in L1, E1, S1.
    destruct (integrated_ping_stamp (Integrated.after ops s1)) as (L2 & _).
    fold s2 in L2. destruct (integrated_after_later ops s1) as [E L].
    rewrite L1, L2, E, E1. apply Ht. lia.
Qed.

Lemma last_ping_advances_with_the_clock_witness :
  ticking (env (os (KeepAlive.fresh (boot quiet_env)))) /\
  (let s1 := (KeepAlive.serve "/keep-alive"
                (KeepAlive.fresh (boot quiet_env))).2 in
   let s2 := (KeepAlive.serve "/keep-alive"
                (KeepAlive.after [KeepAlive.Monitor;
                                  KeepAlive.Request "/health"] s1)).2 in
   KeepAlive.last_ping (self s1) < KeepAlive.last_ping (self s2)).
Proof.
  assert (T : ticking (env (os (KeepAlive.fresh (boot quiet_env)))))
    by (intros i j H; cbn; lia).
  split; [exact T|].
  exact (proj1 last_ping_advances_with_the_clock
           [KeepAlive.Monitor; KeepAlive.Request "/health"]
           (KeepAlive.fresh (boot quiet_env)) T).
Defined.

(** ** What start() leaves running *)

Lemma thread_start_logs {Obj} (P : event -> Prop) name :
  P (ThreadStart name) -> Moves (@logs Obj P) (thread_start name).
Proof.
  intros H [o w]. unfold thread_start, thread_new, thread_run.
  unfold_monad. cbn. rewrite lookup_insert_eq. cbn.
  destruct (fault (env w) (step w)); cbn;
    exists [ThreadStart name]; split; try reflexivity; repeat constructor;
    exact H.
Qed.

Lemma thread_start_launches {Obj} name (s : Sys Obj) :
  exists evs, trace (os (thread_start name s).2) = evs ++ trace (os s) /\
              In (ThreadStart name) evs.
Proof.
  destruct s as [o w]. unfold thread_start, thread_new, thread_run.
  unfold_monad. cbn. rewrite lookup_insert_eq. cbn.
  destruct (fault (env w) (step w)); cbn;
    exists [ThreadStart name]; split; try reflexivity; left; reflexivity.
Qed.

Section LaunchRules.
Context {Obj : Type} (names : list string) (loop : string).

Lemma launches_bind {A} (c : M (Sys Obj) A) (k : A -> M (Sys Obj) bool) :
  Moves (logs (not_launch names)) c -> (forall a, Launches names loop (k a)) ->
  Launches names loop (bind c k).
Proof.
  intros Hc Hk s. unfold bind. destruct (Hc s) as (e1 & T1 & F1).
  destruct (c s) as [[a|e] s1]; cbn in *.
  - destruct (Hk a s1) as (e2 & T2 & H2). exists (e2 ++ e1). split.
    + rewrite T2, T1. apply app_assoc.
    + destruct (k a s1) as [[[|]|e] s2]; cbn in *; auto.
      * apply in_or_app. left. exact H2.
      * apply Forall_app. split; assumption.
  - exists e1. split; [exact T1 | exact I].
Qed.

Lemma launches_false (c : M (Sys Obj) unit) :
  Moves (logs (not_launch names)) c -> Launches names loop (c ;; ret false).
Proof.
  intros Hc s. unfold bind. destruct (Hc s) as (e1 & T1 & F1).
  destruct (c s) as [[a|e] s1]; cbn in *; exists e1; split; auto.
Qed.

Lemma launches_skip {A} (c : M (Sys Obj) A) (k : A -> M (Sys Obj) bool) :
  Moves (logs (fun _ => True)) c ->
  (forall a, Launches names loop (k a)) ->
  (forall a, Yields (fun b => b = true) (k a)) ->
  Launches names loop (bind c k).
Proof.
  intros Hc Hk Hy s. unfold bind. destruct (Hc s) as (e1 & T1 & _).
  destruct (c s) as [[a|e] s1]; cbn in *.
  - destruct (Hk a s1) as (e2 & T2 & H2). specialize (Hy a s1).
    exists (e2 ++ e1). split; [rewrite T2, T1; apply app_assoc|].
    destruct (k a s1) as [[b|e] s2]; cbn in *; [|exact I]. subst b.
    apply in_or_app. left. exact H2.
  - exists e1. split; [exact T1 | exact I].
Qed.

Lemma launches_hit (k : pid -> M (Sys Obj) bool) :
  (forall a, Moves (logs (fun _ => True)) (k a)) ->
  (forall a, Yields (fun b => b = true) (k a)) ->
  Launches names loop (bind (thread_start loop) k).
Proof.
  intros Hk Hy s. unfold bind.
  destruct (thread_start_launches loop s) as (e1 & T1 & I1).
  destruct (thread_start loop s) as [[a|e] s1]; cbn in *.
  - destruct (Hk a s1) as (e2 & T2 & _). specialize (Hy a s1).
    exists (e2 ++ e1). split; [rewrite T2, T1; apply app_assoc|].
    destruct (k a s1) as [[b|e] s2]; cbn in *; [|exact I]. subst b.
    apply in_or_app. right. exact I1.
  - exists e1. split; [exact T1 | exact I].
Qed.
End LaunchRules.

Ltac not_among := cbn; intuition discriminate.

Ltac loop_leaf := logs_leaf ltac:(first [exact I | not_among]).

Lemma logs_zoom {S T A} (P : event -> Prop) (get : S -> T)
    (set : T -> S -> S) (c : M (Sys T) A) :
  Moves (logs P) c -> Moves (logs P) (zoom get set c).
Proof.
  intros Hc. eapply moves_zoom; [exact Hc|].
  intros s t H. exact H.
Qed.

Ltac prefix_auto :=
  repeat (first [ apply thread_start_logs; not_among
                | apply logs_zoom
                | moves_step | moves_leaf loop_leaf
                | progress unfold text, jsonify, view, not_found, popen,
                    poll_is_none, communicate, terminate, subprocess_run,
                    is_alive, sleep, log, now, emit, guarded, on_self, on_os ]).

Ltac any_leaf := logs_leaf ltac:(exact I).

Ltac yields_true :=
  repeat (first [ apply yields_ret; reflexivity
                | apply yields_bind; intros ? ]).

Ltac any_auto :=
  repeat (first [ apply thread_start_logs; exact I
                | apply logs_zoom
                | moves_step | moves_leaf any_leaf
                | progress unfold log, now, emit, on_self, on_os ]).

Lemma keepalive_start_launches :
  Launches ["self_ping_loop"; "monitor_bots_loop"] "monitor_bots_loop"
    KeepAlive.start.
Proof.
  unfold KeepAlive.start.
  apply launches_bind;
    [unfold KeepAlive.banner; prefix_auto | intros _].
  apply launches_bind;
    [unfold KeepAlive.start_flask_server; prefix_auto | intros _].
  apply launches_bind;
    [unfold KeepAlive.kill_existing_bots; prefix_auto | intros _].
  apply launches_bind;
    [unfold KeepAlive.start_teacher_bot, KeepAlive.start_output_monitor;
     prefix_auto | intros t].
  apply launches_bind;
    [unfold KeepAlive.start_student_bot, KeepAlive.start_output_monitor;
     prefix_auto | intros u].
  destruct (negb (t && u)).
  - apply launches_false. prefix_auto.
  - apply launches_bind; [unfold KeepAlive.banner; prefix_auto | intros _].
    apply launches_skip; [any_auto | intros _ | intros _; yields_true].
    apply launches_skip; [any_auto | intros _ | intros _; yields_true].
    apply launches_hit; [intros _; any_auto | intros _; yields_true].
Qed.

Lemma cloudrun_start_launches :
  Launches ["monitor_bots"] "monitor_bots" CloudRun.start.
Proof.
  unfold CloudRun.start.
  apply launches_bind; [prefix_auto | intros _].
  apply launches_bind; [prefix_auto | intros _].
  apply launches_bind;
    [unfold CloudRun.start_webserver, Webserver.keep_alive,
       Webserver.start_self_ping; prefix_auto | intros ok].
  apply launches_bind; [prefix_auto | intros _].
  apply launches_bind;
    [unfold CloudRun.kill_existing_bots; prefix_auto | intros _].
  apply launches_bind;
    [unfold CloudRun.start_teacher_bot, CloudRun.on_manager; prefix_auto
    | intros t].
  apply launches_bind;
    [unfold CloudRun.start_student_bot, CloudRun.on_manager; prefix_auto
    | intros u].
  destruct (negb (t && u)).
  - apply launches_false. prefix_auto.
  - do 6 (apply launches_bind; [prefix_auto | intros _]).
    apply launches_hit;
      [intros ?; unfold CloudRun.on_manager; any_auto | intros ?; yields_true].
Qed.

Lemma integrated_start_launches :
  Launches [] "monitor_bots_loop" Integrated.start /\
  Yields (fun b => b = true) Integrated.start.
Proof.
  split; [|unfold Integrated.start; yields_true].
  assert (Hs : forall secs,
             Moves (logs (not_launch [])) (Integrated.yield_sleep secs)).
  { intros secs. unfold Integrated.yield_sleep, Integrated.thread_body,
      Integrated.run_teacher, Integrated.run_student. prefix_auto. }
  unfold Integrated.start.
  apply launches_bind; [unfold Integrated.banner; prefix_auto | intros _].
  apply launches_bind;
    [unfold Integrated.start_flask_server;
     repeat (first [apply Hs | apply thread_start_logs; not_among
                   | moves_step | moves_leaf loop_leaf
                   | progress unfold log, now, emit, on_os])
    | intros _].
  apply launches_bind;
    [unfold Integrated.start_teacher_bot_thread, thread_new, thread_run;
     repeat (first [apply Hs | moves_step | moves_leaf loop_leaf
                   | progress unfold log, now, emit, guarded, on_self, on_os])
    | intros _].
  apply launches_bind;
    [unfold Integrated.start_student_bot_thread, thread_new, thread_run;
     repeat (first [apply Hs | moves_step | moves_leaf loop_leaf
                   | progress unfold log, now, emit, guarded, on_self, on_os])
    | intros _].
  apply launches_bind; [apply Hs | intros _].
  apply launches_bind; [prefix_auto | intros tr].
  apply launches_bind; [prefix_auto | intros sr].
  apply launches_skip;
    [destruct (tr && sr); unfold Integrated.banner; any_auto | intros _
    | intros _; yields_true].
  apply launches_skip; [any_auto | intros _ | intros _; yields_true].
  apply launches_skip; [any_auto | intros _ | intros _; yields_true].
  apply launches_hit; [intros _; any_auto | intros _; yields_true].
Qed.

(** X17: what start() leaves running.  In keep_bot_alive_24x7 and
    run_cloud_24_7, whenever start() returns False it has not launched the
    monitor loop (nor, in keep_bot_alive_24x7, the self-ping loop), so
    nothing will restart the bots; whenever it returns True the monitor
    loop has been launched.  In run_bots_24x7_integrated start() never
    returns False: whenever it returns, the monitor loop has been
    launched, whether the bots came up or not. *)
Theorem failed_start_leaves_no_supervisor :
  Launches ["self_ping_loop"; "monitor_bots_loop"] "monitor_bots_loop"
    KeepAlive.start /\
  Launches ["monitor_bots"] "monitor_bots" CloudRun.start /\
  Launches [] "monitor_bots_loop" Integrated.start /\
  Yields (fun b => b = true) Integrated.start.
Proof.
  split; [exact keepalive_start_launches|].
  split; [exact cloudrun_start_launches | exact integrated_start_launches].
Qed.

(** The three cases occur: on a machine where every child exits at once
    the process supervisors give up, and where both bots raise at once the
    integrated system still reports a successful start. *)
Example start_gives_up_when_a_bot_exits_at_once :
  (KeepAlive.start (KeepAlive.fresh (boot children_exit_env))).1 = Ret false /\
  (CloudRun.start (CloudRun.fresh (boot children_exit_env))).1 = Ret false /\
  (KeepAlive.start (KeepAlive.fresh (boot quiet_env))).1 = Ret true /\
  (Integrated.start (Integrated.fresh (boot workers_fail_env))).1 = Ret true.
Proof. repeat split; vm_compute; reflexivity. Qed.

(** ** The pingers against the servers *)

Lemma keepalive_health_reply s :
  calm (env (os s)) ->
  exists r s',
    KeepAlive.serve "/health" s = (Ret r, s') /\
    answers_ok (reply_of r) = true /\
    reports_both_up (reply_of r)
    = worker_up (os s) (KeepAlive.teacher_process (self s))
      && worker_up (os s) (KeepAlive.student_process (self s)).
Proof.
  intros Hcalm. destruct s as [[tp sp rn rc st lp pc pt] w].
  unfold calm in Hcalm. cbn in Hcalm.
  change (KeepAlive.serve "/health") with (view KeepAlive.health).
  unfold KeepAlive.health, KeepAlive.alive_flag, worker_up.
  destruct tp as [p|], sp as [q|]; exec; repeat (rewrite Hcalm; cbn);
    eexists _, _; (split; [reflexivity|]); (split; [reflexivity|]);
    cbn; repeat (match goal with
                 | |- context [procs w !! ?x] =>
                     destruct (procs w !! x) as [[? ? []]|]
                 end); reflexivity.
Qed.

Lemma integrated_health_reply s :
  exists r s',
    Integrated.serve "/health" s = (Ret r, s') /\
    answers_ok (reply_of r) = true /\
    reports_both_up (reply_of r)
    = Integrated.teacher_running (self s)
      && Integrated.student_running (self s).
Proof.
  destruct s as [[tb sb tt_ st_ rn st lp pc pt tr sr] w].
  eexists _, _. split; [reflexivity|]. split; [reflexivity|].
  destruct tr, sr; reflexivity.
Qed.

Lemma webserver_health_seen s :
  exists r s',
    Webserver.serve "/health" s = (Ret r, s') /\
    answers_ok (reply_of r) = true /\
    reports_both_up (reply_of r) = false.
Proof.
  destruct s as [o w]. eexists _, _. repeat split.
Qed.

Lemma simple_test_against (r : response) py_int prog url i rest fuel w :
  py_int i = Some 0 ->
  remote (env w) (3 + step w)%nat = reply_of r ->
  reports_both_up (reply_of r) = false ->
  (SimplePinger.main py_int (prog :: url :: i :: rest) fuel (mkSys tt w)).1
  = Ret (Some 1).
Proof.
  intros Hi Hr Hd.
  rewrite (simple_single_test_exit py_int prog url i rest fuel w Hi).
  rewrite Hr, Hd. reflexivity.
Qed.

(** X18: what the pingers make of /health.  The body keep_bot_alive_24x7
    sends (when no poll fails) and the body run_bots_24x7_integrated sends
    satisfy the external monitor, and the simple pinger reads from them
    that both bots are up exactly when they are.  The body webserver.py
    sends satisfies the external monitor too, but it has no
    teacher_bot_running and student_bot_running fields, so the simple
    pinger always reads it as a bot being down: its single test against
    such a server ends with exit status 1. *)
Theorem pingers_read_what_health_sends :
  (forall s, calm (env (os s)) ->
     exists r s',
       KeepAlive.serve "/health" s = (Ret r, s') /\
       answers_ok (reply_of r) = true /\
       reports_both_up (reply_of r)
       = worker_up (os s) (KeepAlive.teacher_process (self s))
         && worker_up (os s) (KeepAlive.student_process (self s))) /\
  (forall s, exists r s',
     Integrated.serve "/health" s = (Ret r, s') /\
     answers_ok (reply_of r) = true /\
     reports_both_up (reply_of r)
     = Integrated.teacher_running (self s)
       && Integrated.student_running (self s)) /\
  (forall s, exists r s',
     Webserver.serve "/health" s = (Ret r, s') /\
     answers_ok (reply_of r) = true /\
     reports_both_up (reply_of r) = false) /\
  (forall g py_int prog url i rest fuel w,
     py_int i = Some 0 ->
     (exists r, (Webserver.serve "/health" g).1 = Ret r /\
                remote (env w) (3 + step w)%nat = reply_of r) ->
     (SimplePinger.main py_int (prog :: url :: i :: rest) fuel (mkSys tt w)).1
     = Ret (Some 1)).
Proof.
  split; [exact keepalive_health_reply|].
  split; [exact integrated_health_reply|].
  split; [exact webserver_health_seen|].
  intros g py_int prog url i rest fuel w Hi (r & Hr & Hrem).
  apply (simple_test_against r); [exact Hi | exact Hrem|].
  destruct (webserver_health_seen g) as (r' & s' & H & _ & Hd).
  rewrite H in Hr. injection Hr as <-. exact Hd.
Qed.

Lemma pingers_read_what_health_sends_witness :
  calm (env (os keepalive_running)) /\
  (exists r s',
     KeepAlive.serve "/health" keepalive_running = (Ret r, s') /\
     reports_both_up (reply_of r) = true) /\
  (fun _ : string => Some 0) "0" = Some 0 /\
  (exists r,
     (Webserver.serve "/health" (Webserver.fresh (boot quiet_env))).1 = Ret r /\
     remote (env (boot webserver_remote_env))
       (3 + step (boot webserver_remote_env))%nat = reply_of r) /\
  (SimplePinger.main (fun _ => Some 0)
     ["simple_external_pinger.py"; "https://bot.example"; "0"] 0
     (mkSys tt (boot webserver_remote_env))).1 = Ret (Some 1).
Proof.
  assert (C : calm (env (os keepalive_running))) by (intros k; reflexivity).
  assert (R : exists r,
             (Webserver.serve "/health" (Webserver.fresh (boot quiet_env))).1
             = Ret r /\
             remote (env (boot webserver_remote_env))
               (3 + step (boot webserver_remote_env))%nat = reply_of r)
    by (eexists; split; reflexivity).
  destruct pingers_read_what_health_sends as (H1 & _ & _ & H4).
  split; [exact C|]. split; [|split; [reflexivity|split; [exact R|]]].
  - destruct (H1 keepalive_running C) as (r & s' & E & _ & Hb).
    exists r, s'. split; [exact E|]. rewrite Hb. vm_compute. reflexivity.
  - exact (H4 (Webserver.fresh (boot quiet_env)) (fun _ => Some 0) _ _ "0" []
              O (boot webserver_remote_env) eq_refl R).
Defined.

(** ** Status codes *)









(** ** What /health reports *)

Lemma keepalive_health_fields s :
  calm (env (os s)) ->
  exists r s',
    KeepAlive.serve "/health" s = (Ret r, s') /\ status_code r = 200 /\
    self s' = self s /\
    field "teacher_bot_running" r
    = Some (handle_flag (os s) (KeepAlive.teacher_process (self s))) /\
    field "student_bot_running" r
    = Some (handle_flag (os s) (KeepAlive.student_process (self s))) /\
    field "restart_count" r = Some (JInt (KeepAlive.restart_count (self s))) /\
    field "ping_count" r = Some (JInt (KeepAlive.ping_count (self s))) /\
    field "last_ping" r = Some (JIso (KeepAlive.last_ping (self s))).
Proof.
  intros Hcalm. destruct s as [[tp sp rn rc st lp pc pt] w].
  unfold calm in Hcalm. cbn in Hcalm.
  change (KeepAlive.serve "/health") with (view KeepAlive.health).
  unfold KeepAlive.health, KeepAlive.alive_flag, handle_flag, worker_up.
  destruct tp as [p|], sp as [q|]; exec; repeat (rewrite Hcalm; cbn);
    eexists _, _; (split; [reflexivity|]); (split; [reflexivity|]);
    (split; [reflexivity|]);
    cbn; repeat (match goal with
                 | |- context [procs w !! ?x] =>
                     destruct (procs w !! x) as [[? ? []]|]
                 end); repeat split.
Qed.

(** X20: what /health of keep_bot_alive_24x7 reports, when no poll fails.
    It answers 200 and leaves the object alone; restart_count, ping_count
    and last_ping are the stored ones; the running field of a worker is
    the result of polling its handle, and null while the supervisor holds
    no handle for it, that is before the first launch. *)
Theorem health_reports_the_state s :
  calm (env (os s)) ->
  exists r s',
    KeepAlive.serve "/health" s = (Ret r, s') /\ status_code r = 200 /\
    self s' = self s /\
    field "teacher_bot_running" r
    = Some (handle_flag (os s) (KeepAlive.teacher_process (self s))) /\
    field "student_bot_running" r
    = Some (handle_flag (os s) (KeepAlive.student_process (self s))) /\
    field "restart_count" r = Some (JInt (KeepAlive.restart_count (self s))) /\
    field "ping_count" r = Some (JInt (KeepAlive.ping_count (self s))) /\
    field "last_ping" r = Some (JIso (KeepAlive.last_ping (self s))).
Proof. exact (keepalive_health_fields s). Qed.

Lemma health_reports_the_state_witness :
  calm (env (os (KeepAlive.fresh (boot quiet_env)))) /\
  exists r s',
    KeepAlive.serve "/health" (KeepAlive.fresh (boot quiet_env))
    = (Ret r, s') /\
    field "teacher_bot_running" r = Some JNull /\
    field "student_bot_running" r = Some JNull /\
    field "status" r = Some (JStr "partial").
Proof.
  assert (C : calm (env (os (KeepAlive.fresh (boot quiet_env)))))
    by (intros k; reflexivity).
  split; [exact C|].
  destruct (health_reports_the_state _ C)
    as (r & s' & E & _ & _ & Ht & Hs & _).
  exists r, s'. split; [exact E|]. split; [exact Ht|]. split; [exact Hs|].
  assert (Hv : (KeepAlive.serve "/health"
                  (KeepAlive.fresh (boot quiet_env))).1
               = Ret r) by (rewrite E; reflexivity).
  vm_compute in Hv. injection Hv as <-. vm_compute. reflexivity.
Defined.
